(** * GovJarvis: the self-healing JSON pipeline and the chat revision protocol

    A shallow embedding of [backend/chat.ts] ([getChatResponse]), of the
    staffing-plan generator ([sanitizePotentialFormatting],
    [parseJsonWithRetry], [generateStaffingPlan]) and of the text extraction
    from uploaded files ([extractTextFromFile], [extractTextFromPDF]),
    followed by the properties of the specification that concern them and by
    further properties of the code.

    JavaScript strings are sequences of UTF-16 code units; they are modelled
    as lists of code units so that [includes], [split], [substring], [trim]
    and the regular-expression replacements act on exactly the positions the
    engine sees. *)

From Stdlib Require Import List NArith ZArith Bool Lia.
From Stdlib Require Import Strings.String Strings.Ascii Numbers.DecimalString.
From Stdlib Require Numbers.DecimalNat.
Import ListNotations.

Set Implicit Arguments.
Set Warnings "-register-all".

(** ** Strings *)

Module Str.

Definition jsstring := list N.

(** A literal: every character of an ASCII text is one code unit. *)
Definition js (s : string) : jsstring :=
  map N_of_ascii (list_ascii_of_string s).
Arguments js s%_string.

Definition dq : jsstring := [34%N].   (* the double quote *)
Definition nl : jsstring := [10%N].   (* line feed *)
Definition q (s : string) : jsstring := dq ++ js s ++ dq.
Arguments q s%_string.

Definition numeral (n : nat) : jsstring :=
  js (NilZero.string_of_uint (Nat.to_uint n)).

Definition eqb (a b : jsstring) : bool :=
  if list_eq_dec N.eq_dec a b then true else false.

(** [WhiteSpace] and [LineTerminator] of ECMAScript: what [String.prototype.trim]
    removes and what [\s] matches. *)
Definition isWhiteSpace (c : N) : bool :=
  ((9 <=? c) && (c <=? 13) || (c =? 32) || (c =? 160) || (c =? 5760)
   || (8192 <=? c) && (c <=? 8202) || (c =? 8232) || (c =? 8233)
   || (c =? 8239) || (c =? 8287) || (c =? 12288) || (c =? 65279))%N.

Fixpoint dropWhile (p : N -> bool) (s : jsstring) : jsstring :=
  match s with
  | [] => []
  | c :: t => if p c then dropWhile p t else s
  end.

Definition dropWhileEnd (p : N -> bool) (s : jsstring) : jsstring :=
  rev (dropWhile p (rev s)).

Definition trim (s : jsstring) : jsstring :=
  dropWhileEnd isWhiteSpace (dropWhile isWhiteSpace s).

Fixpoint startsWith (p s : jsstring) : bool :=
  match p, s with
  | [], _ => true
  | _ :: _, [] => false
  | a :: p', b :: s' => (a =? b)%N && startsWith p' s'
  end.

(** [s.includes(p)] *)
Fixpoint includes (p s : jsstring) : bool :=
  startsWith p s ||
  match s with
  | [] => false
  | _ :: t => includes p t
  end.

(** [s.split(sep)] for a non-empty separator: the pieces between successive
    non-overlapping occurrences, found left to right.  [skip] counts the
    code units of a matched separator still to be passed over and [cur] holds
    the current piece, reversed. *)
Fixpoint split_go (sep : jsstring) (skip : nat) (cur s : jsstring)
  : list jsstring :=
  match s with
  | [] => [rev cur]
  | c :: t =>
      match skip with
      | S k => split_go sep k cur t
      | O =>
          if startsWith sep s
          then rev cur :: split_go sep (List.length sep - 1) [] t
          else split_go sep 0 (c :: cur) t
      end
  end.

Definition split (sep s : jsstring) : list jsstring := split_go sep 0 [] s.

(** [s.substring(a)] and [s.substring(0, b)] for indices within bounds or
    beyond the end (both clamp to the length). *)
Definition substringFrom (a : nat) (s : jsstring) : jsstring := skipn a s.
Definition substringTo (b : nat) (s : jsstring) : jsstring := firstn b s.

(** Removal of every match of a fixed-length pattern, as
    [s.replace(/.../g, "")] does: leftmost match first, the scan resuming
    after the match. *)
Fixpoint removeAll_go (matches : jsstring -> bool) (len skip : nat)
  (s : jsstring) : jsstring :=
  match s with
  | [] => []
  | c :: t =>
      match skip with
      | S k => removeAll_go matches len k t
      | O =>
          if matches s
          then removeAll_go matches len (len - 1) t
          else c :: removeAll_go matches len 0 t
      end
  end.

Definition removeAll (matches : jsstring -> bool) (len : nat)
  (s : jsstring) : jsstring := removeAll_go matches len 0 s.

End Str.
Import Str.

(** ** JSON values and [JSON.parse] *)

Module Json.

(** A JSON number is kept as the decimal its literal denotes,
    [(-1)^neg * coeff * 10^exp10]; the rounding to a double is applied where
    the program observes it ([isZero]). *)
Record decimal := { neg : bool; coeff : N; exp10 : Z }.

Inductive value :=
| VUndefined
| VNull
| VBool (b : bool)
| VNumber (d : decimal)
| VString (s : jsstring)
| VArray (xs : list value)
| VObject (fields : list (jsstring * value)).

(** Own properties of an object, looked up by name. *)
Fixpoint lookup (k : jsstring) (fs : list (jsstring * value)) : option value :=
  match fs with
  | [] => None
  | (k', v) :: t => if Str.eqb k k' then Some v else lookup k t
  end.

(** Definition of a property: an existing one keeps its place and takes the
    new value, a new one is added. *)
Fixpoint setField (k : jsstring) (v : value) (fs : list (jsstring * value))
  : list (jsstring * value) :=
  match fs with
  | [] => [(k, v)]
  | (k', v') :: t =>
      if Str.eqb k k' then (k', v) :: t else (k', v') :: setField k v t
  end.

(** A decimal rounds to [0] (or [-0]) exactly when it is at most half the
    smallest subnormal double, [2^-1075]. *)
Definition isZero (d : decimal) : bool :=
  (coeff d =? 0)%N
  || ((exp10 d <? 0) && (Z.of_N (coeff d) * 2 ^ 1075 <=? 10 ^ (- exp10 d)))%Z.

Definition isNegative (d : decimal) : bool := neg d && negb (isZero d).

(** [ToBoolean] *)
Definition truthy (v : value) : bool :=
  match v with
  | VUndefined | VNull => false
  | VBool b => b
  | VNumber d => negb (isZero d)
  | VString s => match s with [] => false | _ => true end
  | VArray _ | VObject _ => true
  end.

Definition isArray (v : value) : bool :=
  match v with VArray _ => true | _ => false end.

(** [typeof v === 'number'] *)
Definition isNumber (v : value) : bool :=
  match v with VNumber _ => true | _ => false end.

(** *** The parser

    [JSON.parse] is a built-in; it is modelled by a pushdown recogniser of
    the JSON grammar (ECMA-404) that consumes one code unit at a time and
    builds the value on a stack of open containers. *)

Definition toAscii (c : N) : option ascii :=
  if (c <? 256)%N then Some (ascii_of_N c) else None.

Definition isJsonWs (c : N) : bool :=
  ((c =? 9) || (c =? 10) || (c =? 13) || (c =? 32))%N.

Definition digitOf (c : N) : option N :=
  if ((48 <=? c) && (c <=? 57))%N then Some (c - 48)%N else None.

Definition hexOf (c : N) : option N :=
  if ((48 <=? c) && (c <=? 57))%N then Some (c - 48)%N
  else if ((65 <=? c) && (c <=? 70))%N then Some (c - 55)%N
  else if ((97 <=? c) && (c <=? 102))%N then Some (c - 87)%N
  else None.

Inductive frame :=
| FArr (elems : list value)                              (* reversed *)
| FObj (fields : list (jsstring * value)) (key : option jsstring).

Inductive strmode :=
| SNormal
| SEscape
| SHex (ndigits : nat) (acc : N).

Inductive numstate :=
| NMinus | NZero | NInt | NDot | NFrac | NExp | NExpSign | NExpDigits.

Record numacc :=
  { nneg : bool; ncoeff : N; nfrac : N; eneg : bool; eexp : N }.

Inductive litstate :=
| T_r | T_u | T_e | F_a | F_l | F_s | F_e | N_u | N_l | N_ll.

Inductive mode :=
| MValue
| MValueOrClose
| MKeyOrClose
| MKey
| MColon
| MAfter
| MString (iskey : bool) (acc : jsstring) (sm : strmode)   (* acc reversed *)
| MNumber (ns : numstate) (a : numacc)
| MLiteral (l : litstate).

Inductive pstate :=
| PErr
| PRun (stack : list frame) (m : mode)
| PDone (v : value).

Definition toDecimal (a : numacc) : decimal :=
  {| neg := nneg a;
     coeff := ncoeff a;
     exp10 := ((if eneg a then - Z.of_N (eexp a) else Z.of_N (eexp a))
               - Z.of_N (nfrac a))%Z |}.

Definition accepting (ns : numstate) : bool :=
  match ns with
  | NZero | NInt | NFrac | NExpDigits => true
  | _ => false
  end.

(** A finished value goes to the innermost open container, or is the result. *)
Definition complete (v : value) (stack : list frame) : pstate :=
  match stack with
  | [] => PDone v
  | FArr es :: st => PRun (FArr (v :: es) :: st) MAfter
  | FObj fs (Some k) :: st => PRun (FObj (setField k v fs) None :: st) MAfter
  | FObj _ None :: _ => PErr
  end.

Definition closeArray (stack : list frame) : pstate :=
  match stack with
  | FArr es :: st => complete (VArray (rev es)) st
  | _ => PErr
  end.

Definition closeObject (stack : list frame) : pstate :=
  match stack with
  | FObj fs None :: st => complete (VObject fs) st
  | _ => PErr
  end.

Definition num0 (isneg : bool) (d : N) : numacc :=
  {| nneg := isneg; ncoeff := d; nfrac := 0; eneg := false; eexp := 0 |}.

Definition startValue (stack : list frame) (c : N) : pstate :=
  match digitOf c with
  | Some 0%N => PRun stack (MNumber NZero (num0 false 0))
  | Some d => PRun stack (MNumber NInt (num0 false d))
  | None =>
      match toAscii c with
      | Some "{"%char => PRun (FObj [] None :: stack) MKeyOrClose
      | Some "["%char => PRun (FArr [] :: stack) MValueOrClose
      | Some "034"%char => PRun stack (MString false [] SNormal)
      | Some "-"%char => PRun stack (MNumber NMinus (num0 true 0))
      | Some "t"%char => PRun stack (MLiteral T_r)
      | Some "f"%char => PRun stack (MLiteral F_a)
      | Some "n"%char => PRun stack (MLiteral N_u)
      | _ => PErr
      end
  end.

Definition afterValue (stack : list frame) (c : N) : pstate :=
  if isJsonWs c then PRun stack MAfter
  else
    match toAscii c with
    | Some ","%char =>
        match stack with
        | FArr _ :: _ => PRun stack MValue
        | FObj _ None :: _ => PRun stack MKey
        | _ => PErr
        end
    | Some "]"%char => closeArray stack
    | Some "}"%char => closeObject stack
    | _ => PErr
    end.

(** The code unit that ends a number is then read in the state the number
    leaves. *)
Definition feedAfter (st : pstate) (c : N) : pstate :=
  match st with
  | PRun stack MAfter => afterValue stack c
  | PDone v => if isJsonWs c then PDone v else PErr
  | _ => PErr
  end.

Definition endNumber (stack : list frame) (a : numacc) (c : N) : pstate :=
  feedAfter (complete (VNumber (toDecimal a)) stack) c.

Definition endString (stack : list frame) (iskey : bool) (s : jsstring)
  : pstate :=
  if iskey then
    match stack with
    | FObj fs None :: st => PRun (FObj fs (Some s) :: st) MColon
    | _ => PErr
    end
  else complete (VString s) stack.

Definition stepString (stack : list frame) (iskey : bool) (acc : jsstring)
  (sm : strmode) (c : N) : pstate :=
  let push u := PRun stack (MString iskey (u :: acc) SNormal) in
  match sm with
  | SNormal =>
      if (c =? 34)%N then endString stack iskey (rev acc)
      else if (c =? 92)%N then PRun stack (MString iskey acc SEscape)
      else if (c <? 32)%N then PErr
      else push c
  | SEscape =>
      match toAscii c with
      | Some "034"%char => push 34%N
      | Some "\"%char => push 92%N
      | Some "/"%char => push 47%N
      | Some "b"%char => push 8%N
      | Some "f"%char => push 12%N
      | Some "n"%char => push 10%N
      | Some "r"%char => push 13%N
      | Some "t"%char => push 9%N
      | Some "u"%char => PRun stack (MString iskey acc (SHex 0 0))
      | _ => PErr
      end
  | SHex n h =>
      match hexOf c with
      | Some d =>
          let h' := (16 * h + d)%N in
          if Nat.eqb n 3 then push h'
          else PRun stack (MString iskey acc (SHex (S n) h'))
      | None => PErr
      end
  end.

Definition isE (c : N) : bool := ((c =? 101) || (c =? 69))%N.

Definition stepNumber (stack : list frame) (ns : numstate) (a : numacc)
  (c : N) : pstate :=
  let go ns' a' := PRun stack (MNumber ns' a') in
  let intDigit d :=
    {| nneg := nneg a; ncoeff := (10 * ncoeff a + d)%N; nfrac := nfrac a;
       eneg := eneg a; eexp := eexp a |} in
  let fracDigit d :=
    {| nneg := nneg a; ncoeff := (10 * ncoeff a + d)%N;
       nfrac := (nfrac a + 1)%N; eneg := eneg a; eexp := eexp a |} in
  let expDigit d :=
    {| nneg := nneg a; ncoeff := ncoeff a; nfrac := nfrac a;
       eneg := eneg a; eexp := (10 * eexp a + d)%N |} in
  let expSign isneg :=
    {| nneg := nneg a; ncoeff := ncoeff a; nfrac := nfrac a;
       eneg := isneg; eexp := eexp a |} in
  match ns with
  | NMinus =>
      match digitOf c with
      | Some 0%N => go NZero a
      | Some d => go NInt (intDigit d)
      | None => PErr
      end
  | NZero =>
      if (c =? 46)%N then go NDot a
      else if isE c then go NExp a
      else endNumber stack a c
  | NInt =>
      match digitOf c with
      | Some d => go NInt (intDigit d)
      | None =>
          if (c =? 46)%N then go NDot a
          else if isE c then go NExp a
          else endNumber stack a c
      end
  | NDot =>
      match digitOf c with
      | Some d => go NFrac (fracDigit d)
      | None => PErr
      end
  | NFrac =>
      match digitOf c with
      | Some d => go NFrac (fracDigit d)
      | None => if isE c then go NExp a else endNumber stack a c
      end
  | NExp =>
      match digitOf c with
      | Some d => go NExpDigits (expDigit d)
      | None =>
          if (c =? 43)%N then go NExpSign (expSign false)
          else if (c =? 45)%N then go NExpSign (expSign true)
          else PErr
      end
  | NExpSign =>
      match digitOf c with
      | Some d => go NExpDigits (expDigit d)
      | None => PErr
      end
  | NExpDigits =>
      match digitOf c with
      | Some d => go NExpDigits (expDigit d)
      | None => endNumber stack a c
      end
  end.

Definition stepLiteral (stack : list frame) (l : litstate) (c : N) : pstate :=
  let expect (want : N) (next : pstate) := if (c =? want)%N then next else PErr in
  match l with
  | T_r => expect 114%N (PRun stack (MLiteral T_u))
  | T_u => expect 117%N (PRun stack (MLiteral T_e))
  | T_e => expect 101%N (complete (VBool true) stack)
  | F_a => expect 97%N (PRun stack (MLiteral F_l))
  | F_l => expect 108%N (PRun stack (MLiteral F_s))
  | F_s => expect 115%N (PRun stack (MLiteral F_e))
  | F_e => expect 101%N (complete (VBool false) stack)
  | N_u => expect 117%N (PRun stack (MLiteral N_l))
  | N_l => expect 108%N (PRun stack (MLiteral N_ll))
  | N_ll => expect 108%N (complete VNull stack)
  end.

Definition step (st : pstate) (c : N) : pstate :=
  match st with
  | PErr => PErr
  | PDone v => if isJsonWs c then PDone v else PErr
  | PRun stack m =>
      match m with
      | MValue => if isJsonWs c then st else startValue stack c
      | MValueOrClose =>
          if isJsonWs c then st
          else if (c =? 93)%N then closeArray stack
          else startValue stack c
      | MKeyOrClose =>
          if isJsonWs c then st
          else if (c =? 34)%N then PRun stack (MString true [] SNormal)
          else if (c =? 125)%N then closeObject stack
          else PErr
      | MKey =>
          if isJsonWs c then st
          else if (c =? 34)%N then PRun stack (MString true [] SNormal)
          else PErr
      | MColon =>
          if isJsonWs c then st
          else if (c =? 58)%N then PRun stack MValue
          else PErr
      | MAfter => afterValue stack c
      | MString iskey acc sm => stepString stack iskey acc sm c
      | MNumber ns a => stepNumber stack ns a c
      | MLiteral l => stepLiteral stack l c
      end
  end.

Definition finish (st : pstate) : option value :=
  match st with
  | PDone v => Some v
  | PRun [] (MNumber ns a) =>
      if accepting ns then Some (VNumber (toDecimal a)) else None
  | _ => None
  end.

(** [JSON.parse(text)]: [None] stands for the [SyntaxError] it throws. *)
Definition JSON_parse (text : jsstring) : option value :=
  finish (fold_left step text (PRun [] MValue)).

End Json.
Import Json.


(** ** The host: exceptions, the console and the model client *)

Module Host.

Inductive exn :=
| SyntaxError (text : jsstring)        (* [JSON.parse] rejected [text] *)
| TypeError (what : jsstring)          (* a read on null/undefined, a call of a non-function *)
| JsError (message : jsstring)         (* [new Error(message)] *)
| ApiError (code : option jsstring) (message : option jsstring).
                                       (* the client's rejection of a call *)

(** What a synchronous expression evaluates to. *)
Inductive Result (A : Type) :=
| Ok (a : A)
| Err (e : exn).
Arguments Ok {A} a.
Arguments Err {A} e.

(** How an [async] function settles.  [OutOfFuel] marks a loop that the
    fuel of its definition cut short; the repair loop is given enough. *)
Inductive Outcome (A : Type) :=
| Ret (a : A)
| Throw (e : exn)
| OutOfFuel.
Arguments Ret {A} a.
Arguments Throw {A} e.
Arguments OutOfFuel {A}.

Inductive Role := System | User | Assistant.

Record Message := { role : Role; content : jsstring }.

Record Request :=
  { model : jsstring;
    messages : list Message;
    temperature : decimal;
    max_tokens : option N }.

(** What [openai.chat.completions.create] settles to: a response, of which
    the program reads [choices[0]?.message?.content] only, or a rejection. *)
Inductive Completion :=
| Completed (content : option jsstring)
| Rejected (code : option jsstring) (message : option jsstring).

Inductive level := LLog | LWarn | LError.

Inductive logarg :=
| LStr (s : jsstring)
| LExn (e : exn).

Inductive event :=
| ModelCall (r : Request)
| Console (l : level) (args : list logarg).

(** The language model is an external, non-deterministic service: it is an
    arbitrary transition on a state of its own.  The engine's texts that the
    program only passes on are parameters too. *)
Record Env :=
  { World : Type;
    create : Request -> World -> Completion * World;
    JSON_stringify : value -> jsstring;      (* [JSON.stringify(v, null, 2)] *)
    nativeMessage : exn -> jsstring }.       (* [message] of a built-in error *)

Record St (W : Type) := { world : W; trace : list event }.

(** The state after further events. *)
Definition logged {W} (s : St W) (evs : list event) : St W :=
  {| world := world s; trace := trace s ++ evs |}.

Section Monad.
Variable env : Env.

Definition M (A : Type) : Type :=
  St (World env) -> Outcome A * St (World env).

Definition ret {A} (a : A) : M A := fun s => (Ret a, s).

Definition bind {A B} (m : M A) (f : A -> M B) : M B :=
  fun s =>
    match m s with
    | (Ret a, s') => f a s'
    | (Throw e, s') => (Throw e, s')
    | (OutOfFuel, s') => (OutOfFuel, s')
    end.

Definition throw {A} (e : exn) : M A := fun s => (Throw e, s).

Definition outOfFuel {A} : M A := fun s => (OutOfFuel, s).

Definition lift {A} (r : Result A) : M A :=
  match r with
  | Ok a => ret a
  | Err e => throw e
  end.

(** [try { m } catch (e) { handler e }] *)
Definition tryCatch {A} (m : M A) (handler : exn -> M A) : M A :=
  fun s =>
    match m s with
    | (Throw e, s') => handler e s'
    | r => r
    end.

Definition emit (ev : event) : M unit :=
  fun s => (Ret tt, {| world := world s; trace := trace s ++ [ev] |}).

(** [(await client.chat.completions.create(r)).choices[0]?.message?.content] *)
Definition call (r : Request) : M (option jsstring) :=
  fun s =>
    let (c, w) := create env r (world s) in
    let s' := {| world := w; trace := trace s ++ [ModelCall r] |} in
    match c with
    | Completed content => (Ret content, s')
    | Rejected code msg => (Throw (ApiError code msg), s')
    end.

(** [error.code] and [error.message] of a caught value *)
Definition errorCode (e : exn) : option jsstring :=
  match e with
  | ApiError code _ => code
  | _ => None
  end.

Definition errorMessage (e : exn) : jsstring :=
  match e with
  | JsError m => m
  | ApiError _ (Some m) => m
  | ApiError _ None => js "undefined"
  | _ => nativeMessage env e
  end.

Definition errorName (e : exn) : jsstring :=
  match e with
  | SyntaxError _ => js "SyntaxError"
  | TypeError _ => js "TypeError"
  | _ => js "Error"
  end.

(** [String(err)], that is [Error.prototype.toString] *)
Definition String_ (e : exn) : jsstring :=
  match errorMessage e with
  | [] => errorName e
  | m => errorName e ++ js ": " ++ m
  end.

End Monad.

Arguments ret {env A} a.
Arguments bind {env A B} m f.
Arguments throw {env A} e.
Arguments outOfFuel {env A}.
Arguments lift {env A} r.
Arguments tryCatch {env A} m handler.
Arguments emit {env} ev.
Arguments call {env} r.

Definition run {env A} (m : M env A) (w : World env)
  : Outcome A * St (World env) :=
  m {| world := w; trace := [] |}.

Definition outcome {env A} (r : Outcome A * St (World env)) : Outcome A := fst r.
Definition events {env A} (r : Outcome A * St (World env)) : list event :=
  trace (snd r).

(** The requests sent to the model, in order. *)
Definition calls (evs : list event) : list Request :=
  flat_map (fun ev => match ev with ModelCall r => [r] | _ => [] end) evs.

Definition joinLines (ls : list jsstring) : jsstring :=
  match ls with
  | [] => []
  | l :: rest => l ++ flat_map (fun x => nl ++ x) rest
  end.

(** [x || ""] on a value that is a string, null or undefined *)
Definition orEmpty (x : option jsstring) : jsstring :=
  match x with Some s => s | None => [] end.

End Host.
Import Host.

Declare Scope js_scope.
Delimit Scope js_scope with js.
Notation "x <- m ;; k" := (bind m (fun x => k))
  (at level 61, m at next level, right associativity) : js_scope.
Notation "m ;; k" := (bind m (fun _ => k))
  (at level 61, right associativity) : js_scope.

(** ** The JSON recovery engine *)

Module Recovery.
Local Open Scope js_scope.

Definition PARSER_MODEL : jsstring := js "gpt-4".

(** ASCII case folding: without the [u] flag, [/i] relates a pattern letter
    of [```json] to its two ASCII cases only. *)
Definition lower (c : N) : N :=
  if ((65 <=? c) && (c <=? 90))%N then (c + 32)%N else c.

Fixpoint startsWithCI (p s : jsstring) : bool :=
  match p, s with
  | [], _ => true
  | _ :: _, [] => false
  | a :: p', b :: s' => (lower a =? lower b)%N && startsWithCI p' s'
  end.

Definition fence : jsstring := js "```".
Definition fenceJson : jsstring := js "```json".

(** The class [[()\s]] *)
Definition isWrap (c : N) : bool :=
  (c =? 40)%N || (c =? 41)%N || isWhiteSpace c.

(** <<
    let cleaned = raw.replace(/```json/gi, "").replace(/```/g, "");
    cleaned = cleaned.replace(/^[()\s]+/, "").replace(/[()\s]+$/, "");
    return cleaned.trim();
    >> *)
Definition sanitizePotentialFormatting (raw : jsstring) : jsstring :=
  let cleaned :=
    removeAll (startsWith fence) 3 (removeAll (startsWithCI fenceJson) 7 raw) in
  let cleaned := dropWhileEnd isWrap (dropWhile isWrap cleaned) in
  trim cleaned.

Definition maxRetriesExceeded : jsstring :=
  js "Failed to parse JSON (max retries exceeded)".

Definition repairPrompt (errText raw : jsstring) : jsstring :=
  joinLines
    [ [];
      js "Your last output had invalid JSON. Here is the error:";
      errText;
      [];
      js "Your invalid JSON was:";
      raw;
      [];
      js "Please respond ONLY with valid JSON, no code fences, no commentary. Output must match the schema previously described." ].

Section WithEnv.
Variable env : Env.

Definition repairRequest (originalMessages : list Message)
  (err : exn) (raw : jsstring) : Request :=
  {| model := PARSER_MODEL;
     temperature := {| neg := false; coeff := 0; exp10 := 0 |};
     max_tokens := None;
     messages :=
       originalMessages ++
       [ {| role := System;
            content := repairPrompt (String_ env err) raw |} ] |}.

(** The [while (attempt <= maxRetries)] loop; one unit of fuel per turn. *)
Fixpoint retryLoop (fuel : nat) (originalMessages : list Message)
  (maxRetries attempt : Z) (raw : jsstring) : M env value :=
  match fuel with
  | O => outOfFuel
  | S fuel' =>
      if (attempt <=? maxRetries)%Z then
        match JSON_parse raw with
        | Some v => ret v
        | None =>
            let err := SyntaxError raw in
            let attempt := (attempt + 1)%Z in
            if (attempt >? maxRetries)%Z then
              emit (Console LError
                      [LStr (js "Error parsing JSON, max retries exceeded:");
                       LExn err]) ;;
              emit (Console LError
                      [LStr (js "Last raw content was:" ++ nl); LStr raw]) ;;
              throw (JsError maxRetriesExceeded)
            else
              emit (Console LWarn
                      [LStr (js "Parse attempt #"
                             ++ numeral (Z.to_nat attempt)
                             ++ js " failed. Attempting a " ++ q "repair"
                             ++ js " prompt...")]) ;;
              reply <- call (repairRequest originalMessages err raw) ;;
              let raw := sanitizePotentialFormatting (orEmpty reply) in
              emit (Console LLog
                      [LStr (js "--- REPAIR ATTEMPT #"
                             ++ numeral (Z.to_nat attempt)
                             ++ js " RAW OUTPUT (GPT-4) ---" ++ nl);
                       LStr raw]) ;;
              retryLoop fuel' originalMessages maxRetries attempt raw
        end
      else throw (JsError (js "Failed to parse JSON unexpectedly."))
  end.

Definition parseJsonWithRetry (originalMessages : list Message)
  (content : jsstring) (maxRetries : Z) : M env value :=
  retryLoop (S (Z.to_nat (maxRetries + 1))) originalMessages maxRetries 0
    (sanitizePotentialFormatting content).

(** The default [maxRetries = 2], which is what every caller uses. *)
Definition parseJsonWithRetry_default (originalMessages : list Message)
  (content : jsstring) : M env value :=
  parseJsonWithRetry originalMessages content 2.

End WithEnv.

End Recovery.
Import Recovery.

(** ** The conversational revision protocol *)

Module Chat.
Local Open Scope js_scope.

Record HistoryEntry := { h_role : Role; h_content : option jsstring }.

Record ChatResponse :=
  { message : jsstring;
    updatedPlan : option value;
    error : option jsstring }.

Definition marker : jsstring := js "PLAN_UPDATE:".

(** [v.k] for the property names this program reads ([finalStaffingPlan],
    [tasks], [taskId], [lcat], [hours], [mathRationale], [basis]): none of
    them is an index, [length] or a member of a built-in prototype, so only
    an object can have one. *)
Definition getProp (v : value) (k : string) : Result value :=
  match v with
  | VUndefined | VNull => Err (TypeError (js k))
  | VObject fs =>
      Ok (match lookup (js k) fs with Some x => x | None => VUndefined end)
  | _ => Ok VUndefined
  end.

(** [v?.k] *)
Definition getPropOpt (v : value) (k : string) : value :=
  match getProp v k with
  | Ok x => x
  | Err _ => VUndefined
  end.

Definition trimTask (task : value) : Result value :=
  match task with
  | VUndefined | VNull => Err (TypeError (js "taskId"))
  | _ =>
      Ok (VObject
             [ (js "taskId", getPropOpt task "taskId");
               (js "lcat", getPropOpt task "lcat");
               (js "hours", getPropOpt task "hours");
               (js "mathRationale", getPropOpt task "mathRationale");
               (js "basis", getPropOpt task "basis") ])
  end.

(** [xs.map(f)] for a callback that may throw *)
Fixpoint mapResult {A B} (f : A -> Result B) (xs : list A)
  : Result (list B) :=
  match xs with
  | [] => Ok []
  | x :: t =>
      match f x with
      | Ok y =>
          match mapResult f t with
          | Ok ys => Ok (y :: ys)
          | Err e => Err e
          end
      | Err e => Err e
      end
  end.

(** <<
    planData?.finalStaffingPlan?.tasks
      ? { finalStaffingPlan: { tasks: planData.finalStaffingPlan.tasks.map(...) } }
      : null
    >> *)
Definition trimPlanData (planData : value) : Result value :=
  let tasks := getPropOpt (getPropOpt planData "finalStaffingPlan") "tasks" in
  if truthy tasks then
    match tasks with
    | VArray ts =>
        match mapResult trimTask ts with
        | Ok ts' =>
            Ok (VObject
                  [(js "finalStaffingPlan",
                    VObject [(js "tasks", VArray ts')])])
        | Err e => Err e
        end
    | _ => Err (TypeError (js "planData.finalStaffingPlan.tasks.map"))
    end
  else Ok VNull.

Definition systemPreamble : jsstring :=
  joinLines
    [ js "You are an AI assistant helping with staffing plans.";
      [];
      js "When a user requests changes to the staffing plan, follow these steps:";
      js "1. Parse the user's request carefully";
      js "2. Identify which tasks need modification";
      js "3. Update the values while maintaining data consistency";
      [];
      js "Your response MUST be in this exact format when making changes:";
      js "PLAN_UPDATE:";
      js "{";
      js "  " ++ q "tasks" ++ js ": [";
      js "    {";
      js "      " ++ q "taskId" ++ js ": " ++ q "string" ++ js ",";
      js "      " ++ q "lcat" ++ js ": " ++ q "string" ++ js ",";
      js "      " ++ q "hours" ++ js ": number,";
      js "      " ++ q "mathRationale" ++ js ": " ++ q "string" ++ js ",";
      js "      " ++ q "basis" ++ js ": " ++ q "string";
      js "    }";
      js "  ]";
      js "}";
      [];
      js "[Your explanation of the changes made]";
      [];
      js "For all tasks in the plan that are not being modified, you must include them EXACTLY as they are in the current plan. DO NOT CHANGE THEM AT ALL!";
      [];
      js "Context:" ].

Definition clarification : jsstring :=
  js "I understood your request to update the plan, but I need you to be more specific about what changes you want to make. Please specify which task(s) you want to modify and what values should be changed.".

Definition tooLong : jsstring :=
  js "I apologize, but the plan and conversation history are too long for me to process. Could you try breaking down your request into smaller parts?".

Definition noResponse : jsstring :=
  js "I'm sorry, I couldn't generate a response.".

(** The [for] loop over [updatePart]: [i] is the index of the head of [s],
    the result is [jsonEndIndex] (initially [0]). *)
Fixpoint findJsonEnd (s : jsstring) (i : nat) (bracketCount : Z) : nat :=
  match s with
  | [] => 0
  | c :: t =>
      let bracketCount :=
        if (c =? 123)%N then (bracketCount + 1)%Z else bracketCount in
      if (c =? 125)%N then
        let bracketCount := (bracketCount - 1)%Z in
        if (bracketCount =? 0)%Z then i + 1
        else findJsonEnd t (i + 1) bracketCount
      else findJsonEnd t (i + 1) bracketCount
  end.

(** [jsonStr] and [explanation], from [updatePart] *)
Definition extract (updatePart : jsstring) : jsstring * jsstring :=
  let jsonEndIndex := findJsonEnd updatePart 0 0 in
  (substringTo jsonEndIndex updatePart,
   trim (substringFrom jsonEndIndex updatePart)).

(** [content.split('PLAN_UPDATE:')[1].trim()] *)
Definition updatePartOf (content : jsstring) : Result jsstring :=
  match nth_error (split marker content) 1 with
  | Some part => Ok (trim part)
  | None => Err (TypeError (js "trim"))
  end.

(** The body of [updateData.tasks.forEach((task, index) => ...)] *)
Fixpoint checkTasks (tasks : list value) (index : nat) : Result unit :=
  match tasks with
  | [] => Ok tt
  | task :: rest =>
      match getProp task "taskId" with
      | Ok taskId =>
          if negb (truthy taskId)
             || negb (truthy (getPropOpt task "lcat"))
             || negb (isNumber (getPropOpt task "hours"))
          then Err (JsError (js "Invalid task format at index "
                             ++ numeral index))
          else checkTasks rest (index + 1)
      | Err e => Err e
      end
  end.

(** The own enumerable properties that [{...v}] copies. *)
Definition indexed (xs : list value) : list (jsstring * value) :=
  combine (map numeral (seq 0 (List.length xs))) xs.

Definition ownEnumerable (v : value) : list (jsstring * value) :=
  match v with
  | VObject fs => fs
  | VArray xs => indexed xs
  | VString s => indexed (map (fun c => VString [c]) s)
  | _ => []
  end.

(** [{ ...planData, finalStaffingPlan: { tasks } }].  Properties are read by
    name; the order in which an engine enumerates them is not modelled. *)
Definition replacePlan (planData tasks : value) : value :=
  VObject (setField (js "finalStaffingPlan") (VObject [(js "tasks", tasks)])
             (ownEnumerable planData)).

Definition normalize (h : HistoryEntry) : Message :=
  {| role := h_role h; content := orEmpty (h_content h) |}.

(** [history.slice(-5)] *)
Definition lastFive (history : list HistoryEntry) : list HistoryEntry :=
  skipn (List.length history - 5) history.

Definition nonBlank (m : Message) : bool :=
  negb (Str.eqb (trim (content m)) []).

Definition buildMessages (systemMessage : jsstring)
  (history : list HistoryEntry) (message : option jsstring) : list Message :=
  filter nonBlank
    ([ {| role := System; content := systemMessage |} ]
     ++ map normalize (lastFive history)
     ++ [ {| role := User; content := orEmpty message |} ]).

Section WithEnv.
Variable env : Env.

Definition systemMessage (rfpText : option jsstring) (trimmedPlanData : value)
  : jsstring :=
  systemPreamble ++ nl
  ++ (match rfpText with
      | Some (c :: r) =>
          js "1. RFP Text: " ++ substringTo 1000 (c :: r) ++ js "..."
      | _ => []
      end)
  ++ nl
  ++ (if truthy trimmedPlanData
      then js "2. Current Staffing Plan: "
           ++ JSON_stringify env trimmedPlanData
      else []).

Definition chatRequest (msgs : list Message) : Request :=
  {| model := js "gpt-4";
     messages := msgs;
     temperature := {| neg := false; coeff := 2; exp10 := -1 |};
     max_tokens := Some 4000%N |}.

(** The inner [try] block, entered when the reply holds the marker. *)
Definition applyUpdate (planData : value) (content : jsstring)
  : M env ChatResponse :=
  updatePart <- lift (updatePartOf content) ;;
  let (jsonStr, explanation) := extract updatePart in
  emit (Console LLog [LStr (js "Extracted JSON:"); LStr jsonStr]) ;;
  updateData <-
    match JSON_parse jsonStr with
    | Some v => ret v
    | None => throw (SyntaxError jsonStr)
    end ;;
  tasks <- lift (getProp updateData "tasks") ;;
  if negb (truthy tasks) || negb (isArray tasks) then
    throw (JsError (js "Invalid update format - missing tasks array"))
  else
    lift (checkTasks (match tasks with VArray ts => ts | _ => [] end) 0) ;;
    ret {| message :=
             match explanation with
             | [] => js "Plan updated successfully"
             | _ => explanation
             end;
           updatedPlan := Some (replacePlan planData tasks);
           error := None |}.

Definition getChatResponse (message : option jsstring) (planData : value)
  (rfpText : option jsstring) (history : list HistoryEntry)
  : M env ChatResponse :=
  trimmedPlanData <- lift (trimPlanData planData) ;;
  let msgs :=
    buildMessages (systemMessage rfpText trimmedPlanData) history message in
  tryCatch
    (reply <- call (chatRequest msgs) ;;
     match reply with
     | None | Some [] =>
         ret {| message := noResponse; updatedPlan := None; error := None |}
     | Some content =>
         if includes marker content then
           tryCatch (applyUpdate planData content)
             (fun e =>
                emit (Console LError
                        [LStr (js "Failed to parse plan update:"); LExn e]) ;;
                emit (Console LError
                        [LStr (js "Raw content:"); LStr content]) ;;
                ret {| message := clarification;
                       updatedPlan := None;
                       error := Some (js "Failed to parse plan update") |})
         else
           ret {| message := content; updatedPlan := None; error := None |}
     end)
    (fun err =>
       emit (Console LError
               [LStr (js "Error getting chat response:"); LExn err]) ;;
       match errorCode err with
       | Some code =>
           if Str.eqb code (js "context_length_exceeded") then
             ret {| message := tooLong;
                    updatedPlan := None;
                    error := Some (js "Message too long") |}
           else
             throw (JsError (js "Failed to get AI response: "
                             ++ errorMessage env err))
       | None =>
           throw (JsError (js "Failed to get AI response: "
                           ++ errorMessage env err))
       end).

End WithEnv.

End Chat.
Import Chat.

(** ** A scripted model, for running the functions on concrete inputs *)

Module Scripted.

(** The model answers the calls with the completions of a script, in order;
    past its end it answers with no content. *)
Definition next (r : Request) (script : list Completion)
  : Completion * list Completion :=
  match script with
  | [] => (Completed None, [])
  | c :: rest => (c, rest)
  end.

Definition env : Env :=
  {| World := list Completion;
     create := next;
     JSON_stringify := fun _ => js "{}";
     nativeMessage := fun _ => js "Unexpected token" |}.

Definition says (text : jsstring) : Completion := Completed (Some text).

(** A model that gives the same answer to every call. *)
Definition always (c : Completion) : Env :=
  {| World := unit;
     create := fun _ _ => (c, tt);
     JSON_stringify := fun _ => js "{}";
     nativeMessage := fun _ => js "Unexpected token" |}.

End Scripted.


(** ** The vocabulary of the specification *)

Module Spec.

(** Brace depth of a text: opening braces minus closing braces. *)
Definition delta (c : N) : Z :=
  if (c =? 123)%N then 1%Z else if (c =? 125)%N then (-1)%Z else 0%Z.

Fixpoint depth (s : jsstring) : Z :=
  match s with
  | [] => 0
  | c :: t => (delta c + depth t)%Z
  end.

(** [m] is a position just after a closing brace at which the depth of the
    text read so far is zero. *)
Definition closesAt (s : jsstring) (m : nat) : Prop :=
  0 < m <= List.length s /\ nth (m - 1) s 0%N = 125%N /\ depth (firstn m s) = 0%Z.

(** An own property of a parsed object. *)
Definition field (v : value) (k : string) : option value :=
  match v with
  | VObject fs => lookup (js k) fs
  | _ => None
  end.

(** The line has no [k], or a null or empty one. *)
Definition lacksNonEmpty (line : value) (k : string) : bool :=
  match field line k with
  | None | Some VUndefined | Some VNull | Some (VString []) => true
  | _ => false
  end.

(** The line has no numeric [k]. *)
Definition lacksNumeric (line : value) (k : string) : bool :=
  match field line k with
  | Some (VNumber _) => false
  | _ => true
  end.

(** What the structural validation of an update establishes of a line. *)
Definition checkedLine (line : value) : Prop :=
  exists fs taskId lcat hours,
    line = VObject fs
    /\ lookup (js "taskId") fs = Some taskId /\ truthy taskId = true
    /\ lookup (js "lcat") fs = Some lcat /\ truthy lcat = true
    /\ lookup (js "hours") fs = Some (VNumber hours).

(** The JSON text the revision protocol extracts from a reply. *)
Definition extractedJson (reply : jsstring) : jsstring :=
  match updatePartOf reply with
  | Ok updatePart => fst (extract updatePart)
  | Err _ => []
  end.

Definition extractedExplanation (reply : jsstring) : jsstring :=
  match updatePartOf reply with
  | Ok updatePart => snd (extract updatePart)
  | Err _ => []
  end.

(** Formatting noise around a JSON text: code-fence markers, parentheses and
    white space, in any order. *)
Inductive wrapping : jsstring -> Prop :=
| wrap_nil : wrapping []
| wrap_char c s : isWrap c = true -> wrapping s -> wrapping (c :: s)
| wrap_fence s : wrapping s -> wrapping (fence ++ s)
| wrap_fenceJson f s :
    List.length f = 7 -> startsWithCI fenceJson f = true ->
    wrapping s -> wrapping (f ++ s).

(** Noise without the [```json] markers, as the first replacement leaves
    it. *)
Inductive fenced : jsstring -> Prop :=
| fenced_nil : fenced []
| fenced_char c s : isWrap c = true -> fenced s -> fenced (c :: s)
| fenced_fence s : fenced s -> fenced (fence ++ s).

(** The text does not begin with a backtick or a letter [j]. *)
Definition plainHead (s : jsstring) : Prop :=
  match s with
  | [] => True
  | c :: _ => c <> 96%N /\ lower c <> 106%N
  end.

(** The text is not empty and neither begins nor ends with JSON white
    space. *)
Definition unpadded (s : jsstring) : Prop :=
  match s with
  | [] => False
  | c :: _ => isJsonWs c = false /\ isJsonWs (last s 0%N) = false
  end.

(** The request [getChatResponse] sends, given the trimmed plan. *)
Definition requestOf (env : Env) (message : option jsstring)
  (trimmed : value) (rfpText : option jsstring) (history : list HistoryEntry)
  : Request :=
  chatRequest (buildMessages (systemMessage env rfpText trimmed) history message).

(** The answers of [getChatResponse]. *)
Definition plainAnswer (text : jsstring) : ChatResponse :=
  {| message := text; updatedPlan := None; error := None |}.

Definition softFailure : ChatResponse :=
  {| message := clarification;
     updatedPlan := None;
     error := Some (js "Failed to parse plan update") |}.

Definition tooLongAnswer : ChatResponse :=
  {| message := tooLong;
     updatedPlan := None;
     error := Some (js "Message too long") |}.

Definition revision (planData tasks : value) (explanation : jsstring)
  : ChatResponse :=
  {| message :=
       match explanation with
       | [] => js "Plan updated successfully"
       | _ => explanation
       end;
     updatedPlan := Some (replacePlan planData tasks);
     error := None |}.

(** The line passes the test of the [forEach] callback. *)
Definition accepts (line : value) : bool :=
  match getProp line "taskId" with
  | Ok taskId =>
      truthy taskId
      && truthy (getPropOpt line "lcat")
      && isNumber (getPropOpt line "hours")
  | Err _ => false
  end.

(** Parsing and structural validation of the extracted text, in one piece:
    the tasks of the update, or what the inner [try] block throws. *)
Definition validated (jsonStr : jsstring) : Result value :=
  match JSON_parse jsonStr with
  | None => Err (SyntaxError jsonStr)
  | Some updateData =>
      match getProp updateData "tasks" with
      | Err e => Err e
      | Ok tasks =>
          if negb (truthy tasks) || negb (isArray tasks) then
            Err (JsError (js "Invalid update format - missing tasks array"))
          else
            match checkTasks (match tasks with VArray ts => ts | _ => [] end) 0
            with
            | Ok _ => Ok tasks
            | Err e => Err e
            end
      end
  end.

(** The extracted text is no acceptable update: it does not parse, or the
    parsed value has no [tasks] array, or some line lacks a non-empty
    [taskId], a non-empty [lcat] or a numeric [hours]. *)
Inductive rejectedUpdate (jsonStr : jsstring) : Prop :=
| rejectedParse :
    JSON_parse jsonStr = None -> rejectedUpdate jsonStr
| rejectedShape update :
    JSON_parse jsonStr = Some update ->
    (forall ts, field update "tasks" <> Some (VArray ts)) ->
    rejectedUpdate jsonStr
| rejectedLine update ts line :
    JSON_parse jsonStr = Some update ->
    field update "tasks" = Some (VArray ts) ->
    In line ts ->
    lacksNonEmpty line "taskId" || lacksNonEmpty line "lcat"
      || lacksNumeric line "hours" = true ->
    rejectedUpdate jsonStr.

(** [`${x}`] for a message that may be undefined *)
Definition orUndefined (x : option jsstring) : jsstring :=
  match x with Some s => s | None => js "undefined" end.

(** The reply text of the specification's extraction example. *)
Definition exampleReply : jsstring :=
  js "PLAN_UPDATE:" ++ nl
  ++ js "{" ++ q "tasks" ++ js ":[{" ++ q "a" ++ js ":1},{" ++ q "b"
  ++ js ":{" ++ q "c" ++ js ":2}}]}" ++ nl
  ++ js "Explanation with a stray } character.".

Definition exampleJson : jsstring :=
  js "{" ++ q "tasks" ++ js ":[{" ++ q "a" ++ js ":1},{" ++ q "b"
  ++ js ":{" ++ q "c" ++ js ":2}}]}".

(** What the recovery engine writes to the console. *)
Definition attemptWarning (attempt : Z) : event :=
  Console LWarn
    [LStr (js "Parse attempt #" ++ numeral (Z.to_nat attempt)
           ++ js " failed. Attempting a " ++ q "repair" ++ js " prompt...")].

Definition repairLog (attempt : Z) (raw : jsstring) : event :=
  Console LLog
    [LStr (js "--- REPAIR ATTEMPT #" ++ numeral (Z.to_nat attempt)
           ++ js " RAW OUTPUT (GPT-4) ---" ++ nl);
     LStr raw].

Definition exhaustedLog (raw : jsstring) : list event :=
  [ Console LError
      [LStr (js "Error parsing JSON, max retries exceeded:");
       LExn (SyntaxError raw)];
    Console LError [LStr (js "Last raw content was:" ++ nl); LStr raw] ].

(** [raw] is the text in hand after the events [evs]: the sanitized input
    when no repair was made, else the sanitized reply of the last repair,
    which is the last thing logged. *)
Definition inHand (content : jsstring) (evs : list event) (raw : jsstring)
  : Prop :=
  (evs = [] /\ raw = sanitizePotentialFormatting content)
  \/ (exists before attempt, evs = before ++ [repairLog attempt raw]).

(** The model never answers a repair request with text that parses. *)
Definition neverRepairs (env : Env) : Prop :=
  forall req w,
    exists reply,
      fst (create env req w) = Completed reply
      /\ JSON_parse (sanitizePotentialFormatting (orEmpty reply)) = None.

(** A valid JSON text with a code-fence marker inside a string. *)
Definition fencedNote : jsstring :=
  js "{" ++ q "note" ++ js ":" ++ q "```" ++ js "}".

(** A valid JSON text inside a code fence with another language tag. *)
Definition taggedFence : jsstring :=
  js "```js" ++ nl ++ js "{" ++ q "a" ++ js ":1}" ++ nl ++ js "```".

(** A plan and a reply that revises it with negative hours and no
    rationale. *)
Definition examplePlan : value :=
  VObject
    [ (js "id", VString (js "plan-1"));
      (js "rfpText", VString (js "RFP requiring 2 engineers for 6 months"));
      (js "finalStaffingPlan",
       VObject
         [ (js "tasks",
            VArray
              [ VObject
                  [ (js "taskId", VString (js "1.1"));
                    (js "lcat", VString (js "Program Manager"));
                    (js "hours",
                     VNumber {| neg := false; coeff := 1880; exp10 := 0 |});
                    (js "mathRationale",
                     VString (js "1 FTE x 1880 hr = 1880 hr"));
                    (js "basis", VString (js "RFP section C.5")) ] ]) ]) ].

Definition negativeHoursReply : jsstring :=
  js "PLAN_UPDATE:" ++ nl
  ++ js "{" ++ q "tasks" ++ js ":[{" ++ q "taskId" ++ js ":" ++ q "1.1"
  ++ js "," ++ q "lcat" ++ js ":" ++ q "Program Manager"
  ++ js "," ++ q "hours" ++ js ":-5}]}" ++ nl
  ++ js "Done.".

End Spec.
Import Spec.

(** ** The plan generation pipeline *)

Module Pipeline.
Local Open Scope js_scope.

Definition REASONING_MODEL : jsstring := js "gpt-4".

Inductive Approach := top_down | bottom_up.

Definition approachText (a : Approach) : jsstring :=
  match a with
  | top_down => js "top_down"
  | bottom_up => js "bottom_up"
  end.

Definition step1Prompt (rfpText : jsstring) : jsstring :=
  joinLines
    [ [];
      js "You are an AI that generates a detailed, multi-level staffing plan for Government contracting proposals.";
      js "We'll do this in 3 steps, but for now, just focus on STEP 1 and provide your reasoning in free-form text.";
      [];
      js "**STEP 1**:";
      js "- Identify all top-level tasks and subTasks from the RFP.";
      js "- Some tasks might have hierarchical references (like C.5.1 or Subtask 3.2.1).";
      js "- We'll parse your text into JSON afterward, so you don't need to strictly format it here.";
      [];
      js "In the final JSON, we plan to use this schema:";
      js "{";
      js "  " ++ dq ++ js "tasks" ++ dq ++ js ": [";
      js "    {";
      js "      " ++ dq ++ js "taskId" ++ dq ++ js ": string,";
      js "      " ++ dq ++ js "title" ++ dq ++ js ": string,";
      js "      " ++ dq ++ js "description" ++ dq ++ js ": string,";
      js "      " ++ dq ++ js "subTasks" ++ dq ++ js ": [";
      js "        {";
      js "          " ++ dq ++ js "subTaskId" ++ dq ++ js ": string,";
      js "          " ++ dq ++ js "title" ++ dq ++ js ": string,";
      js "          " ++ dq ++ js "description" ++ dq ++ js ": string";
      js "        }";
      js "      ]";
      js "    }";
      js "  ]";
      js "}";
      [];
      js "RFP TEXT:";
      js "-------------";
      rfpText;
      js "-------------";
      [] ].

Definition step1ParserSystem : jsstring :=
  joinLines
    [ [];
      js "You are a JSON parser. Return ONLY valid JSON" ++ [8212%N] ++ js "no code blocks, ";
      js "no triple backticks, no parentheses, and no extra commentary.";
      js "Strip out any markdown or code-fence formatting. The schema is:";
      [];
      js "{";
      js "  " ++ dq ++ js "tasks" ++ dq ++ js ": [";
      js "    {";
      js "      " ++ dq ++ js "taskId" ++ dq ++ js ": string,";
      js "      " ++ dq ++ js "title" ++ dq ++ js ": string,";
      js "      " ++ dq ++ js "description" ++ dq ++ js ": string,";
      js "      " ++ dq ++ js "subTasks" ++ dq ++ js ": [";
      js "        {";
      js "          " ++ dq ++ js "subTaskId" ++ dq ++ js ": string,";
      js "          " ++ dq ++ js "title" ++ dq ++ js ": string,";
      js "          " ++ dq ++ js "description" ++ dq ++ js ": string";
      js "        }";
      js "      ]";
      js "    }";
      js "  ]";
      js "}";
      [] ].

Definition step2Prompt (tasksStep1 : jsstring) : jsstring :=
  joinLines
    [ [];
      js "You are an AI continuing the same process (STEP 2 now).";
      js "We have the following tasks/subTasks from Step 1:";
      [];
      tasksStep1;
      [];
      js "**STEP 2**:";
      js "- Assign recommended labor categories (LCATs).";
      js "- If a task has subTasks, each subTask will eventually get recommendedLCATs.";
      js "- If a task has no subTasks, the task itself gets recommendedLCATs.";
      [];
      js "In the final JSON, we use:";
      js "{";
      js "  " ++ dq ++ js "tasks" ++ dq ++ js ": [";
      js "    {";
      js "      " ++ dq ++ js "taskId" ++ dq ++ js ": string,";
      js "      " ++ dq ++ js "title" ++ dq ++ js ": string,";
      js "      " ++ dq ++ js "description" ++ dq ++ js ": string,";
      js "      " ++ dq ++ js "subTasks" ++ dq ++ js ": [";
      js "        {";
      js "          " ++ dq ++ js "subTaskId" ++ dq ++ js ": string,";
      js "          " ++ dq ++ js "title" ++ dq ++ js ": string,";
      js "          " ++ dq ++ js "description" ++ dq ++ js ": string,";
      js "          " ++ dq ++ js "recommendedLCATs" ++ dq ++ js ": [string]";
      js "        }";
      js "      ],";
      js "      " ++ dq ++ js "recommendedLCATs" ++ dq ++ js ": [string]";
      js "    }";
      js "  ]";
      js "}";
      [];
      js "Please provide your reasoning in free-form text (no need to produce JSON here).";
      [] ].

Definition step2ParserSystem : jsstring :=
  joinLines
    [ [];
      js "You are a JSON parser. The user will give free-form text describing tasks/subTasks and recommended labor categories.";
      js "Output ONLY valid JSON" ++ [8212%N] ++ js "no code blocks or triple backticks. The structure is:";
      [];
      js "{";
      js "  " ++ dq ++ js "tasks" ++ dq ++ js ": [";
      js "    {";
      js "      " ++ dq ++ js "taskId" ++ dq ++ js ": string,";
      js "      " ++ dq ++ js "title" ++ dq ++ js ": string,";
      js "      " ++ dq ++ js "description" ++ dq ++ js ": string,";
      js "      " ++ dq ++ js "subTasks" ++ dq ++ js ": [";
      js "        {";
      js "          " ++ dq ++ js "subTaskId" ++ dq ++ js ": string,";
      js "          " ++ dq ++ js "title" ++ dq ++ js ": string,";
      js "          " ++ dq ++ js "description" ++ dq ++ js ": string,";
      js "          " ++ dq ++ js "recommendedLCATs" ++ dq ++ js ": [string]";
      js "        }";
      js "      ],";
      js "      " ++ dq ++ js "recommendedLCATs" ++ dq ++ js ": [string]";
      js "    }";
      js "  ]";
      js "}";
      [];
      js "Return only valid JSON, no extra text or parentheses.";
      [] ].

Definition step3Prompt (tasksStep2 approach totalFTE : jsstring) : jsstring :=
  joinLines
    [ [];
      js "You are an AI continuing the same process (STEP 3).";
      js "We have the tasks/subTasks + recommendedLCATs from Step 2:";
      [];
      tasksStep2;
      [];
      js "**STEP 3**:";
      js "- Provide final hours estimates at the subTask level if subTasks exist, else at the task level.";
      js "- Approach = " ++ dq ++ approach ++ dq ++ js ".";
      js "- If approach is " ++ dq ++ js "top_down" ++ dq ++ js ", we have totalFTE = " ++ totalFTE ++ js ".";
      js "-Assume 1880 hours per FTE unless the user provides a different value.";
      js "-The Program Manager should have a max of 1880 hours unless OCONUS";
      js "  - Convert totalFTE to hours, distribute among tasks/subTasks, then break down by labor categories.";
      js "  - Provide a very detailed " ++ dq ++ js "mathRationale" ++ dq ++ js " for each set of lcat and hours. This should look like 250 tickets x .5 hours per ticket = 125 hours.";
      js "- If approach is " ++ dq ++ js "bottom_up" ++ dq ++ js ", derive hours from textual references, workload provided, or workload assumptions, provide " ++ dq ++ js "mathRationale" ++ dq ++ js " and " ++ dq ++ js "basis." ++ dq;
      [];
      js "In the final JSON, we use:";
      js "{";
      js "  " ++ dq ++ js "tasks" ++ dq ++ js ": [";
      js "    {";
      js "      " ++ dq ++ js "taskId" ++ dq ++ js ": string,      // or subTaskId if it's a subTask";
      js "      " ++ dq ++ js "lcat" ++ dq ++ js ": string,        // from recommendedLCATs";
      js "      " ++ dq ++ js "hours" ++ dq ++ js ": number,";
      js "      " ++ dq ++ js "mathRationale" ++ dq ++ js ": string,";
      js "      " ++ dq ++ js "basis" ++ dq ++ js ": string";
      js "    }";
      js "  ]";
      js "}";
      [];
      js "Please provide your reasoning in free-form text. We'll parse it next.";
      [] ].

Definition step3ParserSystem : jsstring :=
  joinLines
    [ [];
      js "You are a JSON parser. The user is providing free-form text describing final hours distribution.";
      js "Output ONLY valid JSON with this structure:";
      [];
      js "{";
      js "  " ++ dq ++ js "tasks" ++ dq ++ js ": [";
      js "    {";
      js "      " ++ dq ++ js "taskId" ++ dq ++ js ": string,   // or subTaskId if it's a subTask";
      js "      " ++ dq ++ js "lcat" ++ dq ++ js ": string,     // from recommendedLCATs";
      js "      " ++ dq ++ js "hours" ++ dq ++ js ": number,";
      js "      " ++ dq ++ js "mathRationale" ++ dq ++ js ": string,";
      js "      " ++ dq ++ js "basis" ++ dq ++ js ": string";
      js "    }";
      js "  ]";
      js "}";
      [];
      js "No code blocks, no triple backticks, no parentheses. Only valid JSON" ++ [8212%N] ++ js "no commentary.";
      [] ].

(** A reasoning request names no temperature: the service then samples at
    its default, 1. *)
Definition defaultTemperature : decimal :=
  {| neg := false; coeff := 1; exp10 := 0 |}.

Definition reasoningRequest (maxTokens : N) (prompt : jsstring) : Request :=
  {| model := REASONING_MODEL;
     messages := [ {| role := User; content := prompt |} ];
     temperature := defaultTemperature;
     max_tokens := Some maxTokens |}.

Definition parserPrompt (system text : jsstring) : list Message :=
  [ {| role := System; content := system |};
    {| role := User; content := text |} ].

Definition parserRequest (prompt : list Message) : Request :=
  {| model := PARSER_MODEL;
     messages := prompt;
     temperature := {| neg := false; coeff := 2; exp10 := -1 |};
     max_tokens := Some 16000%N |}.

Definition logText (label text : jsstring) : event :=
  Console LLog [LStr label; LStr text].

Section WithEnv.
Variable env : Env.

(** [Number.prototype.toString] of the engine, for a number that is not
    zero. *)
Variable Number_toString : decimal -> jsstring.

(** [`${totalFTE || 0}`] *)
Definition fteText (totalFTE : option decimal) : jsstring :=
  match totalFTE with
  | Some d => if isZero d then js "0" else Number_toString d
  | None => js "0"
  end.

Definition step2Request (tasksStep1 : value) : Request :=
  reasoningRequest 10000 (step2Prompt (JSON_stringify env tasksStep1)).

Definition step3Request (tasksStep2 : value) (approach : Approach)
  (totalFTE : option decimal) : Request :=
  reasoningRequest 30000
    (step3Prompt (JSON_stringify env tasksStep2) (approachText approach)
       (fteText totalFTE)).

Definition generateStaffingPlan (rfpText : jsstring) (approach : Approach)
  (totalFTE : option decimal) : M env value :=
  emit (logText (nl ++ js "------- TEXT BEING SENT TO LLM -------" ++ nl)
          rfpText) ;;
  step1Raw <- call (reasoningRequest 10000 (step1Prompt rfpText)) ;;
  emit (logText (js "--- STEP 1 RAW (gpt-4) ---" ++ nl) (orEmpty step1Raw)) ;;
  let step1ParserPrompt := parserPrompt step1ParserSystem (orEmpty step1Raw) in
  step1Parsed <- call (parserRequest step1ParserPrompt) ;;
  emit (logText (js "--- STEP 1 PARSER (gpt-4) ---" ++ nl)
          (orEmpty step1Parsed)) ;;
  tasksStep1 <-
    parseJsonWithRetry_default env step1ParserPrompt (orEmpty step1Parsed) ;;
  step2Raw <- call (step2Request tasksStep1) ;;
  emit (logText (js "--- STEP 2 RAW (gpt-4) ---" ++ nl) (orEmpty step2Raw)) ;;
  let step2ParserPrompt := parserPrompt step2ParserSystem (orEmpty step2Raw) in
  step2Parsed <- call (parserRequest step2ParserPrompt) ;;
  emit (logText (js "--- STEP 2 PARSER (gpt-4) ---" ++ nl)
          (orEmpty step2Parsed)) ;;
  tasksStep2 <-
    parseJsonWithRetry_default env step2ParserPrompt (orEmpty step2Parsed) ;;
  step3Raw <- call (step3Request tasksStep2 approach totalFTE) ;;
  emit (logText (js "--- STEP 3 RAW (gpt-4) ---" ++ nl) (orEmpty step3Raw)) ;;
  let step3ParserPrompt := parserPrompt step3ParserSystem (orEmpty step3Raw) in
  step3Parsed <- call (parserRequest step3ParserPrompt) ;;
  emit (logText (js "--- STEP 3 PARSER (gpt-4) ---" ++ nl)
          (orEmpty step3Parsed)) ;;
  finalHours <-
    parseJsonWithRetry_default env step3ParserPrompt (orEmpty step3Parsed) ;;
  ret (VObject
         [ (js "step1Tasks", tasksStep1);
           (js "step2TasksWithLCATs", tasksStep2);
           (js "finalStaffingPlan", finalHours) ]).

End WithEnv.


(** What a computation does from any state: how it settles and the events
    it adds to the trace. *)
Definition steps {env A} (m : M env A)
  (P : Outcome A -> list event -> Prop) : Prop :=
  forall s : St (World env),
    exists o evs w',
      m s = (o, {| world := w'; trace := trace s ++ evs |}) /\ P o evs.

(** The value is one that [JSON.parse] gave for some text. *)
Definition parsed (v : value) : Prop := exists raw, JSON_parse raw = Some v.

(** The request is a repair request for [prompt]: the prompt followed by
    the repair message for a text that did not parse. *)
Definition repairs (env : Env) (prompt : list Message) (req : Request)
  : Prop :=
  exists text,
    JSON_parse text = None
    /\ req = repairRequest env prompt (SyntaxError text) text.

(** The requests of one stage: the reasoning request, the parser request
    for the free-form answer [raw], and at most two repair requests for
    that parser prompt. *)
Definition stageCalls (reasoning : Request)
  (system raw : jsstring) (reps : list Request) : list Request :=
  [reasoning; parserRequest (parserPrompt system raw)] ++ reps.

Definition stageRepairs (env : Env) (system raw : jsstring)
  (reps : list Request) : Prop :=
  List.length reps <= 2
  /\ Forall (repairs env (parserPrompt system raw)) reps.

(** The requests of a run that went through the three stages, with the
    values [t1] and [t2] that stages one and two gave. *)
Definition threeStages (env : Env) (Number_toString : decimal -> jsstring)
  (rfpText : jsstring) (approach : Approach) (totalFTE : option decimal)
  (t1 t2 : value) (cs : list Request) : Prop :=
  exists raw1 raw2 raw3 reps1 reps2 reps3,
    cs = stageCalls (reasoningRequest 10000 (step1Prompt rfpText))
           step1ParserSystem raw1 reps1
         ++ stageCalls (step2Request env t1) step2ParserSystem raw2 reps2
         ++ stageCalls (step3Request env Number_toString t2 approach totalFTE)
              step3ParserSystem raw3 reps3
    /\ stageRepairs env step1ParserSystem raw1 reps1
    /\ stageRepairs env step2ParserSystem raw2 reps2
    /\ stageRepairs env step3ParserSystem raw3 reps3.

Definition planOf (t1 t2 t3 : value) : value :=
  VObject
    [ (js "step1Tasks", t1);
      (js "step2TasksWithLCATs", t2);
      (js "finalStaffingPlan", t3) ].

(** The completions the model gives to a sequence of requests, from the
    world [w] on, and the world it is left in. *)
Fixpoint answers (env : Env) (w : World env) (reqs : list Request)
  : list Completion :=
  match reqs with
  | [] => []
  | r :: rest => fst (create env r w) :: answers env (snd (create env r w)) rest
  end.

Fixpoint worldAfter (env : Env) (w : World env) (reqs : list Request)
  : World env :=
  match reqs with
  | [] => w
  | r :: rest => worldAfter env (snd (create env r w)) rest
  end.

(** What a computation does from the world [w]: how it settles, the events
    it adds to the trace and the completions the model gave to the requests
    among them. *)
Definition exchanges {env A} (w : World env) (m : M env A)
  (P : Outcome A -> list event -> list Completion -> Prop) : Prop :=
  forall tr,
    exists o evs,
      m {| world := w; trace := tr |}
      = (o, {| world := worldAfter env w (calls evs); trace := tr ++ evs |})
      /\ P o evs (answers env w (calls evs)).

(** The completions of one stage: the first is the free-form answer, the
    last is a text that, once sanitized, parses to the value of the
    stage. *)
Definition stageAnswered (a : list Completion) (free : option jsstring)
  (t : value) : Prop :=
  hd_error a = Some (Completed free)
  /\ exists final,
       last a (Completed None) = Completed final
       /\ JSON_parse (sanitizePotentialFormatting (orEmpty final)) = Some t.

(** The requests [cs] of a run that went through the three stages and the
    completions [ans] they got, request by request.  In each stage the
    parser request carries the free-form answer to the reasoning request,
    every further request is a repair of the parser request, and the value
    of the stage is the parse of the last completion; the reasoning
    requests of stages two and three quote the values of stages one and
    two. *)
Definition stagesAnswered (env : Env) (Number_toString : decimal -> jsstring)
  (rfpText : jsstring) (approach : Approach) (totalFTE : option decimal)
  (t1 t2 t3 : value) (cs : list Request) (ans : list Completion) : Prop :=
  exists free1 free2 free3 reps1 reps2 reps3 a1 a2 a3,
    cs = stageCalls (reasoningRequest 10000 (step1Prompt rfpText))
           step1ParserSystem (orEmpty free1) reps1
         ++ stageCalls (step2Request env t1) step2ParserSystem
              (orEmpty free2) reps2
         ++ stageCalls (step3Request env Number_toString t2 approach totalFTE)
              step3ParserSystem (orEmpty free3) reps3
    /\ ans = a1 ++ a2 ++ a3
    /\ List.length a1 = 2 + List.length reps1
    /\ List.length a2 = 2 + List.length reps2
    /\ List.length a3 = 2 + List.length reps3
    /\ stageRepairs env step1ParserSystem (orEmpty free1) reps1
    /\ stageRepairs env step2ParserSystem (orEmpty free2) reps2
    /\ stageRepairs env step3ParserSystem (orEmpty free3) reps3
    /\ stageAnswered a1 free1 t1
    /\ stageAnswered a2 free2 t2
    /\ stageAnswered a3 free3 t3.

End Pipeline.
Import Pipeline.

(** ** Text extraction from uploaded files *)

Module Files.

(** The uploaded file as the upload hands it over; [buffer] is absent or a
    sequence of bytes. *)
Record File :=
  { buffer : option (list N);
    mimetype : jsstring;
    size : N;
    originalname : jsstring }.

(** The document libraries: [pdf-parse] gives the text of the document
    ([None]: no data, or data without text), [mammoth.extractRawText] a
    value and a list of messages, [PDFDocument.load] of [pdf-lib] the pages
    with what the call [page.getText()] gives on each, a text or an
    exception.  Each may reject. *)
Record Parsers :=
  { PDF : list N -> Result (option jsstring);
    extractRawText : list N -> Result (jsstring * list jsstring);
    load : list N -> Result (list (Result jsstring)) }.

Inductive event :=
| Processing (mimetype : jsstring) (size : N) (originalname : jsstring)
| PdfParsed (textLength : nat)
| PdfFailed (e : exn)
| WordParsed (textLength : nat)
| MammothMessages (messages : list jsstring)
| WordFailed (e : exn)
| ExtractFailed (e : exn) (mimetype : jsstring) (size : N)
    (originalname : jsstring)
| PdfTextFailed (e : exn).

Definition pdfType : jsstring := js "application/pdf".
Definition docxType : jsstring :=
  js "application/vnd.openxmlformats-officedocument.wordprocessingml.document".

Section WithEnv.
Variable env : Env.
Variable parsers : Parsers.

(** The inner [try] of the PDF branch and its [catch]. *)
Definition pdfBranch (buf : list N) : Result jsstring * list event :=
  let attempt :=
    match PDF parsers buf with
    | Ok (Some (c :: text)) => Ok (c :: text)
    | Ok _ => Err (JsError (js "Failed to extract text from PDF"))
    | Err e => Err e
    end in
  match attempt with
  | Ok text => (Ok (trim text), [PdfParsed (List.length text)])
  | Err pdfError =>
      (Err (JsError (js "PDF parsing failed: " ++ errorMessage env pdfError)),
       [PdfFailed pdfError])
  end.

Definition wordBranch (buf : list N) : Result jsstring * list event :=
  match extractRawText parsers buf with
  | Ok (text, messages) =>
      (Ok (trim text),
       WordParsed (List.length text)
       :: match messages with
          | [] => []
          | _ => [MammothMessages messages]
          end)
  | Err docError =>
      (Err (JsError (js "Word document parsing failed: "
                     ++ errorMessage env docError)),
       [WordFailed docError])
  end.

Definition extractTextFromFile (file : File) : Result jsstring * list event :=
  let started :=
    [Processing (mimetype file) (size file) (originalname file)] in
  let (result, log) :=
    match buffer file with
    | None | Some [] => (Err (JsError (js "Empty file buffer received")), [])
    | Some buf =>
        if Str.eqb (mimetype file) pdfType then pdfBranch buf
        else if Str.eqb (mimetype file) docxType then wordBranch buf
        else (Err (JsError (js "Unsupported file type")), [])
    end in
  match result with
  | Ok text => (Ok text, started ++ log)
  | Err error =>
      (Err (JsError (js "Failed to process file: " ++ errorMessage env error)),
       started ++ log
       ++ [ExtractFailed error (mimetype file) (size file)
             (originalname file)])
  end.

(** The [for] loop of [extractTextFromPDF] over the pages still to read. *)
Fixpoint pagesText (pages : list (Result jsstring)) (text : jsstring)
  : Result jsstring :=
  match pages with
  | [] => Ok text
  | page :: rest =>
      match page with
      | Ok pageText => pagesText rest (text ++ pageText ++ nl)
      | Err e => Err e
      end
  end.

Definition extractTextFromPDF (buf : list N) : Result jsstring * list event :=
  let attempt :=
    match load parsers buf with
    | Ok pages => pagesText pages []
    | Err e => Err e
    end in
  match attempt with
  | Ok text => (Ok (trim text), [])
  | Err error =>
      (Err (JsError (js "Failed to extract text from PDF: "
                     ++ errorMessage env error)),
       [PdfTextFailed error])
  end.

End WithEnv.

End Files.

(** * Properties *)

Unset Implicit Arguments.

(** ** Strings *)

Section StrFacts.

Lemma dropWhile_app_stop p s c t :
  p c = false -> exists u, dropWhile p (s ++ c :: t) = u ++ c :: t.
Proof.
  intros Hc. induction s as [|a s IH]; simpl.
  - rewrite Hc. now exists [].
  - destruct (p a).
    + exact IH.
    + now exists (a :: s).
Qed.

Lemma dropWhile_all p s : forallb p s = true -> dropWhile p s = [].
Proof.
  induction s as [|a s IH]; simpl; [reflexivity|].
  intros H. apply andb_true_iff in H as [Ha Hs]. rewrite Ha. auto.
Qed.

Lemma dropWhile_all_app p s t :
  forallb p s = true -> dropWhile p (s ++ t) = dropWhile p t.
Proof.
  induction s as [|a s IH]; simpl; [reflexivity|].
  intros H. apply andb_true_iff in H as [Ha Hs]. rewrite Ha. auto.
Qed.

Lemma dropWhile_head p c t : p c = false -> dropWhile p (c :: t) = c :: t.
Proof. intros H. simpl. now rewrite H. Qed.

Lemma dropWhileEnd_all_app p s t :
  forallb p t = true -> dropWhileEnd p (s ++ t) = dropWhileEnd p s.
Proof.
  intros H. unfold dropWhileEnd. rewrite rev_app_distr.
  rewrite dropWhile_all_app; [reflexivity|].
  rewrite forallb_forall in *. intros x Hx. apply H. now apply in_rev.
Qed.

Lemma dropWhileEnd_last p s c :
  p c = false -> dropWhileEnd p (s ++ [c]) = s ++ [c].
Proof.
  intros H. unfold dropWhileEnd. rewrite rev_app_distr. simpl.
  rewrite H. simpl. now rewrite rev_involutive.
Qed.

Lemma nonempty_last (s : jsstring) :
  s <> [] -> exists s' c, s = s' ++ [c] /\ last s 0%N = c.
Proof.
  intros H. destruct (exists_last H) as (s' & c & ->).
  exists s', c. split; [reflexivity|]. apply last_last.
Qed.

Lemma startsWith_nil_r p : p <> [] -> startsWith p [] = false.
Proof. destruct p; [congruence|reflexivity]. Qed.

Lemma split_go_not_nil sep k cur s : split_go sep k cur s <> [].
Proof.
  revert k cur. induction s as [|c t IH]; intros k cur; simpl.
  - discriminate.
  - destruct k; [|apply IH].
    destruct (startsWith sep (c :: t)); [discriminate|apply IH].
Qed.

Lemma split_go_second sep cur s :
  sep <> [] -> includes sep s = true ->
  exists part, nth_error (split_go sep 0 cur s) 1 = Some part.
Proof.
  intros Hsep. revert cur. induction s as [|c t IH]; intros cur H.
  - simpl in H. rewrite startsWith_nil_r in H by assumption. discriminate.
  - cbn [includes] in H. cbn [split_go].
    destruct (startsWith sep (c :: t)) eqn:E.
    + pose proof (split_go_not_nil sep (List.length sep - 1) [] t) as Hn.
      destruct (split_go sep (List.length sep - 1) [] t) as [|x l];
        [congruence|].
      now exists x.
    + simpl in H. apply IH. exact H.
Qed.

End StrFacts.

(** ** The brace-balance scan *)

Section BraceScan.

Lemma depth_cons c t : depth (c :: t) = (delta c + depth t)%Z.
Proof. reflexivity. Qed.

Lemma nth_shift (c : N) t m :
  0 < m -> nth (S m - 1) (c :: t) 0%N = nth (m - 1) t 0%N.
Proof.
  intros H. destruct m as [|m]; [lia|].
  replace (S (S m) - 1) with (S m) by lia.
  replace (S m - 1) with m by lia. reflexivity.
Qed.

(** The scan started at index [i] with count [b] stops just after the first
    closing brace that brings the count to zero, and answers [0] when there
    is none. *)
Lemma findJsonEnd_general s :
  forall i b,
    (findJsonEnd s i b = 0
     /\ forall m, 0 < m <= List.length s -> nth (m - 1) s 0%N = 125%N ->
                  (b + depth (firstn m s))%Z <> 0%Z)
    \/ (exists n,
          findJsonEnd s i b = i + n
          /\ 0 < n <= List.length s
          /\ nth (n - 1) s 0%N = 125%N
          /\ (b + depth (firstn n s))%Z = 0%Z
          /\ forall m, 0 < m < n -> nth (m - 1) s 0%N = 125%N ->
                       (b + depth (firstn m s))%Z <> 0%Z).
Proof.
  induction s as [|c t IH]; intros i b.
  - left. split; [reflexivity|]. simpl. intros m Hm. lia.
  - cbn [findJsonEnd].
    set (b1 := if (c =? 123)%N then (b + 1)%Z else b).
    assert (Hb1 : (b1 + (if (c =? 125)%N then -1 else 0) = b + delta c)%Z).
    { unfold b1, delta.
      destruct (N.eqb_spec c 123) as [->|]; [simpl; lia|].
      destruct (c =? 125)%N; lia. }
    assert (Hstep :
      forall b2, (b2 = b + delta c)%Z ->
        (b2 <> 0%Z \/ (c =? 125)%N = false) ->
        (findJsonEnd t (i + 1) b2 = 0
         /\ forall m, 0 < m <= List.length (c :: t) ->
              nth (m - 1) (c :: t) 0%N = 125%N ->
              (b + depth (firstn m (c :: t)))%Z <> 0%Z)
        \/ (exists n,
              findJsonEnd t (i + 1) b2 = i + n
              /\ 0 < n <= List.length (c :: t)
              /\ nth (n - 1) (c :: t) 0%N = 125%N
              /\ (b + depth (firstn n (c :: t)))%Z = 0%Z
              /\ forall m, 0 < m < n -> nth (m - 1) (c :: t) 0%N = 125%N ->
                   (b + depth (firstn m (c :: t)))%Z <> 0%Z)).
    { intros b2 Hb2 Hfirst.
      assert (Hone : nth (1 - 1) (c :: t) 0%N = 125%N ->
                     (b + depth (firstn 1 (c :: t)))%Z <> 0%Z).
      { intros Hc. change (nth (1 - 1) (c :: t) 0%N) with c in Hc.
        rewrite firstn_cons, depth_cons, firstn_O. cbn [depth].
        destruct Hfirst as [Hne|Hne]; [lia|].
        apply N.eqb_neq in Hne. congruence. }
      destruct (IH (i + 1) b2) as [[Hr Hall]|(n & Hr & Hn & Hnth & Hd & Hall)].
      - left. split; [exact Hr|].
        intros m Hm Hcm. destruct m as [|m]; [lia|].
        destruct m as [|m]; [now apply Hone|].
        rewrite nth_shift in Hcm by lia.
        rewrite firstn_cons, depth_cons.
        specialize (Hall (S m)). simpl in Hm.
        assert ((b2 + depth (firstn (S m) t))%Z <> 0%Z)
          by (apply Hall; [lia|exact Hcm]).
        lia.
      - right. exists (S n). repeat split.
        + rewrite Hr. lia.
        + lia.
        + simpl. lia.
        + rewrite nth_shift by lia. exact Hnth.
        + rewrite firstn_cons, depth_cons. lia.
        + intros m Hm Hcm. destruct m as [|m]; [lia|].
          destruct m as [|m]; [now apply Hone|].
          rewrite nth_shift in Hcm by lia.
          rewrite firstn_cons, depth_cons.
          assert ((b2 + depth (firstn (S m) t))%Z <> 0%Z)
            by (apply Hall; [lia|exact Hcm]).
          lia. }
    destruct (c =? 125)%N eqn:E125.
    + destruct (Z.eqb_spec (b1 - 1) 0) as [Hz|Hz].
      * right. exists 1. apply N.eqb_eq in E125. subst c.
        assert (b1 = b) by reflexivity.
        split; [reflexivity|]. split; [simpl; lia|].
        split; [reflexivity|]. split; [simpl; lia|].
        intros m Hm. lia.
      * apply Hstep; [lia|]. left. exact Hz.
    + apply Hstep; [lia|]. now right.
Qed.

End BraceScan.

(** C3. The extractor of [getChatResponse] reads the text after the marker
    one code unit at a time, counting braces, and cuts the JSON payload just
    after the first closing brace at which the depth is back to zero (the
    test is made at closing braces; the payload is empty when there is no
    such brace); the explanation is the trimmed rest.
    On the reply of the specification's example it yields the JSON object
    text and the explanation given there, and that is the text
    [getChatResponse] logs as extracted. *)
Theorem C3_brace_balance_extraction :
  (forall updatePart : jsstring,
      let n := findJsonEnd updatePart 0 0 in
      extract updatePart
        = (substringTo n updatePart, trim (substringFrom n updatePart))
      /\ ((n = 0 /\ forall m, ~ closesAt updatePart m)
          \/ (closesAt updatePart n
              /\ forall m, m < n -> ~ closesAt updatePart m)))
  /\ updatePartOf exampleReply
       = Ok (exampleJson ++ nl ++ js "Explanation with a stray } character.")
  /\ extractedJson exampleReply = exampleJson
  /\ extractedExplanation exampleReply
       = js "Explanation with a stray } character."
  /\ In (Console LLog [LStr (js "Extracted JSON:"); LStr exampleJson])
        (events (run (getChatResponse Scripted.env (Some (js "Revise the plan"))
                        VNull None [])
                   [Scripted.says exampleReply])).
Proof.
  split; [|split; [|split; [|split]]].
  - intros updatePart n. split; [reflexivity|].
    destruct (findJsonEnd_general updatePart 0 0)
      as [[Hr Hall]|(k & Hr & Hk & Hnth & Hd & Hall)].
    + left. split; [exact Hr|].
      intros m (Hm & Hc & Hz). apply (Hall m Hm Hc). now rewrite Hz.
    + right. subst n. rewrite Hr. simpl. split.
      * repeat split; try lia; assumption.
      * intros m Hlt (Hm & Hc & Hz). apply (Hall m); [lia|exact Hc|].
        now rewrite Hz.
  - vm_compute. reflexivity.
  - vm_compute. reflexivity.
  - vm_compute. reflexivity.
  - vm_compute. auto 10.
Qed.

(** ** Running [getChatResponse] *)

Section ChatRun.
Variable env : Env.

Lemma applyUpdate_run planData content (s : St (World env)) :
  applyUpdate env planData content s =
    match updatePartOf content with
    | Err e => (Throw e, s)
    | Ok updatePart =>
        let s' :=
          logged s [Console LLog [LStr (js "Extracted JSON:");
                                  LStr (fst (extract updatePart))]] in
        match validated (fst (extract updatePart)) with
        | Ok tasks =>
            (Ret (revision planData tasks (snd (extract updatePart))), s')
        | Err e => (Throw e, s')
        end
    end.
Proof.
  unfold applyUpdate, validated, bind, lift, emit, logged.
  destruct (updatePartOf content) as [updatePart|e]; [|reflexivity].
  cbn [ret throw].
  destruct (extract updatePart) as [jsonStr explanation]. cbn [fst snd].
  destruct (JSON_parse jsonStr) as [updateData|]; [|reflexivity].
  cbn [ret]. destruct (getProp updateData "tasks") as [tasks|e];
    [|reflexivity].
  cbn [ret]. destruct (negb (truthy tasks) || negb (isArray tasks));
    [reflexivity|].
  destruct (checkTasks _ 0) as [[]|e]; reflexivity.
Qed.

(** The settled result of a call, case by case on what the model does. *)
Lemma getChatResponse_run message planData rfpText history w trimmed :
  trimPlanData planData = Ok trimmed ->
  let req := requestOf env message trimmed rfpText history in
  let s1 := {| world := snd (create env req w); trace := [ModelCall req] |} in
  run (getChatResponse env message planData rfpText history) w =
    match fst (create env req w) with
    | Completed None | Completed (Some []) => (Ret (plainAnswer noResponse), s1)
    | Completed (Some content) =>
        if includes marker content then
          match updatePartOf content with
          | Err e =>
              (Ret softFailure,
               logged s1
                 [Console LError
                    [LStr (js "Failed to parse plan update:"); LExn e];
                  Console LError [LStr (js "Raw content:"); LStr content]])
          | Ok updatePart =>
              let s2 :=
                logged s1 [Console LLog [LStr (js "Extracted JSON:");
                                         LStr (fst (extract updatePart))]] in
              match validated (fst (extract updatePart)) with
              | Ok tasks =>
                  (Ret (revision planData tasks (snd (extract updatePart))),
                   s2)
              | Err e =>
                  (Ret softFailure,
                   logged s2
                     [Console LError
                        [LStr (js "Failed to parse plan update:"); LExn e];
                      Console LError
                        [LStr (js "Raw content:"); LStr content]])
              end
          end
        else (Ret (plainAnswer content), s1)
    | Rejected code msg =>
        let s2 :=
          logged s1 [Console LError
                       [LStr (js "Error getting chat response:");
                        LExn (ApiError code msg)]] in
        match code with
        | Some c =>
            if Str.eqb c (js "context_length_exceeded")
            then (Ret tooLongAnswer, s2)
            else (Throw (JsError (js "Failed to get AI response: "
                                  ++ errorMessage env (ApiError code msg))),
                  s2)
        | None =>
            (Throw (JsError (js "Failed to get AI response: "
                             ++ errorMessage env (ApiError code msg))),
             s2)
        end
    end.
Proof.
  intros Htrim req s1.
  unfold run, getChatResponse, bind at 1, lift. rewrite Htrim.
  cbn [ret]. fold (requestOf env message trimmed rfpText history). fold req.
  unfold tryCatch at 1, bind at 1, call. cbn [world trace].
  subst s1. destruct (create env req w) as [c w']. cbn [fst snd app].
  destruct c as [[content|]|code msg].
  - destruct content as [|c0 content]; [reflexivity|].
    destruct (includes marker (c0 :: content)); [|reflexivity].
    unfold tryCatch. rewrite applyUpdate_run.
    destruct (updatePartOf (c0 :: content)) as [updatePart|e].
    + cbv zeta. destruct (validated _) as [tasks|e]; [reflexivity|].
      unfold bind, emit, ret, logged. cbn [world trace].
      rewrite <- !app_assoc. reflexivity.
    + unfold bind, emit, ret, logged. cbn [world trace].
      rewrite <- !app_assoc. reflexivity.
  - reflexivity.
  - unfold bind at 1, emit. cbn [world trace errorCode].
    destruct code as [c|]; [|reflexivity].
    destruct (Str.eqb c _); reflexivity.
Qed.

(** When the trimming of the plan throws, nothing is sent. *)
Lemma getChatResponse_early message planData rfpText history w e :
  trimPlanData planData = Err e ->
  run (getChatResponse env message planData rfpText history) w =
    (Throw e, {| world := w; trace := [] |}).
Proof.
  intros H. unfold run, getChatResponse, bind, lift. now rewrite H.
Qed.

End ChatRun.

(** ** Objects and validation *)

Section Validation.

Lemma str_eqb_eq (a b : jsstring) : Str.eqb a b = true <-> a = b.
Proof.
  unfold Str.eqb. destruct (list_eq_dec N.eq_dec a b); split;
    congruence.
Qed.

Lemma str_eqb_neq (a b : jsstring) : Str.eqb a b = false <-> a <> b.
Proof.
  unfold Str.eqb. destruct (list_eq_dec N.eq_dec a b); split;
    congruence.
Qed.

Lemma lookup_setField_same k v fs : lookup k (setField k v fs) = Some v.
Proof.
  induction fs as [|[k' v'] fs IH]; simpl.
  - assert (H : Str.eqb k k = true) by now apply str_eqb_eq.
    now rewrite H.
  - destruct (Str.eqb k k') eqn:E; simpl; rewrite E; [reflexivity|exact IH].
Qed.

Lemma lookup_setField_other k k' v fs :
  k' <> k -> lookup k' (setField k v fs) = lookup k' fs.
Proof.
  intros Hne. induction fs as [|[k0 v0] fs IH]; simpl.
  - apply str_eqb_neq in Hne. now rewrite Hne.
  - destruct (Str.eqb k k0) eqn:E; simpl.
    + apply str_eqb_eq in E. subst k0.
      apply str_eqb_neq in Hne. now rewrite Hne.
    + now rewrite IH.
Qed.

Lemma checkTasks_cons line ts i :
  (accepts line = true /\ checkTasks (line :: ts) i = checkTasks ts (i + 1))
  \/ (accepts line = false /\ exists e, checkTasks (line :: ts) i = Err e).
Proof.
  unfold accepts. cbn [checkTasks].
  destruct (getProp line "taskId") as [taskId|e]; [|right; eauto].
  destruct (truthy taskId); simpl; [|right; eauto].
  destruct (truthy (getPropOpt line "lcat")); simpl; [|right; eauto].
  destruct (isNumber (getPropOpt line "hours")); simpl; [|right; eauto].
  now left.
Qed.

Lemma checkTasks_accepts ts :
  forall i, checkTasks ts i = Ok tt <-> Forall (fun l => accepts l = true) ts.
Proof.
  induction ts as [|line ts IH]; intros i.
  - split; [constructor|reflexivity].
  - destruct (checkTasks_cons line ts i) as [[Ha Hc]|[Ha [e Hc]]]; rewrite Hc.
    + rewrite IH. split.
      * intros H. now constructor.
      * intros H. now inversion H.
    + split; [discriminate|]. intros H. inversion H. congruence.
Qed.

Lemma checkTasks_result ts i :
  checkTasks ts i = Ok tt \/ exists e, checkTasks ts i = Err e.
Proof.
  destruct (checkTasks ts i) as [[]|e]; [now left|right; now exists e].
Qed.

Lemma accepts_checked line : accepts line = true -> checkedLine line.
Proof.
  unfold accepts, checkedLine, getPropOpt.
  destruct line as [| | | | | |fs]; simpl; try discriminate.
  destruct (lookup (js "taskId") fs) as [taskId|] eqn:E1; [|discriminate].
  destruct (lookup (js "lcat") fs) as [lcat|] eqn:E2;
    [|rewrite andb_false_r; discriminate].
  destruct (lookup (js "hours") fs) as [hours|] eqn:E3;
    [|rewrite andb_false_r; discriminate].
  intros H. apply andb_true_iff in H as [H H3].
  apply andb_true_iff in H as [H1 H2].
  destruct hours; try discriminate.
  exists fs, taskId, lcat, d. auto 10.
Qed.

Lemma lacking_not_accepted line :
  lacksNonEmpty line "taskId" || lacksNonEmpty line "lcat"
    || lacksNumeric line "hours" = true ->
  accepts line = false.
Proof.
  unfold accepts, lacksNonEmpty, lacksNumeric, getPropOpt, field.
  destruct line as [| | | | | |fs]; simpl; try reflexivity.
  destruct (lookup (js "taskId") fs) as [[| | | |[|]| |]|];
    simpl; try reflexivity;
  destruct (lookup (js "lcat") fs) as [[| | | |[|]| |]|];
    simpl; try reflexivity; try (rewrite andb_false_r; reflexivity);
  destruct (lookup (js "hours") fs) as [[]|]; simpl;
    try reflexivity; try (rewrite andb_false_r; reflexivity);
    try discriminate.
Qed.

Lemma rejected_not_validated jsonStr :
  rejectedUpdate jsonStr -> exists e, validated jsonStr = Err e.
Proof.
  intros [H|update H Hshape|update ts line H Htasks Hin Hlack];
    unfold validated; rewrite H.
  - eauto.
  - unfold field in Hshape.
    destruct update as [| | | | | |fs]; simpl; eauto.
    destruct (lookup (js "tasks") fs) as [tasks|]; simpl; eauto.
    destruct tasks as [| | | | |ts|]; simpl;
      rewrite ?orb_true_r; eauto.
    exfalso. now apply (Hshape ts).
  - unfold field in Htasks.
    destruct update as [| | | | | |fs]; try discriminate.
    cbn [getProp]. rewrite Htasks. cbn [truthy isArray negb orb].
    destruct (checkTasks_result ts 0) as [Hok|[e He]].
    + apply checkTasks_accepts in Hok. rewrite Forall_forall in Hok.
      apply Hok in Hin. apply lacking_not_accepted in Hlack. congruence.
    + rewrite He. eauto.
Qed.

Lemma updatePartOf_marker reply :
  includes marker reply = true -> exists updatePart, updatePartOf reply = Ok updatePart.
Proof.
  intros H. unfold updatePartOf, split.
  destruct (split_go_second marker [] reply) as [part Hp];
    [discriminate|exact H|].
  rewrite Hp. eauto.
Qed.

End Validation.

(** ** The revision protocol *)

(** ** The properties a spread copies *)

Section Spread.

Lemma js_inj a b : js a = js b -> a = b.
Proof.
  unfold js. intros H. apply (f_equal (map ascii_of_N)) in H.
  rewrite !map_map in H.
  rewrite !(map_ext _ (fun a => a) ascii_N_embedding), !map_id in H.
  apply (f_equal string_of_list_ascii) in H.
  now rewrite !string_of_list_ascii_of_string in H.
Qed.

Lemma to_uint_not_nil n : Nat.to_uint n <> Decimal.Nil.
Proof.
  intros H. pose proof (Numbers.DecimalNat.Unsigned.of_to n) as E.
  rewrite H in E. cbn in E. subst n. vm_compute in H. discriminate H.
Qed.

Lemma numeral_inj n m : numeral n = numeral m -> n = m.
Proof.
  unfold numeral. intros H. apply js_inj in H.
  apply (f_equal NilZero.uint_of_string) in H.
  rewrite !NilZero.usu in H by apply to_uint_not_nil.
  injection H. apply Numbers.DecimalNat.Unsigned.to_uint_inj.
Qed.

Lemma numeral_not_finalStaffingPlan n : numeral n <> js "finalStaffingPlan".
Proof.
  unfold numeral. intros H. apply js_inj in H.
  apply (f_equal NilZero.uint_of_string) in H.
  rewrite NilZero.usu in H by apply to_uint_not_nil.
  change (NilZero.uint_of_string "finalStaffingPlan")
    with (@None Decimal.uint) in H.
  discriminate H.
Qed.

Lemma lookup_indexed_from (xs : list value) :
  forall a i,
    lookup (numeral (a + i))
      (combine (map numeral (seq a (List.length xs))) xs)
    = nth_error xs i.
Proof.
  induction xs as [|x xs IH]; intros a i; [now destruct i|].
  cbn [List.length seq map combine lookup].
  destruct i as [|i].
  - rewrite Nat.add_0_r.
    assert (E : Str.eqb (numeral a) (numeral a) = true)
      by now apply str_eqb_eq.
    now rewrite E.
  - assert (E : Str.eqb (numeral (a + S i)) (numeral a) = false).
    { apply str_eqb_neq. intros H. apply numeral_inj in H. lia. }
    rewrite E. replace (a + S i) with (S a + i) by lia. apply IH.
Qed.

Lemma lookup_indexed (xs : list value) i :
  lookup (numeral i) (indexed xs) = nth_error xs i.
Proof. exact (lookup_indexed_from xs 0 i). Qed.

Lemma lookup_indexed_other_from (xs : list value) k :
  forall a,
    (forall i, i < List.length xs -> k <> numeral (a + i)) ->
    lookup k (combine (map numeral (seq a (List.length xs))) xs) = None.
Proof.
  induction xs as [|x xs IH]; intros a Hk; [reflexivity|].
  cbn [List.length seq map combine lookup].
  assert (E : Str.eqb k (numeral a) = false).
  { apply str_eqb_neq. specialize (Hk 0). rewrite Nat.add_0_r in Hk.
    apply Hk. cbn [List.length]. lia. }
  rewrite E. apply IH. intros i Hi.
  replace (S a + i) with (a + S i) by lia. apply Hk. cbn [List.length]. lia.
Qed.

Lemma lookup_indexed_other (xs : list value) k :
  (forall i, i < List.length xs -> k <> numeral i) ->
  lookup k (indexed xs) = None.
Proof. intros Hk. now apply (lookup_indexed_other_from xs k 0). Qed.

End Spread.

Section Revision.
Variable env : Env.
Variables (userMessage : option jsstring) (planData : value)
          (rfpText : option jsstring) (history : list HistoryEntry).
Variable w : World env.

Local Notation "'result'" :=
  (run (getChatResponse env userMessage planData rfpText history) w).

(** C9. When the completion has no content (none, or the empty text) the
    call answers with the fixed apology, no updated plan and no error
    marker; nothing is thrown and no extraction is attempted: the only
    effect is the call to the model. *)
Theorem C9_no_content trimmed reply :
  trimPlanData planData = Ok trimmed ->
  fst (create env (requestOf env userMessage trimmed rfpText history) w)
    = Completed reply ->
  reply = None \/ reply = Some [] ->
  outcome result
    = Ret {| message := js "I'm sorry, I couldn't generate a response.";
             updatedPlan := None;
             error := None |}
  /\ events result
       = [ModelCall (requestOf env userMessage trimmed rfpText history)].
Proof.
  intros Htrim Hreply Hempty. unfold outcome, events.
  rewrite (getChatResponse_run env _ _ _ _ _ _ Htrim). cbv zeta.
  rewrite Hreply. destruct Hempty as [-> | ->]; split; reflexivity.
Qed.

(** C7. When the call to the model fails with the code
    [context_length_exceeded], the answer is the message that the plan and
    the conversation are too long and asks to break the request down into
    smaller parts, with the error marker [Message too long], and nothing is
    thrown; any other failure is thrown to the caller as an error that
    quotes the failure's message. *)
Theorem C7_failure_escalation trimmed code msg :
  trimPlanData planData = Ok trimmed ->
  fst (create env (requestOf env userMessage trimmed rfpText history) w)
    = Rejected code msg ->
  (code = Some (js "context_length_exceeded") ->
   outcome result
     = Ret {| message :=
                js "I apologize, but the plan and conversation history are too long for me to process. Could you try breaking down your request into smaller parts?";
              updatedPlan := None;
              error := Some (js "Message too long") |})
  /\ (code <> Some (js "context_length_exceeded") ->
      outcome result
        = Throw (JsError (js "Failed to get AI response: "
                          ++ orUndefined msg))).
Proof.
  intros Htrim Hreply. unfold outcome.
  rewrite (getChatResponse_run env _ _ _ _ _ _ Htrim). cbv zeta.
  rewrite Hreply.
  assert (Hmsg : errorMessage env (ApiError code msg) = orUndefined msg)
    by (destruct msg; reflexivity).
  rewrite Hmsg. split.
  - intros ->. reflexivity.
  - intros Hne. destruct code as [c|]; [|reflexivity].
    destruct (Str.eqb c (js "context_length_exceeded")) eqn:E;
      [|reflexivity].
    apply str_eqb_eq in E. congruence.
Qed.

(** C6, as amended.  A reply without the marker never sets an updated plan
    or an error marker; when it is not empty it is returned whole as the
    message, and the empty reply is answered with the fixed apology. *)
Theorem C6_reply_without_marker trimmed reply :
  trimPlanData planData = Ok trimmed ->
  fst (create env (requestOf env userMessage trimmed rfpText history) w)
    = Completed (Some reply) ->
  includes marker reply = false ->
  outcome result
    = Ret {| message := match reply with [] => noResponse | _ => reply end;
             updatedPlan := None;
             error := None |}.
Proof.
  intros Htrim Hreply Hno. unfold outcome.
  rewrite (getChatResponse_run env _ _ _ _ _ _ Htrim). cbv zeta.
  rewrite Hreply. destruct reply as [|c reply]; [reflexivity|].
  rewrite Hno. reflexivity.
Qed.

(** C4. When the reply holds the marker and the extracted text does not
    parse, or parses to a value without a [tasks] array, or has a line
    that lacks a non-empty [taskId], a non-empty [lcat] or a numeric
    [hours], the call settles normally with the clarification message and
    the error marker, and sets no updated plan. *)
Theorem C4_invalid_update_soft_failure trimmed reply :
  trimPlanData planData = Ok trimmed ->
  fst (create env (requestOf env userMessage trimmed rfpText history) w)
    = Completed (Some reply) ->
  includes marker reply = true ->
  rejectedUpdate (extractedJson reply) ->
  outcome result
    = Ret {| message := clarification;
             updatedPlan := None;
             error := Some (js "Failed to parse plan update") |}.
Proof.
  intros Htrim Hreply Hmark Hrej. unfold outcome.
  rewrite (getChatResponse_run env _ _ _ _ _ _ Htrim). cbv zeta.
  rewrite Hreply. destruct reply as [|c reply]; [discriminate|].
  rewrite Hmark. unfold extractedJson in Hrej.
  destruct (updatePartOf (c :: reply)) as [updatePart|e]; [|reflexivity].
  destruct (rejected_not_validated _ Hrej) as [e He]. rewrite He.
  reflexivity.
Qed.

(** C5. When the reply holds the marker and the extracted text parses to
    an update whose [tasks] array passes the validation, the updated plan
    is the input plan with [finalStaffingPlan] set to an object holding
    exactly the update's tasks; every other property of the input plan is
    read from the updated plan as from the input, and the updated plan has
    no property that the input lacks.  This is so for a plan that is an
    object; an array or a string passed as the plan gives its elements
    under their indices, any other value nothing.  The message is the
    explanation (or the default text). *)
Theorem C5_full_replacement trimmed reply update ts :
  trimPlanData planData = Ok trimmed ->
  fst (create env (requestOf env userMessage trimmed rfpText history) w)
    = Completed (Some reply) ->
  includes marker reply = true ->
  JSON_parse (extractedJson reply) = Some update ->
  field update "tasks" = Some (VArray ts) ->
  checkTasks ts 0 = Ok tt ->
  exists fields,
    outcome result
      = Ret {| message :=
                 match extractedExplanation reply with
                 | [] => js "Plan updated successfully"
                 | explanation => explanation
                 end;
               updatedPlan := Some (VObject fields);
               error := None |}
    /\ lookup (js "finalStaffingPlan") fields
         = Some (VObject [(js "tasks", VArray ts)])
    /\ (forall properties,
          planData = VObject properties ->
          forall k, k <> js "finalStaffingPlan" ->
                    lookup k fields = lookup k properties)
    /\ (forall xs,
          planData = VArray xs ->
          (forall i, lookup (numeral i) fields = nth_error xs i)
          /\ forall k, k <> js "finalStaffingPlan" ->
                       (forall i, i < List.length xs -> k <> numeral i) ->
                       lookup k fields = None)
    /\ (forall text,
          planData = VString text ->
          (forall i, lookup (numeral i) fields
                     = option_map (fun c => VString [c]) (nth_error text i))
          /\ forall k, k <> js "finalStaffingPlan" ->
                       (forall i, i < List.length text -> k <> numeral i) ->
                       lookup k fields = None)
    /\ match planData with
       | VObject _ | VArray _ | VString _ => True
       | _ => forall k, k <> js "finalStaffingPlan" -> lookup k fields = None
       end.
Proof.
  intros Htrim Hreply Hmark Hparse Htasks Hcheck.
  exists (setField (js "finalStaffingPlan")
            (VObject [(js "tasks", VArray ts)]) (ownEnumerable planData)).
  split; [|split; [|split; [|split; [|split]]]].
  - unfold outcome.
    rewrite (getChatResponse_run env _ _ _ _ _ _ Htrim). cbv zeta.
    rewrite Hreply. destruct reply as [|c reply]; [discriminate|].
    rewrite Hmark. unfold extractedJson in Hparse.
    unfold extractedExplanation.
    destruct (updatePartOf_marker _ Hmark) as [updatePart Hu].
    rewrite Hu in *.
    assert (Hv : validated (fst (extract updatePart)) = Ok (VArray ts)).
    { unfold validated. rewrite Hparse.
      destruct update as [| | | | | |fs]; try discriminate.
      cbn [getProp]. unfold field in Htasks. rewrite Htasks.
      cbn [truthy isArray negb orb]. now rewrite Hcheck. }
    rewrite Hv. cbn [fst]. unfold revision, replacePlan.
    destruct (snd (extract updatePart)); reflexivity.
  - apply lookup_setField_same.
  - intros properties -> k Hk. now apply lookup_setField_other.
  - intros xs ->. cbn [ownEnumerable]. split.
    + intros i. rewrite lookup_setField_other
        by apply numeral_not_finalStaffingPlan.
      apply lookup_indexed.
    + intros k Hk Hidx. rewrite lookup_setField_other by exact Hk.
      now apply lookup_indexed_other.
  - intros text ->. cbn [ownEnumerable]. split.
    + intros i. rewrite lookup_setField_other
        by apply numeral_not_finalStaffingPlan.
      rewrite lookup_indexed. apply nth_error_map.
    + intros k Hk Hidx. rewrite lookup_setField_other by exact Hk.
      apply lookup_indexed_other. now rewrite length_map.
  - destruct planData; try exact I;
      intros k Hk; now rewrite lookup_setField_other by exact Hk.
Qed.

(** C8, as amended.  Of every line of an accepted update the validation
    establishes a truthy [taskId], a truthy [lcat] and a numeric [hours],
    and nothing else: the updated plan holds exactly such lines. *)
Theorem C8_accepted_lines answer plan :
  outcome result = Ret answer ->
  updatedPlan answer = Some plan ->
  exists ts,
    getPropOpt (getPropOpt plan "finalStaffingPlan") "tasks" = VArray ts
    /\ Forall checkedLine ts.
Proof.
  unfold outcome. intros Hout Hplan.
  destruct (trimPlanData planData) as [trimmed|e] eqn:Htrim.
  2:{ rewrite (getChatResponse_early env _ _ _ _ _ _ Htrim) in Hout.
      discriminate. }
  rewrite (getChatResponse_run env _ _ _ _ _ _ Htrim) in Hout.
  cbv zeta in Hout.
  assert (Hno : forall a, Ret a = Ret answer -> updatedPlan a = None -> False).
  { intros a Ha Hn. inversion Ha. subst. congruence. }
  destruct (fst (create env _ w)) as [[reply|]|code msg].
  - destruct reply as [|c reply];
      [exfalso; eapply Hno; [exact Hout|reflexivity]|].
    destruct (includes marker (c :: reply));
      [|exfalso; eapply Hno; [exact Hout|reflexivity]].
    destruct (updatePartOf (c :: reply)) as [updatePart|e];
      [|exfalso; eapply Hno; [exact Hout|reflexivity]].
    destruct (validated (fst (extract updatePart))) as [tasks|e] eqn:Hv;
      [|exfalso; eapply Hno; [exact Hout|reflexivity]].
    cbn [fst] in Hout. inversion Hout. subst answer.
    cbn [updatedPlan revision] in Hplan. inversion Hplan. subst plan.
    unfold validated in Hv.
    destruct (JSON_parse _) as [update|]; [|discriminate].
    destruct (getProp update "tasks") as [tasks'|]; [|discriminate].
    destruct (negb (truthy tasks') || negb (isArray tasks')) eqn:Hshape;
      [discriminate|].
    destruct tasks' as [| | | | |ts|];
      try (cbn in Hshape; rewrite ?orb_true_r in Hshape; discriminate).
    destruct (checkTasks ts 0) as [[]|] eqn:Hcheck; [|discriminate].
    inversion Hv. subst tasks. exists ts. split.
    + unfold replacePlan, getPropOpt. cbn [getProp].
      rewrite lookup_setField_same. reflexivity.
    + apply checkTasks_accepts in Hcheck.
      eapply Forall_impl; [|exact Hcheck].
      intros line. apply accepts_checked.
  - exfalso; eapply Hno; [exact Hout|reflexivity].
  - cbn [fst] in Hout. destruct code as [c|]; [|discriminate].
    destruct (Str.eqb c _); [|discriminate].
    exfalso; eapply Hno; [exact Hout|reflexivity].
Qed.

End Revision.

(** ** The request sent to the model *)

Section Sent.
Variable env : Env.
Variables (userMessage : option jsstring) (planData : value)
          (rfpText : option jsstring) (history : list HistoryEntry).
Variable w : World env.

Local Notation "'result'" :=
  (run (getChatResponse env userMessage planData rfpText history) w).

Lemma trim_head_nonblank c t : isWhiteSpace c = false -> trim (c :: t) <> [].
Proof.
  intros Hc. unfold trim. rewrite dropWhile_head by exact Hc.
  unfold dropWhileEnd. cbn [rev].
  destruct (dropWhile_app_stop isWhiteSpace (rev t) c [] Hc) as [u Hu].
  rewrite Hu. intros H. apply (f_equal (@rev N)) in H.
  rewrite rev_involutive in H. cbn [rev] in H.
  destruct u; discriminate.
Qed.

Lemma systemMessage_nonblank trimmed :
  trim (systemMessage env rfpText trimmed) <> [].
Proof.
  unfold systemMessage.
  assert (H : systemPreamble = 89%N :: tl systemPreamble) by reflexivity.
  rewrite H. rewrite <- app_comm_cons. now apply trim_head_nonblank.
Qed.

Lemma nonBlank_iff m : nonBlank m = true <-> trim (content m) <> [].
Proof.
  unfold nonBlank. rewrite negb_true_iff. apply str_eqb_neq.
Qed.

Lemma buildMessages_shape trimmed :
  buildMessages (systemMessage env rfpText trimmed) history userMessage
  = {| role := System; content := systemMessage env rfpText trimmed |}
    :: filter nonBlank (map normalize (lastFive history))
    ++ filter nonBlank [ {| role := User; content := orEmpty userMessage |} ].
Proof.
  unfold buildMessages. cbn [app]. cbn [filter].
  assert (H : nonBlank {| role := System;
                          content := systemMessage env rfpText trimmed |}
              = true)
    by (apply nonBlank_iff, systemMessage_nonblank).
  rewrite H. now rewrite filter_app.
Qed.

Lemma calls_result trimmed :
  trimPlanData planData = Ok trimmed ->
  calls (events result) = [requestOf env userMessage trimmed rfpText history].
Proof.
  intros Htrim. unfold events.
  rewrite (getChatResponse_run env _ _ _ _ _ _ Htrim). cbv zeta.
  destruct (fst (create env _ w)) as [[reply|]|code msg].
  - destruct reply as [|c reply]; [reflexivity|].
    destruct (includes marker (c :: reply)); [|reflexivity].
    destruct (updatePartOf (c :: reply)); [|reflexivity].
    destruct (validated _); reflexivity.
  - reflexivity.
  - destruct code as [c|]; [|reflexivity].
    destruct (Str.eqb c _); reflexivity.
Qed.

(** C10. Whatever is sent to the model holds only messages whose content
    is not blank.  When the plan can be read, exactly one request is sent,
    whatever the history and the user message are: the system message,
    then the non-blank entries among the last five of the history, then
    the user message unless it is blank. *)
Theorem C10_only_nonblank_messages_sent :
  (forall req, In req (calls (events result)) ->
               Forall (fun m => trim (content m) <> []) (messages req))
  /\ (forall trimmed, trimPlanData planData = Ok trimmed ->
        calls (events result)
        = [ chatRequest
              ({| role := System;
                  content := systemMessage env rfpText trimmed |}
               :: filter nonBlank
                    (map normalize
                       (skipn (List.length history - 5) history))
               ++ filter nonBlank
                    [ {| role := User;
                         content := orEmpty userMessage |} ]) ]).
Proof.
  split.
  - intros req Hin.
    destruct (trimPlanData planData) as [trimmed|e] eqn:Htrim.
    + rewrite (calls_result _ Htrim) in Hin.
      destruct Hin as [<-|[]]. unfold requestOf, buildMessages.
      cbn [messages chatRequest]. apply Forall_forall.
      intros m Hm. apply filter_In in Hm. now apply nonBlank_iff.
    + unfold events in Hin.
      rewrite (getChatResponse_early env _ _ _ _ _ _ Htrim) in Hin.
      destruct Hin.
  - intros trimmed Htrim. rewrite (calls_result _ Htrim).
    unfold requestOf. now rewrite buildMessages_shape.
Qed.

End Sent.

(** ** The repair loop *)

Section RepairLoop.
Variable env : Env.
Variable originalMessages : list Message.
Variable maxRetries : Z.

Local Notation "'loop'" := (retryLoop env).
Local Notation "'ncalls' s" := (List.length (calls (trace s)))
  (at level 10, s at level 9).

Lemma calls_app a b : calls (a ++ b) = calls a ++ calls b.
Proof. unfold calls. apply flat_map_app. Qed.

(** One turn of the loop. *)
Lemma retryLoop_turn fuel attempt raw (s : St (World env)) :
  loop (S fuel) originalMessages maxRetries attempt raw s =
    if (attempt <=? maxRetries)%Z then
      match JSON_parse raw with
      | Some v => (Ret v, s)
      | None =>
          if (attempt + 1 >? maxRetries)%Z then
            (Throw (JsError maxRetriesExceeded), logged s (exhaustedLog raw))
          else
            let req := repairRequest env originalMessages (SyntaxError raw) raw in
            let sent :=
              trace s ++ [attemptWarning (attempt + 1); ModelCall req] in
            match create env req (world s) with
            | (Completed reply, w') =>
                let raw' := sanitizePotentialFormatting (orEmpty reply) in
                loop fuel originalMessages maxRetries (attempt + 1)%Z raw'
                  {| world := w';
                     trace := sent ++ [repairLog (attempt + 1) raw'] |}
            | (Rejected code msg, w') =>
                (Throw (ApiError code msg), {| world := w'; trace := sent |})
            end
      end
    else (Throw (JsError (js "Failed to parse JSON unexpectedly.")), s).
Proof.
  cbn [retryLoop].
  destruct (attempt <=? maxRetries)%Z; [|reflexivity].
  destruct (JSON_parse raw); [reflexivity|].
  destruct (attempt + 1 >? maxRetries)%Z.
  - unfold bind, emit, throw, logged, exhaustedLog. cbn [world trace].
    rewrite <- app_assoc. reflexivity.
  - unfold bind at 1, emit at 1. unfold bind at 1, call. cbn [world trace].
    destruct (create env _ (world s)) as [[reply|code msg] w'].
    + unfold bind at 1, emit. cbn [world trace].
      unfold attemptWarning, repairLog. rewrite <- !app_assoc. reflexivity.
    + unfold attemptWarning. rewrite <- !app_assoc. reflexivity.
Qed.

(** What the loop does, for every model: it ends, within the budget of
    calls, and it ends in one of four ways. *)
Lemma retryLoop_spec fuel :
  forall attempt raw (s : St (World env)),
    Z.to_nat (maxRetries + 1 - attempt) < fuel ->
    exists out s',
      loop fuel originalMessages maxRetries attempt raw s = (out, s')
      /\ ncalls s' <= ncalls s + Z.to_nat (maxRetries - attempt)
      /\ match out with
         | Ret v =>
             exists rawLast,
               JSON_parse rawLast = Some v
               /\ ((s' = s /\ rawLast = raw)
                   \/ exists before a,
                        trace s' = before ++ [repairLog a rawLast])
         | Throw e =>
             (e = JsError maxRetriesExceeded
              /\ (attempt <= maxRetries)%Z
              /\ ncalls s' = ncalls s + Z.to_nat (maxRetries - attempt)
              /\ exists rawLast before,
                   JSON_parse rawLast = None
                   /\ trace s' = before ++ exhaustedLog rawLast
                   /\ ((before = trace s /\ rawLast = raw)
                       \/ exists before' a,
                            before = before' ++ [repairLog a rawLast]))
             \/ (e = JsError (js "Failed to parse JSON unexpectedly.")
                 /\ (maxRetries < attempt)%Z /\ s' = s)
             \/ (exists code msg, e = ApiError code msg)
         | OutOfFuel => False
         end.
Proof.
  induction fuel as [|fuel IH]; intros attempt raw s Hfuel; [lia|].
  rewrite retryLoop_turn.
  destruct (Z.leb_spec attempt maxRetries) as [Hle|Hgt].
  2:{ eexists _, _. split; [reflexivity|]. split; [lia|].
      right. left. auto. }
  destruct (JSON_parse raw) as [v|] eqn:Hparse.
  { eexists _, _. split; [reflexivity|]. split; [lia|].
    exists raw. auto. }
  destruct (Z.gtb_spec (attempt + 1) maxRetries) as [Hlast|Hmore].
  { eexists _, _. split; [reflexivity|].
    assert (Hn : ncalls (logged s (exhaustedLog raw)) = ncalls s).
    { unfold logged. cbn [trace]. rewrite calls_app. cbn.
      now rewrite app_nil_r. }
    split; [lia|]. left. repeat split; try assumption.
    - rewrite Hn. replace (maxRetries - attempt)%Z with 0%Z by lia.
      simpl. lia.
    - exists raw, (trace s). auto. }
  cbv zeta.
  destruct (create env _ (world s)) as [[reply|code msg] w'].
  - set (raw' := sanitizePotentialFormatting (orEmpty reply)).
    set (s1 := {| world := w'; trace := _ |}).
    assert (Hn1 : ncalls s1 = ncalls s + 1).
    { unfold s1. cbn [trace]. rewrite !calls_app, !length_app. cbn. lia. }
    destruct (IH (attempt + 1)%Z raw' s1) as (out & s' & Hrun & Hcalls & Hout);
      [lia|].
    exists out, s'. split; [exact Hrun|]. split; [lia|].
    destruct out as [v|e|]; [| |exact Hout].
    + destruct Hout as (rawLast & Hp & Hlast).
      exists rawLast. split; [exact Hp|]. right.
      destruct Hlast as [[-> ->]|Hlast]; [|exact Hlast].
      unfold s1. cbn [trace]. eauto.
    + destruct Hout as [(He & Hle' & Hc & rawLast & before & Hp & Ht & Hb)
                        |[(He & Hlt & Hs)|Hapi]].
      * left. repeat split; try assumption; try lia.
        exists rawLast, before. repeat split; try assumption.
        right. destruct Hb as [[-> ->]|Hb]; [|exact Hb].
        unfold s1. cbn [trace]. eauto.
      * lia.
      * right. right. exact Hapi.
  - eexists _, _. split; [reflexivity|]. split.
    + cbn [trace]. rewrite !calls_app, !length_app. cbn. lia.
    + right. right. eauto.
Qed.

(** Against a model whose repairs never parse, a malformed text exhausts
    the budget. *)
Lemma retryLoop_exhausts :
  neverRepairs env ->
  forall fuel attempt raw (s : St (World env)),
    Z.to_nat (maxRetries + 1 - attempt) < fuel ->
    (attempt <= maxRetries)%Z ->
    JSON_parse raw = None ->
    fst (loop fuel originalMessages maxRetries attempt raw s)
      = Throw (JsError maxRetriesExceeded).
Proof.
  intros Hnever. induction fuel as [|fuel IH];
    intros attempt raw s Hfuel Hle Hparse; [lia|].
  rewrite retryLoop_turn.
  destruct (Z.leb_spec attempt maxRetries) as [_|Hgt]; [|lia].
  rewrite Hparse.
  destruct (Z.gtb_spec (attempt + 1) maxRetries) as [Hlast|Hmore];
    [reflexivity|].
  cbv zeta.
  destruct (Hnever (repairRequest env originalMessages (SyntaxError raw) raw)
              (world s)) as (reply & Hreply & Hbad).
  destruct (create env _ (world s)) as [c w']. cbn [fst] in Hreply.
  subst c. apply IH; [lia|lia|exact Hbad].
Qed.

End RepairLoop.

(** ** The recovery engine *)

(** C1, as amended.  For every input, model and budget, [parseJsonWithRetry]
    ends and makes at most [maxRetries] repair calls.  A value it returns is
    the strict parse of the text in hand.  When it fails for exhaustion it
    has made exactly [maxRetries] calls and throws the fixed error
    [Failed to parse JSON (max retries exceeded)]; the last raw text and its
    parse error are the last two entries of the error log, not part of the
    error.  A malformed input whose repairs are all malformed fails that
    way. *)
Theorem C1_bounded_repair (env : Env) (originalMessages : list Message)
  (content : jsstring) (maxRetries : Z) (w : World env) :
  let r := run (parseJsonWithRetry env originalMessages content maxRetries) w in
  List.length (calls (events r)) <= Z.to_nat maxRetries
  /\ outcome r <> OutOfFuel
  /\ (forall v, outcome r = Ret v ->
        exists raw, JSON_parse raw = Some v /\ inHand content (events r) raw)
  /\ (outcome r = Throw (JsError (js "Failed to parse JSON (max retries exceeded)")) ->
        List.length (calls (events r)) = Z.to_nat maxRetries
        /\ exists raw before,
             JSON_parse raw = None
             /\ events r = before ++ exhaustedLog raw
             /\ inHand content before raw)
  /\ ((0 <= maxRetries)%Z ->
      JSON_parse (sanitizePotentialFormatting content) = None ->
      neverRepairs env ->
      outcome r = Throw (JsError (js "Failed to parse JSON (max retries exceeded)"))).
Proof.
  intros r. unfold r, outcome, events, run, parseJsonWithRetry.
  set (s0 := {| world := w; trace := [] |}).
  set (raw0 := sanitizePotentialFormatting content).
  destruct (retryLoop_spec env originalMessages maxRetries
              (S (Z.to_nat (maxRetries + 1))) 0%Z raw0 s0)
    as (out & s' & Hrun & Hcalls & Hout).
  { rewrite Z.sub_0_r. lia. }
  rewrite Hrun. cbn [fst snd].
  rewrite Z.sub_0_r in Hcalls. cbn in Hcalls.
  split; [exact Hcalls|]. split; [|split; [|split]].
  - intros ->. exact Hout.
  - intros v ->. destruct Hout as (rawLast & Hp & Hlast).
    exists rawLast. split; [exact Hp|].
    destruct Hlast as [[-> ->]|(before & a & Ht)].
    + left. auto.
    + right. eauto.
  - intros ->.
    destruct Hout as [(_ & _ & Hc & rawLast & before & Hp & Ht & Hb)
                      |[(He & _)|(code & msg & He)]];
      [|discriminate He|discriminate He].
    rewrite Z.sub_0_r in Hc. cbn in Hc. split; [exact Hc|].
    exists rawLast, before. split; [exact Hp|]. split; [exact Ht|].
    exact Hb.
  - intros Hpos Hbad Hnever.
    pose proof (retryLoop_exhausts env originalMessages maxRetries Hnever
                  (S (Z.to_nat (maxRetries + 1))) 0%Z raw0 s0) as Hex.
    rewrite Hrun in Hex. cbn [fst] in Hex. apply Hex.
    + rewrite Z.sub_0_r. lia.
    + exact Hpos.
    + exact Hbad.
Qed.

(** The counterexample to C1 as stated: two malformed inputs, repaired in
    vain, end with different last raw texts and in the very same error,
    which therefore carries neither the text nor its parse error. *)
Lemma C1_error_carries_nothing :
  let run1 :=
    run (parseJsonWithRetry_default Scripted.env [] (js "{oops"))
      [Scripted.says (js "{still"); Scripted.says (js "{a")] in
  let run2 :=
    run (parseJsonWithRetry_default Scripted.env [] (js "[1, 2"))
      [Scripted.says (js "[1,"); Scripted.says (js "[b")] in
  outcome run1
    = Throw (JsError (js "Failed to parse JSON (max retries exceeded)"))
  /\ outcome run2 = outcome run1
  /\ (exists before, events run1 = before ++ exhaustedLog (js "{a"))
  /\ (exists before, events run2 = before ++ exhaustedLog (js "[b"))
  /\ exhaustedLog (js "{a") <> exhaustedLog (js "[b").
Proof.
  cbv zeta. split; [vm_compute; reflexivity|].
  split; [vm_compute; reflexivity|].
  split; [|split].
  - exists (removelast (removelast (events (run
      (parseJsonWithRetry_default Scripted.env [] (js "{oops"))
      [Scripted.says (js "{still"); Scripted.says (js "{a")])))).
    vm_compute. reflexivity.
  - exists (removelast (removelast (events (run
      (parseJsonWithRetry_default Scripted.env [] (js "[1, 2"))
      [Scripted.says (js "[1,"); Scripted.says (js "[b")])))).
    vm_compute. reflexivity.
  - vm_compute. discriminate.
Qed.

(** ** Where a JSON text begins and ends *)

Section Boundaries.

Lemma jsonWs_whiteSpace c : isJsonWs c = true -> isWhiteSpace c = true.
Proof.
  unfold isJsonWs. intros H.
  rewrite !orb_true_iff, !N.eqb_eq in H.
  destruct H as [[[->| ->]| ->]| ->]; reflexivity.
Qed.

(** The code units of the formatting noise, other than JSON white space,
    are few below 256. *)
Lemma noise_cases c :
  isWrap c || (c =? 96)%N || (lower c =? 106)%N = true ->
  isJsonWs c = false ->
  In c [11; 12; 40; 41; 74; 96; 106; 160]%N \/ (256 <= c)%N.
Proof.
  unfold isWrap, isWhiteSpace, isJsonWs, lower. intros H Hws.
  rewrite !orb_false_iff, !N.eqb_neq in Hws.
  destruct ((65 <=? c) && (c <=? 90))%N eqn:Hup.
  - apply andb_true_iff in Hup as [H1 H2].
    apply N.leb_le in H1. apply N.leb_le in H2.
    rewrite !orb_true_iff, !andb_true_iff, !N.eqb_eq, !N.leb_le in H.
    simpl. lia.
  - rewrite !orb_true_iff, !andb_true_iff, !N.eqb_eq, !N.leb_le in H.
    simpl. lia.
Qed.

Lemma fold_step_error s : fold_left step s PErr = PErr.
Proof. induction s as [|c s IH]; [reflexivity|exact IH]. Qed.

Ltac cases_of_state st :=
  destruct st as [|[|[es|fs [k|]] stack] [| | | | | |iskey acc [| |n h]|[] a|[]]|v].

(** No state accepts after a code unit of the noise. *)
Lemma step_noise_small c :
  In c [11; 12; 40; 41; 96; 160]%N ->
  forall st, finish (step st c) = None.
Proof.
  intros Hc st.
  repeat (destruct Hc as [<-|Hc]; [cases_of_state st; reflexivity|]).
  destruct Hc.
Qed.

Lemma step_noise_large c :
  (256 <= c)%N -> forall st, finish (step st c) = None.
Proof.
  intros Hc st.
  assert (Ha : toAscii c = None).
  { unfold toAscii. destruct (N.ltb_spec c 256); [lia|reflexivity]. }
  assert (Hd : digitOf c = None).
  { unfold digitOf. destruct (N.leb_spec c 57); [lia|].
    now rewrite andb_false_r. }
  assert (Hh : hexOf c = None).
  { unfold hexOf. destruct (N.leb_spec c 57); [lia|].
    destruct (N.leb_spec c 70); [lia|]. destruct (N.leb_spec c 102); [lia|].
    now rewrite !andb_false_r. }
  assert (Heq : forall k, (k < 256)%N -> (c =? k)%N = false).
  { intros k Hk. apply N.eqb_neq. lia. }
  assert (Hlt : (c <? 32)%N = false) by (apply N.ltb_ge; lia).
  assert (Hws : isJsonWs c = false).
  { unfold isJsonWs. now rewrite !Heq by lia. }
  assert (He : isE c = false).
  { unfold isE. now rewrite !Heq by lia. }
  cases_of_state st;
    unfold step, stepString, stepNumber, stepLiteral, endNumber, feedAfter,
      complete;
    cbv beta iota;
    unfold startValue, afterValue, closeArray, closeObject, endString;
    rewrite ?Hws, ?Hd, ?Hh, ?Ha, ?He, ?Hlt, ?Heq by lia;
    reflexivity.
Qed.

(** A text that parses does not end with formatting noise. *)
Lemma parse_last s c v :
  JSON_parse (s ++ [c]) = Some v ->
  isJsonWs c = false ->
  isWrap c = false /\ c <> 96%N.
Proof.
  intros Hparse Hj.
  destruct (isWrap c || (c =? 96)%N) eqn:Hbad.
  - exfalso. unfold JSON_parse in Hparse.
    rewrite fold_left_app in Hparse. cbn [fold_left] in Hparse.
    destruct (noise_cases c) as [Hin|Hlarge].
    + now rewrite Hbad.
    + exact Hj.
    + assert (Hsmall : In c [11; 12; 40; 41; 96; 160]%N).
      { simpl in Hin. simpl.
        destruct Hin as [H|[H|[H|[H|[H|[H|[H|[H|[]]]]]]]]]; subst c; auto 10;
          discriminate Hbad. }
      rewrite (step_noise_small c Hsmall) in Hparse. discriminate.
    + rewrite (step_noise_large c Hlarge) in Hparse. discriminate.
  - apply orb_false_iff in Hbad as [H1 H2]. split; [exact H1|].
    now apply N.eqb_neq.
Qed.

(** A text that parses does not begin with formatting noise, nor with a
    letter [j]. *)
Lemma parse_first c s v :
  JSON_parse (c :: s) = Some v ->
  isJsonWs c = false ->
  isWrap c = false /\ c <> 96%N /\ lower c <> 106%N.
Proof.
  intros Hparse Hj.
  destruct (isWrap c || (c =? 96)%N || (lower c =? 106)%N) eqn:Hbad.
  - exfalso. unfold JSON_parse in Hparse. cbn [fold_left] in Hparse.
    assert (Herr : step (PRun [] MValue) c = PErr).
    { destruct (noise_cases c Hbad Hj) as [Hin|Hlarge].
      - simpl in Hin.
        destruct Hin as [H|[H|[H|[H|[H|[H|[H|[H|[]]]]]]]]]; subst c;
          reflexivity.
      - cbn [step]. rewrite Hj. unfold startValue.
        assert (Hd : digitOf c = None).
        { unfold digitOf. destruct (N.leb_spec c 57); [lia|].
          now rewrite andb_false_r. }
        assert (Ha : toAscii c = None).
        { unfold toAscii. destruct (N.ltb_spec c 256); [lia|reflexivity]. }
        now rewrite Hd, Ha. }
    rewrite Herr, fold_step_error in Hparse. discriminate.
  - apply orb_false_iff in Hbad as [Hbad H3].
    apply orb_false_iff in Hbad as [H1 H2].
    repeat split; [exact H1|now apply N.eqb_neq|now apply N.eqb_neq].
Qed.

End Boundaries.

(** ** Removal of the code-fence markers *)

Section Fences.

Variable matches : jsstring -> bool.
Variable len : nat.

Local Notation "'scan'" := (removeAll_go matches len).

Lemma scan_emit c s :
  matches (c :: s) = false -> scan 0 (c :: s) = c :: scan 0 s.
Proof. intros H. cbn [removeAll_go]. now rewrite H. Qed.

Lemma scan_skip x :
  forall b, scan (List.length x) (x ++ b) = scan 0 b.
Proof.
  induction x as [|c x IH]; intros b; [reflexivity|].
  cbn [List.length app removeAll_go]. apply IH.
Qed.

Lemma scan_match f b :
  matches (f ++ b) = true -> List.length f = len -> 0 < len ->
  scan 0 (f ++ b) = scan 0 b.
Proof.
  intros Hm Hlen Hpos. destruct f as [|c f]; [simpl in Hlen; lia|].
  cbn [app removeAll_go]. cbn [app] in Hm. rewrite Hm.
  replace (len - 1) with (List.length f) by (simpl in Hlen; lia).
  apply scan_skip.
Qed.

(** Where no match begins, the text is kept. *)
Lemma scan_keep a :
  forall b,
    (forall a1 a2, a = a1 ++ a2 -> a2 <> [] -> matches (a2 ++ b) = false) ->
    scan 0 (a ++ b) = a ++ scan 0 b.
Proof.
  induction a as [|c a IH]; intros b H; [reflexivity|].
  cbn [app]. rewrite scan_emit.
  - f_equal. apply IH. intros a1 a2 -> Hne.
    apply (H (c :: a1) a2); [reflexivity|exact Hne].
  - apply (H [] (c :: a)); [reflexivity|discriminate].
Qed.

End Fences.

Section Sanitize.

Local Notation "'dropJson'" := (removeAll_go (startsWithCI fenceJson) 7 0).
Local Notation "'dropFence'" := (removeAll_go (startsWith fence) 3 0).

Lemma lower_backtick c : (lower 96 =? lower c)%N = true -> c = 96%N.
Proof.
  change (lower 96) with 96%N. unfold lower.
  destruct ((65 <=? c) && (c <=? 90))%N eqn:E.
  - apply andb_true_iff in E as [H1 H2]. apply N.leb_le in H1, H2.
    intros H. apply N.eqb_eq in H. lia.
  - intros H. apply N.eqb_eq in H. now symmetry.
Qed.

Lemma not_backtick c : c <> 96%N -> (lower 96 =? lower c)%N = false.
Proof.
  intros H. destruct (lower 96 =? lower c)%N eqn:E; [|reflexivity].
  apply lower_backtick in E. contradiction.
Qed.

Lemma not_j c : lower c <> 106%N -> (lower 106 =? lower c)%N = false.
Proof.
  intros H. apply N.eqb_neq. change (lower 106) with 106%N. congruence.
Qed.

Lemma wrap_plain c : isWrap c = true -> c <> 96%N /\ lower c <> 106%N.
Proof.
  intros H. split.
  - intros ->. discriminate.
  - intros Hj. assert (Hc : c = 74%N \/ c = 106%N).
    { unfold lower in Hj. destruct ((65 <=? c) && (c <=? 90))%N; lia. }
    destruct Hc as [-> | ->]; discriminate.
Qed.

Lemma startsWithCI_app p f x :
  startsWithCI p f = true -> startsWithCI p (f ++ x) = true.
Proof.
  revert f. induction p as [|a p IH]; intros f H; [reflexivity|].
  destruct f as [|b f]; [discriminate|]. cbn in *.
  apply andb_true_iff in H as [H1 H2]. rewrite H1. now apply IH.
Qed.

Lemma startsWith_app p f x :
  startsWith p f = true -> startsWith p (f ++ x) = true.
Proof.
  revert f. induction p as [|a p IH]; intros f H; [reflexivity|].
  destruct f as [|b f]; [discriminate|]. cbn in *.
  apply andb_true_iff in H as [H1 H2]. rewrite H1. now apply IH.
Qed.

(** A [```json] marker begins with three backticks. *)
Lemma fenceJson_shape f :
  startsWithCI fenceJson f = true -> exists t, f = 96%N :: 96%N :: 96%N :: t.
Proof.
  change fenceJson with [96; 96; 96; 106; 115; 111; 110]%N.
  destruct f as [|a [|b [|c t]]]; cbn [startsWithCI];
    rewrite ?andb_false_r; try discriminate.
  intros H. apply andb_true_iff in H as [Ha H].
  apply andb_true_iff in H as [Hb H]. apply andb_true_iff in H as [Hc _].
  apply lower_backtick in Ha, Hb, Hc. subst. eauto.
Qed.

Lemma fenceJson_fence x :
  startsWithCI fenceJson x = true -> startsWith fence x = true.
Proof.
  intros H. destruct (fenceJson_shape x H) as [t ->]. reflexivity.
Qed.

(** After noise and before a plain head, no [```json] marker begins one,
    two or three backticks back. *)
Lemma quiet_after s b :
  wrapping s -> plainHead b ->
  startsWithCI fenceJson (96 :: 96 :: 96 :: s ++ b)%N = false
  /\ startsWithCI fenceJson (96 :: 96 :: s ++ b)%N = false
  /\ startsWithCI fenceJson (96 :: s ++ b)%N = false.
Proof.
  intros Hs Hb.
  assert (Hplain : forall c t, c <> 96%N -> lower c <> 106%N ->
            startsWithCI fenceJson (96 :: 96 :: 96 :: c :: t)%N = false
            /\ startsWithCI fenceJson (96 :: 96 :: c :: t)%N = false
            /\ startsWithCI fenceJson (96 :: c :: t)%N = false).
  { intros c t H1 H2.
    change fenceJson with [96; 96; 96; 106; 115; 111; 110]%N.
    cbn [startsWithCI]. rewrite (not_backtick c H1), (not_j c H2).
    rewrite ?andb_false_r. auto. }
  inversion Hs as [|c s' Hc Hs'|s' Hs'|f s' Hlen Hf Hs']; subst.
  - destruct b as [|c t]; [repeat split; reflexivity|].
    destruct Hb. now apply Hplain.
  - destruct (wrap_plain c Hc). now apply Hplain.
  - repeat split; reflexivity.
  - destruct (fenceJson_shape f Hf) as [t ->]. repeat split; reflexivity.
Qed.

Lemma dropJson_wrapping a :
  wrapping a ->
  forall b, plainHead b ->
    exists a', fenced a' /\ dropJson (a ++ b) = a' ++ dropJson b.
Proof.
  induction 1 as [|c s Hc Hs IH|s Hs IH|f s Hlen Hf Hs IH]; intros b Hb.
  - exists []. split; [constructor|reflexivity].
  - destruct (IH b Hb) as (a' & Ha' & Heq).
    exists (c :: a'). split; [now constructor|].
    cbn [app]. rewrite scan_emit.
    + now rewrite Heq.
    + destruct (wrap_plain c Hc) as [H1 _].
      change fenceJson with [96; 96; 96; 106; 115; 111; 110]%N.
      cbn [startsWithCI]. now rewrite (not_backtick c H1).
  - destruct (IH b Hb) as (a' & Ha' & Heq).
    destruct (quiet_after s b Hs Hb) as (Q3 & Q2 & Q1).
    exists (fence ++ a'). split; [now constructor|].
    change (fence ++ s) with (96 :: 96 :: 96 :: s)%N.
    change (fence ++ a') with (96 :: 96 :: 96 :: a')%N.
    cbn [app]. rewrite scan_emit by exact Q3.
    rewrite scan_emit by exact Q2. rewrite scan_emit by exact Q1.
    now rewrite Heq.
  - destruct (IH b Hb) as (a' & Ha' & Heq).
    exists a'. split; [exact Ha'|].
    rewrite <- app_assoc. rewrite scan_match.
    + exact Heq.
    + now apply startsWithCI_app.
    + exact Hlen.
    + lia.
Qed.

Lemma dropFence_fenced a :
  fenced a ->
  forall b, exists a',
    forallb isWrap a' = true /\ dropFence (a ++ b) = a' ++ dropFence b.
Proof.
  induction 1 as [|c s Hc Hs IH|s Hs IH]; intros b.
  - exists []. split; reflexivity.
  - destruct (IH b) as (a' & Ha' & Heq).
    exists (c :: a'). split; [cbn; now rewrite Hc|].
    cbn [app]. rewrite scan_emit.
    + now rewrite Heq.
    + destruct (wrap_plain c Hc) as [H1 _].
      change fence with [96; 96; 96]%N. cbn [startsWith].
      apply N.eqb_neq in H1. rewrite N.eqb_sym. now rewrite H1.
  - destruct (IH b) as (a' & Ha' & Heq).
    exists a'. split; [exact Ha'|].
    rewrite <- app_assoc. rewrite scan_match.
    + exact Heq.
    + reflexivity.
    + reflexivity.
    + lia.
Qed.

Lemma includes_app_r p a b :
  startsWith p b = true -> includes p (a ++ b) = true.
Proof.
  intros H. induction a as [|c a IH]; cbn [app].
  - destruct b; cbn [includes]; now rewrite H.
  - cbn [includes]. rewrite IH. apply orb_true_r.
Qed.

(** No fence begins inside a text that holds none and does not end with a
    backtick. *)
Lemma no_fence_inside json b :
  includes fence json = false ->
  last json 0%N <> 96%N ->
  forall j1 j2, json = j1 ++ j2 -> j2 <> [] ->
    startsWith fence (j2 ++ b) = false.
Proof.
  intros Hinc Hlast j1 j2 -> Hne.
  destruct (startsWith fence (j2 ++ b)) eqn:E; [exfalso|reflexivity].
  change fence with [96; 96; 96]%N in E.
  destruct j2 as [|x [|y [|z t]]]; [congruence| | |].
  - cbn [app] in E. destruct b as [|b0 b]; cbn [startsWith] in E.
    + destruct (N.eqb_spec 96 x) as [<-|]; [|discriminate].
      apply Hlast. apply last_last.
    + destruct (N.eqb_spec 96 x) as [<-|]; [|discriminate].
      apply Hlast. apply last_last.
  - cbn [app startsWith] in E.
    destruct (N.eqb_spec 96 x) as [<-|]; [|discriminate].
    destruct (N.eqb_spec 96 y) as [<-|]; [|discriminate].
    apply Hlast.
    change (j1 ++ [96; 96]%N) with (j1 ++ [96%N] ++ [96%N]).
    rewrite app_assoc. apply last_last.
  - assert (Hs : startsWith fence (x :: y :: z :: t) = true).
    { change fence with [96; 96; 96]%N. cbn [app startsWith] in E |- *.
      destruct (96 =? x)%N; [|discriminate].
      destruct (96 =? y)%N; [|discriminate].
      destruct (96 =? z)%N; [|discriminate]. reflexivity. }
    rewrite (includes_app_r fence j1 _ Hs) in Hinc. discriminate.
Qed.

(** The text of a valid JSON value, free of fences and not padded, comes
    out of its wrapping unchanged. *)
Lemma sanitize_wrapped pre json post v :
  wrapping pre -> wrapping post ->
  JSON_parse json = Some v ->
  unpadded json ->
  includes fence json = false ->
  sanitizePotentialFormatting (pre ++ json ++ post) = json.
Proof.
  intros Hpre Hpost Hparse Hpad Hinc.
  destruct json as [|c0 rest]; [destruct Hpad|].
  destruct Hpad as [Hfirst Hlastws].
  destruct (parse_first c0 rest v Hparse Hfirst) as (Hw0 & Hb0 & Hj0).
  destruct (nonempty_last (c0 :: rest)) as (body & cl & Hsplit & Hl);
    [discriminate|].
  rewrite Hl in Hlastws.
  assert (Hparse' := Hparse). rewrite Hsplit in Hparse'.
  destruct (parse_last body cl v Hparse' Hlastws) as (Hwl & Hbl).
  assert (Hlast96 : last (c0 :: rest) 0%N <> 96%N) by now rewrite Hl.
  set (json := c0 :: rest) in *.
  assert (Hkeep7 : forall b, dropJson (json ++ b) = json ++ dropJson b).
  { intros b. apply scan_keep. intros j1 j2 Hj Hne.
    destruct (startsWithCI fenceJson (j2 ++ b)) eqn:E; [|reflexivity].
    apply fenceJson_fence in E.
    now rewrite (no_fence_inside json b Hinc Hlast96 j1 j2 Hj Hne) in E. }
  assert (Hkeep3 : forall b, dropFence (json ++ b) = json ++ dropFence b).
  { intros b. apply scan_keep. intros j1 j2 Hj Hne.
    exact (no_fence_inside json b Hinc Hlast96 j1 j2 Hj Hne). }
  destruct (dropJson_wrapping pre Hpre (json ++ post)) as (pre1 & Hpre1 & E1).
  { unfold json. cbn. auto. }
  destruct (dropJson_wrapping post Hpost []) as (post1 & Hpost1 & E2);
    [exact I|].
  rewrite app_nil_r in E2. cbn [removeAll_go] in E2. rewrite app_nil_r in E2.
  destruct (dropFence_fenced pre1 Hpre1 (json ++ post1)) as (pre2 & Hpre2 & E3).
  destruct (dropFence_fenced post1 Hpost1 []) as (post2 & Hpost2 & E4).
  rewrite app_nil_r in E4. cbn [removeAll_go] in E4. rewrite app_nil_r in E4.
  unfold sanitizePotentialFormatting, removeAll.
  rewrite E1, Hkeep7, E2, E3, Hkeep3, E4.
  rewrite dropWhile_all_app by exact Hpre2.
  unfold json at 1. cbn [app]. rewrite dropWhile_head by exact Hw0.
  change (c0 :: rest ++ post2) with (json ++ post2).
  rewrite dropWhileEnd_all_app by exact Hpost2.
  rewrite Hsplit. rewrite dropWhileEnd_last by exact Hwl.
  assert (Hws0 : isWhiteSpace c0 = false).
  { unfold isWrap in Hw0. now apply orb_false_iff in Hw0 as [_ ?]. }
  assert (Hwsl : isWhiteSpace cl = false).
  { unfold isWrap in Hwl. now apply orb_false_iff in Hwl as [_ ?]. }
  rewrite <- Hsplit. unfold trim, json. rewrite dropWhile_head by exact Hws0.
  fold json. rewrite Hsplit. now apply dropWhileEnd_last.
Qed.

End Sanitize.

(** ** White space around a JSON text *)

Section Padding.

Lemma jsonWs_cases c :
  isJsonWs c = true -> c = 9%N \/ c = 10%N \/ c = 13%N \/ c = 32%N.
Proof.
  unfold isJsonWs. rewrite !orb_true_iff, !N.eqb_eq. tauto.
Qed.

Lemma parse_skip_leading ws s :
  forallb isJsonWs ws = true -> JSON_parse (ws ++ s) = JSON_parse s.
Proof.
  intros H. unfold JSON_parse. rewrite fold_left_app. f_equal. f_equal.
  induction ws as [|c ws IH]; [reflexivity|].
  cbn [forallb] in H. apply andb_true_iff in H as [Hc Hws].
  cbn [fold_left step]. rewrite Hc. now apply IH.
Qed.

Lemma step_trailing c st v :
  isJsonWs c = true -> finish (step st c) = Some v -> finish st = Some v.
Proof.
  intros Hc.
  destruct (jsonWs_cases c Hc) as [->|[->|[->| ->]]];
    destruct st as [|[|[es|fs [k|]] stack]
                      [| | | | | |iskey acc [| |n h]|[] a|[]]|v'];
    cbn; intros H; first [discriminate H | exact H].
Qed.

Lemma parse_drop_trailing ws :
  forall s v,
    forallb isJsonWs ws = true ->
    JSON_parse (s ++ ws) = Some v -> JSON_parse s = Some v.
Proof.
  induction ws as [|c ws IH]; intros s v Hws H.
  - now rewrite app_nil_r in H.
  - cbn [forallb] in Hws. apply andb_true_iff in Hws as [Hc Hws].
    change (s ++ c :: ws) with (s ++ [c] ++ ws) in H.
    rewrite app_assoc in H. apply IH in H; [|exact Hws].
    unfold JSON_parse in H |- *. rewrite fold_left_app in H.
    cbn [fold_left] in H. now apply (step_trailing c).
Qed.

Lemma leading s :
  exists ws t,
    s = ws ++ t /\ forallb isJsonWs ws = true
    /\ match t with [] => True | c :: _ => isJsonWs c = false end.
Proof.
  induction s as [|c s (ws & t & -> & Hws & Ht)].
  - exists [], []. auto.
  - destruct (isJsonWs c) eqn:E.
    + exists (c :: ws), t. cbn. rewrite E. auto.
    + exists [], (c :: ws ++ t). auto.
Qed.

Lemma trailing t :
  exists core ws,
    t = core ++ ws /\ forallb isJsonWs ws = true
    /\ (core = [] \/ isJsonWs (last core 0%N) = false).
Proof.
  induction t as [|c t (core & ws & -> & Hws & Hcore)] using rev_ind.
  - exists [], []. auto.
  - destruct (isJsonWs c) eqn:E.
    + exists core, (ws ++ [c]). rewrite app_assoc. split; [reflexivity|].
      split; [|exact Hcore]. rewrite forallb_app, Hws. cbn. now rewrite E.
    + exists ((core ++ ws) ++ [c]), []. rewrite app_nil_r.
      split; [reflexivity|]. split; [reflexivity|]. right.
      now rewrite last_last.
Qed.

(** A text that parses is a text that parses to the same value and is not
    padded, between JSON white space. *)
Lemma padding json v :
  JSON_parse json = Some v ->
  exists ws1 core ws2,
    json = ws1 ++ core ++ ws2
    /\ forallb isJsonWs ws1 = true /\ forallb isJsonWs ws2 = true
    /\ unpadded core /\ JSON_parse core = Some v.
Proof.
  intros Hparse.
  destruct (leading json) as (ws1 & t & -> & Hws1 & Ht).
  destruct (trailing t) as (core & ws2 & -> & Hws2 & Hcore).
  rewrite parse_skip_leading in Hparse by exact Hws1.
  apply parse_drop_trailing in Hparse; [|exact Hws2].
  exists ws1, core, ws2. repeat split; try assumption.
  destruct core as [|c core]; [discriminate Hparse|].
  destruct Hcore as [Hnil|Hlast]; [discriminate|].
  split; [exact Ht|exact Hlast].
Qed.

Lemma wrapping_app a b : wrapping a -> wrapping b -> wrapping (a ++ b).
Proof.
  intros Ha Hb.
  induction Ha as [|c s Hc Hs IH|s Hs IH|f s Hlen Hf Hs IH].
  - exact Hb.
  - cbn [app]. apply wrap_char; [exact Hc|exact IH].
  - rewrite <- app_assoc. apply wrap_fence. exact IH.
  - rewrite <- app_assoc. apply wrap_fenceJson; [exact Hlen|exact Hf|exact IH].
Qed.

Lemma wrapping_ws ws : forallb isJsonWs ws = true -> wrapping ws.
Proof.
  induction ws as [|c ws IH]; intros H; [constructor|].
  cbn [forallb] in H. apply andb_true_iff in H as [Hc Hws].
  constructor; [|auto]. unfold isWrap.
  rewrite (jsonWs_whiteSpace c Hc). now rewrite !orb_true_r.
Qed.

Lemma includes_tail p a b : includes p (a ++ b) = false -> includes p b = false.
Proof.
  induction a as [|c a IH]; [trivial|]. cbn [app includes].
  intros H. apply orb_false_iff in H as [_ H]. auto.
Qed.

Lemma includes_front p a b : includes p (a ++ b) = false -> includes p a = false.
Proof.
  induction a as [|c a IH].
  - cbn [app]. intros H. destruct p as [|x p]; [|reflexivity].
    destruct b; discriminate H.
  - cbn [app includes]. intros H. apply orb_false_iff in H as [H1 H2].
    rewrite (IH H2), orb_false_r.
    destruct (startsWith p (c :: a)) eqn:E; [|reflexivity].
    change (c :: a ++ b) with ((c :: a) ++ b) in H1.
    now rewrite (startsWith_app p (c :: a) b E) in H1.
Qed.

End Padding.

(** C2, as amended.  For every text that is valid JSON, wrapped or not in
    the markers [```] and [```json] (in any letter case; no other fence tag
    is recognised), parentheses and white space, [parseJsonWithRetry] with
    the default budget, or any that is not negative, returns the parsed
    value of the JSON text at the first attempt: it sends nothing to the
    model and logs nothing.  The statement is about JSON texts that hold no
    triple backtick of their own; what the sanitizer does to one that does
    is a defect of the code and is neither promised nor denied here. *)
Theorem C2_wrapped_json_first_attempt (env : Env)
  (originalMessages : list Message) (maxRetries : Z) (w : World env)
  (pre json post : jsstring) (v : value) :
  (0 <= maxRetries)%Z ->
  wrapping pre -> wrapping post ->
  JSON_parse json = Some v ->
  includes fence json = false ->
  let r :=
    run (parseJsonWithRetry env originalMessages (pre ++ json ++ post)
           maxRetries) w in
  outcome r = Ret v /\ events r = [].
Proof.
  intros Hpos Hpre Hpost Hparse Hinc r.
  destruct (padding json v Hparse)
    as (ws1 & core & ws2 & -> & Hws1 & Hws2 & Hcore & Hpc).
  assert (Hs : sanitizePotentialFormatting
                 (pre ++ (ws1 ++ core ++ ws2) ++ post) = core).
  { replace (pre ++ (ws1 ++ core ++ ws2) ++ post)
      with ((pre ++ ws1) ++ core ++ (ws2 ++ post))
      by (now rewrite <- !app_assoc).
    apply (sanitize_wrapped _ _ _ v).
    - apply wrapping_app; [exact Hpre|now apply wrapping_ws].
    - apply wrapping_app; [now apply wrapping_ws|exact Hpost].
    - exact Hpc.
    - exact Hcore.
    - apply includes_tail in Hinc. now apply includes_front in Hinc. }
  unfold r, outcome, events, run, parseJsonWithRetry. rewrite Hs.
  rewrite retryLoop_turn.
  destruct (Z.leb_spec 0 maxRetries) as [_|]; [|lia].
  rewrite Hpc. split; reflexivity.
Qed.

(** The counterexample to C2 as stated: a valid JSON text inside a code
    fence with the language tag [js] is not unwrapped.  The sanitizer
    leaves [js] before the text, the first parse attempt fails, a repair
    call is made, and what comes back is the model's answer, not the value
    of the wrapped text. *)
Lemma C2_other_fence_tag :
  let json := js "{" ++ q "a" ++ js ":1}" in
  let r :=
    run (parseJsonWithRetry_default Scripted.env [] taggedFence)
      [Scripted.says (js "{" ++ q "a" ++ js ":2}")] in
  taggedFence = js "```js" ++ nl ++ json ++ nl ++ js "```"
  /\ JSON_parse json
     = Some (VObject
               [(js "a", VNumber {| neg := false; coeff := 1; exp10 := 0 |})])
  /\ sanitizePotentialFormatting taggedFence = js "js" ++ nl ++ json
  /\ List.length (calls (events r)) = 1
  /\ outcome r
     = Ret (VObject
              [(js "a", VNumber {| neg := false; coeff := 2; exp10 := 0 |})]).
Proof. cbv zeta. repeat split; vm_compute; reflexivity. Qed.

(** Beside the claim: a defect of the sanitizer.  Its comment promises
    nothing that might corrupt valid JSON, and the replacements at the two
    ends are anchored; the removal of the fence markers is not, so that a
    valid JSON text with a triple backtick inside a string comes back as
    another value, at the first attempt and without a word in the log. *)
Lemma C2_fence_inside_string :
  let r := run (parseJsonWithRetry_default Scripted.env [] fencedNote) [] in
  JSON_parse fencedNote = Some (VObject [(js "note", VString (js "```"))])
  /\ outcome r = Ret (VObject [(js "note", VString [])])
  /\ events r = [].
Proof. cbv zeta. repeat split; vm_compute; reflexivity. Qed.

(** ** The parser on sample texts *)

Example parse_example :
  JSON_parse exampleJson
  = Some (VObject
            [(js "tasks",
              VArray
                [VObject
                   [(js "a",
                     VNumber {| neg := false; coeff := 1; exp10 := 0 |})];
                 VObject
                   [(js "b",
                     VObject
                       [(js "c",
                         VNumber {| neg := false; coeff := 2;
                                    exp10 := 0 |})])]])]).
Proof. vm_compute. reflexivity. Qed.

Example parse_scalars :
  JSON_parse (js " [1, -2.50e+3, true,false , null, " ++ q "aA\n\u0041"
              ++ js ", {}, [], 0]  ")
  = Some (VArray
            [VNumber {| neg := false; coeff := 1; exp10 := 0 |};
             VNumber {| neg := true; coeff := 250; exp10 := 1 |};
             VBool true; VBool false; VNull;
             VString [97; 65; 10; 65]%N;
             VObject []; VArray [];
             VNumber {| neg := false; coeff := 0; exp10 := 0 |}]).
Proof. vm_compute. reflexivity. Qed.

Example parse_duplicate_key :
  JSON_parse (js "{" ++ q "a" ++ js ":1," ++ q "b" ++ js ":2," ++ q "a"
              ++ js ":3}")
  = Some (VObject
            [(js "a", VNumber {| neg := false; coeff := 3; exp10 := 0 |});
             (js "b", VNumber {| neg := false; coeff := 2; exp10 := 0 |})]).
Proof. vm_compute. reflexivity. Qed.

Example parse_rejects :
  map JSON_parse
    [ []; js "  "; js "[1,]"; js "{" ++ q "a" ++ js ":1,}"; js "01"; js "-";
      js "1."; js ".5"; js "+1"; js "1e"; js "tru"; js "nulll"; js "{a:1}";
      js "'a'"; js "[1 2]"; js "{" ++ q "a" ++ js " 1}"; q "\x";
      dq ++ [9%N] ++ dq; js "{}{}"; [65279%N] ++ js "{}"; js "(1)" ]
  = repeat None 21.
Proof. vm_compute. reflexivity. Qed.

Example sanitize_example :
  sanitizePotentialFormatting
    (js "```JSON" ++ nl ++ js " ( {" ++ q "a" ++ js ": [1, 2]} ) " ++ nl
     ++ js "```" ++ nl)
  = js "{" ++ q "a" ++ js ": [1, 2]}".
Proof. vm_compute. reflexivity. Qed.

Example underflow_is_falsy :
  truthy (VNumber {| neg := false; coeff := 1; exp10 := -400 |}) = false
  /\ truthy (VNumber {| neg := false; coeff := 1; exp10 := -300 |}) = true.
Proof. split; vm_compute; reflexivity. Qed.

(** ** The theorems at concrete inputs *)

Lemma C1_witness :
  outcome (run (parseJsonWithRetry (Scripted.always (Scripted.says (js "nope")))
                  [] (js "{oops") 2) tt)
  = Throw (JsError (js "Failed to parse JSON (max retries exceeded)")).
Proof.
  destruct (C1_bounded_repair (Scripted.always (Scripted.says (js "nope")))
              [] (js "{oops") 2 tt) as (_ & _ & _ & _ & H).
  apply H.
  - lia.
  - reflexivity.
  - intros req w. exists (Some (js "nope")). split; reflexivity.
Defined.

Lemma C2_witness :
  let r :=
    run (parseJsonWithRetry Scripted.env []
           ((js "```json" ++ nl ++ js "(")
            ++ (js "{" ++ q "a" ++ js ":1}")
            ++ (js ")" ++ nl ++ js "```")) 2) [] in
  outcome r
    = Ret (VObject [(js "a", VNumber {| neg := false; coeff := 1; exp10 := 0 |})])
  /\ events r = [].
Proof.
  apply C2_wrapped_json_first_attempt.
  - lia.
  - apply (@wrap_fenceJson (js "```json") (nl ++ js "(")); try reflexivity.
    apply wrap_char; [reflexivity|]. apply wrap_char; [reflexivity|].
    apply wrap_nil.
  - apply wrap_char; [reflexivity|]. apply wrap_char; [reflexivity|].
    apply (@wrap_fence []). apply wrap_nil.
  - reflexivity.
  - reflexivity.
Defined.

Lemma C3_witness :
  closesAt (exampleJson ++ nl ++ js "Explanation with a stray } character.")
    (List.length exampleJson).
Proof.
  destruct C3_brace_balance_extraction as [H _].
  destruct (H (exampleJson ++ nl
               ++ js "Explanation with a stray } character."))
    as [_ [[Hz _]|[Hc _]]].
  - vm_compute in Hz. discriminate Hz.
  - vm_compute in Hc. vm_compute. exact Hc.
Defined.

Lemma C4_witness :
  outcome
    (run (getChatResponse Scripted.env (Some (js "Revise the plan"))
            examplePlan None [])
       [Scripted.says exampleReply])
  = Ret {| message := clarification;
           updatedPlan := None;
           error := Some (js "Failed to parse plan update") |}.
Proof.
  eapply (C4_invalid_update_soft_failure Scripted.env).
  - reflexivity.
  - reflexivity.
  - reflexivity.
  - eapply rejectedLine.
    + reflexivity.
    + reflexivity.
    + left. reflexivity.
    + reflexivity.
Defined.

Lemma C5_witness :
  exists fields,
    outcome
      (run (getChatResponse Scripted.env (Some (js "Cut the hours"))
              examplePlan None [])
         [Scripted.says negativeHoursReply])
    = Ret {| message := js "Done.";
             updatedPlan := Some (VObject fields);
             error := None |}
    /\ lookup (js "finalStaffingPlan") fields
       = Some (VObject
                 [(js "tasks",
                   VArray
                     [VObject
                        [(js "taskId", VString (js "1.1"));
                         (js "lcat", VString (js "Program Manager"));
                         (js "hours",
                          VNumber {| neg := true; coeff := 5; exp10 := 0 |})]])])
    /\ lookup (js "id") fields = Some (VString (js "plan-1"))
    /\ lookup (js "rfpText") fields
       = Some (VString (js "RFP requiring 2 engineers for 6 months"))
    /\ lookup (js "staff") fields = None.
Proof.
  destruct (C5_full_replacement Scripted.env (Some (js "Cut the hours"))
              examplePlan None [] [Scripted.says negativeHoursReply]
              (match trimPlanData examplePlan with
               | Ok trimmed => trimmed
               | Err _ => VNull
               end)
              negativeHoursReply
              (VObject
                 [(js "tasks",
                   VArray
                     [VObject
                        [(js "taskId", VString (js "1.1"));
                         (js "lcat", VString (js "Program Manager"));
                         (js "hours",
                          VNumber {| neg := true; coeff := 5;
                                     exp10 := 0 |})]])])
              [VObject
                 [(js "taskId", VString (js "1.1"));
                  (js "lcat", VString (js "Program Manager"));
                  (js "hours",
                   VNumber {| neg := true; coeff := 5; exp10 := 0 |})]])
    as (fields & Hout & Htasks & Hobject & _).
  - vm_compute. reflexivity.
  - vm_compute. reflexivity.
  - vm_compute. reflexivity.
  - vm_compute. reflexivity.
  - reflexivity.
  - vm_compute. reflexivity.
  - exists fields. split; [exact Hout|]. split; [exact Htasks|].
    rewrite !(Hobject _ eq_refl) by (vm_compute; discriminate).
    repeat split; vm_compute; reflexivity.
Defined.

Lemma C6_witness :
  outcome
    (run (getChatResponse Scripted.env
            (Some (js "What labor categories were used?")) examplePlan None [])
       [Scripted.says (js "One: Program Manager.")])
  = Ret {| message := js "One: Program Manager.";
           updatedPlan := None;
           error := None |}.
Proof.
  eapply (C6_reply_without_marker Scripted.env
            (Some (js "What labor categories were used?")) examplePlan None []
            [Scripted.says (js "One: Program Manager.")] _
            (js "One: Program Manager."));
    reflexivity.
Defined.

(** The counterexample to C6 as stated: the empty reply holds no marker and
    is not what comes back as the message. *)
Lemma C6_empty_reply :
  let r :=
    run (getChatResponse Scripted.env
           (Some (js "What labor categories were used?")) examplePlan None [])
      [Scripted.says []] in
  includes marker [] = false
  /\ outcome r
     = Ret {| message := js "I'm sorry, I couldn't generate a response.";
              updatedPlan := None;
              error := None |}
  /\ js "I'm sorry, I couldn't generate a response." <> [].
Proof.
  cbv zeta. split; [reflexivity|]. split; [reflexivity|discriminate].
Qed.

Lemma C7_witness :
  outcome
    (run (getChatResponse Scripted.env (Some (js "Revise the plan"))
            examplePlan None [])
       [Rejected (Some (js "context_length_exceeded")) (Some (js "too long"))])
  = Ret {| message :=
             js "I apologize, but the plan and conversation history are too long for me to process. Could you try breaking down your request into smaller parts?";
           updatedPlan := None;
           error := Some (js "Message too long") |}
  /\ outcome
       (run (getChatResponse Scripted.env (Some (js "Revise the plan"))
               examplePlan None [])
          [Rejected (Some (js "rate_limit_exceeded")) (Some (js "slow down"))])
     = Throw (JsError (js "Failed to get AI response: slow down")).
Proof.
  split.
  - destruct (C7_failure_escalation Scripted.env (Some (js "Revise the plan"))
                examplePlan None []
                [Rejected (Some (js "context_length_exceeded"))
                   (Some (js "too long"))]
                _ (Some (js "context_length_exceeded")) (Some (js "too long"))
                eq_refl eq_refl) as [H _].
    apply H. reflexivity.
  - destruct (C7_failure_escalation Scripted.env (Some (js "Revise the plan"))
                examplePlan None []
                [Rejected (Some (js "rate_limit_exceeded"))
                   (Some (js "slow down"))]
                _ (Some (js "rate_limit_exceeded")) (Some (js "slow down"))
                eq_refl eq_refl) as [_ H].
    apply H. discriminate.
Defined.

Lemma C8_witness :
  exists ts,
    getPropOpt
      (getPropOpt
         (replacePlan examplePlan
            (VArray
               [VObject
                  [(js "taskId", VString (js "1.1"));
                   (js "lcat", VString (js "Program Manager"));
                   (js "hours",
                    VNumber {| neg := true; coeff := 5; exp10 := 0 |})]]))
         "finalStaffingPlan") "tasks" = VArray ts
    /\ Forall checkedLine ts.
Proof.
  eapply (C8_accepted_lines Scripted.env (Some (js "Cut the hours"))
            examplePlan None [] [Scripted.says negativeHoursReply]);
    reflexivity.
Defined.

(** The counterexample to C8 as stated: an update whose only line has
    negative hours and no rationale is accepted into the plan. *)
Lemma C8_negative_hours_accepted :
  let r :=
    run (getChatResponse Scripted.env (Some (js "Cut the hours"))
           examplePlan None [])
      [Scripted.says negativeHoursReply] in
  let line :=
    VObject
      [(js "taskId", VString (js "1.1"));
       (js "lcat", VString (js "Program Manager"));
       (js "hours", VNumber {| neg := true; coeff := 5; exp10 := 0 |})] in
  outcome r
    = Ret {| message := js "Done.";
             updatedPlan := Some (replacePlan examplePlan (VArray [line]));
             error := None |}
  /\ getPropOpt
       (getPropOpt (replacePlan examplePlan (VArray [line]))
          "finalStaffingPlan") "tasks" = VArray [line]
  /\ isNegative {| neg := true; coeff := 5; exp10 := 0 |} = true
  /\ field line "mathRationale" = None.
Proof.
  cbv zeta. repeat split; vm_compute; reflexivity.
Qed.

Lemma C9_witness :
  let r :=
    run (getChatResponse Scripted.env (Some (js "Revise the plan"))
           examplePlan None [])
      [Completed None] in
  outcome r
    = Ret {| message := js "I'm sorry, I couldn't generate a response.";
             updatedPlan := None;
             error := None |}
  /\ exists req, events r = [ModelCall req].
Proof.
  cbv zeta.
  destruct (C9_no_content Scripted.env (Some (js "Revise the plan"))
              examplePlan None [] [Completed None]
              (VObject
                 [(js "finalStaffingPlan",
                   VObject
                     [(js "tasks",
                       VArray
                         [VObject
                            [(js "taskId", VString (js "1.1"));
                             (js "lcat", VString (js "Program Manager"));
                             (js "hours",
                              VNumber {| neg := false; coeff := 1880;
                                         exp10 := 0 |});
                             (js "mathRationale",
                              VString (js "1 FTE x 1880 hr = 1880 hr"));
                             (js "basis",
                              VString (js "RFP section C.5"))]])])])
              None) as [H1 H2].
  - reflexivity.
  - reflexivity.
  - now left.
  - split; [exact H1|]. eexists. exact H2.
Defined.

Lemma C10_witness :
  let history :=
    [ {| h_role := User; h_content := Some (js "one") |};
      {| h_role := Assistant; h_content := Some (js "   ") |};
      {| h_role := User; h_content := None |};
      {| h_role := Assistant; h_content := Some (js "four") |};
      {| h_role := User; h_content := Some [] |};
      {| h_role := Assistant; h_content := Some (js "six") |} ] in
  exists system,
    map messages
      (calls (events (run (getChatResponse Scripted.env (Some (js " "))
                             VNull None history) [])))
    = [ [ system;
          {| role := Assistant; content := js "four" |};
          {| role := Assistant; content := js "six" |} ] ].
Proof.
  cbv zeta. eexists.
  destruct (C10_only_nonblank_messages_sent Scripted.env (Some (js " "))
              VNull None
              [ {| h_role := User; h_content := Some (js "one") |};
                {| h_role := Assistant; h_content := Some (js "   ") |};
                {| h_role := User; h_content := None |};
                {| h_role := Assistant; h_content := Some (js "four") |};
                {| h_role := User; h_content := Some [] |};
                {| h_role := Assistant; h_content := Some (js "six") |} ]
              []) as [_ H].
  rewrite (H VNull eq_refl). reflexivity.
Defined.

(** * Further properties of the code *)

(** ** What the sanitizer leaves *)

Section SanitizeResult.

Local Notation "'dropFence'" := (removeAll_go (startsWith fence) 3).

Lemma fence_iff x :
  startsWith fence x = true <-> exists y, x = (96 :: 96 :: 96 :: y)%N.
Proof.
  change fence with [96; 96; 96]%N. split.
  - destruct x as [|a [|b [|c y]]]; cbn [startsWith];
      rewrite ?andb_false_r; try discriminate.
    intros H. apply andb_true_iff in H as [Ha H].
    apply andb_true_iff in H as [Hb H]. apply andb_true_iff in H as [Hc _].
    apply N.eqb_eq in Ha, Hb, Hc. subst. eauto.
  - intros [y ->]. reflexivity.
Qed.

Lemma not_fence x :
  (forall y, x <> (96 :: 96 :: 96 :: y)%N) -> startsWith fence x = false.
Proof.
  intros H. destruct (startsWith fence x) eqn:E; [|reflexivity].
  apply fence_iff in E as [y ->]. now elim (H y).
Qed.

Lemma dropFence_emit c t :
  startsWith fence (c :: t) = false ->
  dropFence 0 (c :: t) = c :: dropFence 0 t.
Proof. intros H. cbn [removeAll_go]. now rewrite H. Qed.

Lemma dropFence_head t :
  (forall t', t <> 96%N :: t') -> forall r, dropFence 0 t <> 96%N :: r.
Proof.
  intros H r. destruct t as [|d t]; [discriminate|].
  rewrite dropFence_emit.
  - intros E. inversion E. subst d. now elim (H t).
  - apply not_fence. intros y E. inversion E. subst d. now elim (H t).
Qed.

(** A code unit kept before the rest of the scan does not complete a
    fence with what the scan keeps. *)
Lemma dropFence_no_join c t :
  startsWith fence (c :: t) = false ->
  startsWith fence (c :: dropFence 0 t) = false.
Proof.
  intros H. destruct (startsWith fence (c :: dropFence 0 t)) eqn:E;
    [exfalso|reflexivity].
  apply fence_iff in E as [y E]. inversion E as [[Hc Ht]]. subst c.
  destruct t as [|d t1]; [discriminate Ht|].
  destruct (N.eq_dec d 96) as [->|Hd].
  - assert (H1 : forall t2, t1 <> 96%N :: t2).
    { intros t2 ->. discriminate H. }
    rewrite dropFence_emit in Ht.
    + inversion Ht as [Ht1]. now apply (dropFence_head t1 H1 y).
    + apply not_fence. intros z Ez. inversion Ez. subst t1.
      now elim (H1 (96%N :: z)).
  - apply (dropFence_head (d :: t1)) with (r := 96%N :: y); [|exact Ht].
    intros t' Et. inversion Et. contradiction.
Qed.

Lemma dropFence_clean s : forall k, includes fence (dropFence k s) = false.
Proof.
  induction s as [|c t IH]; intros k; [reflexivity|].
  destruct k as [|k]; cbn [removeAll_go]; [|apply IH].
  destruct (startsWith fence (c :: t)) eqn:E; [apply IH|].
  cbn [includes]. rewrite IH, orb_false_r. now apply dropFence_no_join.
Qed.

Lemma dropWhile_suffix p s : exists a, s = a ++ dropWhile p s.
Proof.
  induction s as [|c s [a IH]]; [now exists []|]. cbn [dropWhile].
  destruct (p c); [|now exists []].
  exists (c :: a). cbn [app]. now rewrite <- IH.
Qed.

Lemma dropWhileEnd_prefix p s : exists b, s = dropWhileEnd p s ++ b.
Proof.
  unfold dropWhileEnd. destruct (dropWhile_suffix p (rev s)) as [a Ha].
  exists (rev a). rewrite <- rev_app_distr, <- Ha. now rewrite rev_involutive.
Qed.

Lemma dropWhile_stops p s c t : dropWhile p s = c :: t -> p c = false.
Proof.
  induction s as [|d s IH]; [discriminate|]. cbn [dropWhile].
  destruct (p d) eqn:E; [exact IH|]. intros H. inversion H. now subst.
Qed.

(** What is left after the two ends are stripped is empty, or begins and
    ends outside the class. *)
Lemma stripped_ends p s :
  let r := dropWhileEnd p (dropWhile p s) in
  r = [] \/ (exists c t, r = c :: t /\ p c = false /\ p (last r 0%N) = false).
Proof.
  cbv zeta. destruct (dropWhile p s) as [|c t] eqn:E; [now left|].
  pose proof (dropWhile_stops p s c t E) as Hc.
  right. unfold dropWhileEnd.
  destruct (dropWhile p (rev (c :: t))) as [|d u] eqn:E'.
  - exfalso. cbn [rev] in E'.
    destruct (dropWhile_app_stop p (rev t) c [] Hc) as [x Hx].
    rewrite Hx in E'. destruct x; discriminate.
  - pose proof (dropWhile_stops p _ d u E') as Hd.
    destruct (dropWhile_suffix p (rev (c :: t))) as [a Ha].
    rewrite E' in Ha. apply (f_equal (@rev N)) in Ha.
    rewrite rev_involutive, rev_app_distr in Ha.
    cbn [rev] in Ha |- *. rewrite <- app_assoc in Ha. cbn [app] in Ha.
    destruct (rev u) as [|x xs] eqn:Eu.
    + cbn [app] in Ha |- *. inversion Ha. subst d.
      exists c, []. auto.
    + cbn [app] in Ha |- *. inversion Ha. subst x.
      exists c, (xs ++ [d]). split; [reflexivity|]. split; [exact Hc|].
      change (c :: xs ++ [d]) with ((c :: xs) ++ [d]). now rewrite last_last.
Qed.

Lemma trim_unpadded_fixed c t :
  isWhiteSpace c = false -> isWhiteSpace (last (c :: t) 0%N) = false ->
  trim (c :: t) = c :: t.
Proof.
  intros Hc Hl. unfold trim. rewrite dropWhile_head by exact Hc.
  destruct (nonempty_last (c :: t)) as (body & cl & Hs & Hlast);
    [discriminate|].
  rewrite Hlast in Hl. rewrite Hs. now apply dropWhileEnd_last.
Qed.

Lemma wrap_false_ws c : isWrap c = false -> isWhiteSpace c = false.
Proof. unfold isWrap. intros H. now apply orb_false_iff in H as [_ ?]. Qed.

(** The sanitized text as the stripped text, when that is not empty. *)
Lemma sanitize_stripped raw :
  sanitizePotentialFormatting raw
  = dropWhileEnd isWrap
      (dropWhile isWrap
         (removeAll (startsWith fence) 3
            (removeAll (startsWithCI fenceJson) 7 raw))).
Proof.
  unfold sanitizePotentialFormatting.
  destruct (stripped_ends isWrap
              (removeAll (startsWith fence) 3
                 (removeAll (startsWithCI fenceJson) 7 raw)))
    as [->|(c & t & E & Hc & Hl)]; [reflexivity|].
  rewrite E in Hl |- *.
  apply trim_unpadded_fixed; now apply wrap_false_ws.
Qed.

End SanitizeResult.

(** Stripping the two ends brings no fence into a text that has none. *)
Lemma stripped_clean p x :
  includes fence x = false ->
  includes fence (dropWhileEnd p (dropWhile p x)) = false.
Proof.
  intros Hx.
  destruct (dropWhile_suffix p x) as [a Ha].
  destruct (dropWhileEnd_prefix p (dropWhile p x)) as [b Hb].
  rewrite Ha in Hx. apply includes_tail in Hx. rewrite Hb in Hx.
  now apply includes_front in Hx.
Qed.

(** X1. Whatever the input, the sanitized text holds no triple backtick. *)
Theorem sanitize_has_no_fence (raw : jsstring) :
  includes (js "```") (sanitizePotentialFormatting raw) = false.
Proof.
  rewrite sanitize_stripped. unfold removeAll.
  apply stripped_clean. apply dropFence_clean.
Qed.

(** X2. Whatever the input, the sanitized text is empty or begins and ends
    with a code unit that is neither a parenthesis nor white space. *)
Theorem sanitize_ends_are_plain (raw : jsstring) :
  let r := sanitizePotentialFormatting raw in
  r = []
  \/ (isWrap (hd 0%N r) = false /\ isWrap (last r 0%N) = false).
Proof.
  cbv zeta. rewrite sanitize_stripped.
  destruct (stripped_ends isWrap
              (removeAll (startsWith fence) 3
                 (removeAll (startsWithCI fenceJson) 7 raw)))
    as [H|(c & t & E & Hc & Hl)]; [now left|].
  right. rewrite E in Hl |- *. auto.
Qed.

(** X3. Sanitizing is idempotent: a sanitized text is its own sanitized
    text. *)
Theorem sanitize_idempotent (raw : jsstring) :
  sanitizePotentialFormatting (sanitizePotentialFormatting raw)
  = sanitizePotentialFormatting raw.
Proof.
  assert (Hclean : includes fence (sanitizePotentialFormatting raw) = false).
  { rewrite sanitize_stripped. unfold removeAll.
    apply stripped_clean. apply dropFence_clean. }
  assert (Hends : sanitizePotentialFormatting raw = []
                  \/ (isWrap (hd 0%N (sanitizePotentialFormatting raw)) = false
                      /\ isWrap (last (sanitizePotentialFormatting raw) 0%N)
                         = false)).
  { rewrite sanitize_stripped.
    destruct (stripped_ends isWrap
                (removeAll (startsWith fence) 3
                   (removeAll (startsWithCI fenceJson) 7 raw)))
      as [H|(c & t & E & Hc & Hl)]; [now left|].
    right. rewrite E in Hl |- *. auto. }
  generalize dependent (sanitizePotentialFormatting raw). intros r Hclean Hends.
  assert (Hkeep : forall r1 r2, r = r1 ++ r2 -> r2 <> [] ->
                                startsWith fence (r2 ++ []) = false).
  { intros r1 r2 Hr Hne. rewrite app_nil_r.
    destruct (startsWith fence r2) eqn:E; [|reflexivity].
    rewrite Hr in Hclean.
    now rewrite (includes_app_r fence r1 r2 E) in Hclean. }
  assert (H7 : removeAll (startsWithCI fenceJson) 7 r = r).
  { unfold removeAll. rewrite <- (app_nil_r r) at 1.
    rewrite scan_keep; [now rewrite app_nil_r|].
    intros r1 r2 Hr Hne.
    destruct (startsWithCI fenceJson (r2 ++ [])) eqn:E; [|reflexivity].
    apply fenceJson_fence in E. now rewrite (Hkeep r1 r2 Hr Hne) in E. }
  assert (H3 : removeAll (startsWith fence) 3 r = r).
  { unfold removeAll. rewrite <- (app_nil_r r) at 1.
    rewrite scan_keep; [now rewrite app_nil_r|]. exact Hkeep. }
  rewrite (sanitize_stripped r), H7, H3.
  destruct Hends as [->|[Hh Hl]]; [reflexivity|].
  destruct r as [|c t] eqn:Er; [reflexivity|]. cbn [hd] in Hh.
  rewrite dropWhile_head by exact Hh.
  destruct (nonempty_last (c :: t)) as (body & cl & Hs & Hlast);
    [discriminate|].
  rewrite Hlast in Hl. rewrite Hs. now apply dropWhileEnd_last.
Qed.

(** ** More on the repair loop *)

Lemma sanitize_parses pre json post v :
  wrapping pre -> wrapping post ->
  JSON_parse json = Some v ->
  includes fence json = false ->
  JSON_parse (sanitizePotentialFormatting (pre ++ json ++ post)) = Some v.
Proof.
  intros Hpre Hpost Hparse Hinc.
  destruct (padding json v Hparse)
    as (ws1 & core & ws2 & -> & Hws1 & Hws2 & Hcore & Hpc).
  replace (pre ++ (ws1 ++ core ++ ws2) ++ post)
    with ((pre ++ ws1) ++ core ++ (ws2 ++ post))
    by (now rewrite <- !app_assoc).
  rewrite (sanitize_wrapped _ _ _ v); [exact Hpc| | |exact Hpc|exact Hcore|].
  - apply wrapping_app; [exact Hpre|now apply wrapping_ws].
  - apply wrapping_app; [now apply wrapping_ws|exact Hpost].
  - apply includes_tail in Hinc. now apply includes_front in Hinc.
Qed.

Section RepairRequests.
Variable env : Env.
Variable originalMessages : list Message.
Variable maxRetries : Z.

Local Notation "'loop'" := (retryLoop env).

Lemma retryLoop_requests fuel :
  forall attempt raw (s : St (World env)),
  exists new,
    calls (trace (snd (loop fuel originalMessages maxRetries attempt raw s)))
    = calls (trace s) ++ new
    /\ Forall (fun req =>
                 exists text,
                   JSON_parse text = None
                   /\ req = repairRequest env originalMessages
                              (SyntaxError text) text) new.
Proof.
  induction fuel as [|fuel IH]; intros attempt raw s.
  - exists []. split; [now rewrite app_nil_r|constructor].
  - rewrite retryLoop_turn.
    destruct (attempt <=? maxRetries)%Z;
      [|exists []; split; [now rewrite app_nil_r|constructor]].
    destruct (JSON_parse raw) eqn:Hparse;
      [exists []; split; [now rewrite app_nil_r|constructor]|].
    destruct (attempt + 1 >? maxRetries)%Z.
    { exists []. split; [|constructor]. unfold logged. cbn [snd trace].
      rewrite calls_app. cbn. now rewrite !app_nil_r. }
    cbv zeta.
    destruct (create env _ (world s)) as [[reply|code msg] w'].
    + destruct (IH (attempt + 1)%Z
                  (sanitizePotentialFormatting (orEmpty reply))
                  {| world := w';
                     trace := (trace s
                               ++ [attemptWarning (attempt + 1);
                                   ModelCall
                                     (repairRequest env originalMessages
                                        (SyntaxError raw) raw)])
                              ++ [repairLog (attempt + 1)
                                    (sanitizePotentialFormatting
                                       (orEmpty reply))] |})
        as (new & Hnew & Hall).
      exists (repairRequest env originalMessages (SyntaxError raw) raw :: new).
      split.
      * rewrite Hnew. cbn [trace]. rewrite !calls_app. cbn.
        rewrite app_nil_r. now rewrite <- app_assoc.
      * constructor; [eauto|exact Hall].
    + exists [repairRequest env originalMessages (SyntaxError raw) raw].
      split.
      * cbn [snd trace]. rewrite !calls_app. reflexivity.
      * constructor; [eauto|constructor].
Qed.

End RepairRequests.

(** X4. Every request the recovery engine sends goes to [gpt-4] and holds
    the caller's messages, unchanged and in order, followed by exactly one
    system message: the repair prompt quoting a text that failed to parse
    and its error. *)
Theorem repair_requests_keep_context (env : Env)
  (originalMessages : list Message) (content : jsstring) (maxRetries : Z)
  (w : World env) (req : Request) :
  In req (calls (events (run (parseJsonWithRetry env originalMessages content
                                maxRetries) w))) ->
  model req = js "gpt-4"
  /\ exists text,
       JSON_parse text = None
       /\ messages req
          = originalMessages
            ++ [ {| role := System;
                    content :=
                      repairPrompt (String_ env (SyntaxError text)) text |} ].
Proof.
  unfold events, run, parseJsonWithRetry. intros Hin.
  destruct (retryLoop_requests env originalMessages maxRetries
              (S (Z.to_nat (maxRetries + 1))) 0%Z
              (sanitizePotentialFormatting content)
              {| world := w; trace := [] |}) as (new & Hnew & Hall).
  rewrite Hnew in Hin. cbn [trace calls flat_map app] in Hin.
  rewrite Forall_forall in Hall.
  destruct (Hall req Hin) as (text & Hparse & ->).
  split; [reflexivity|]. exists text. split; [exact Hparse|reflexivity].
Qed.

(** X5. A failure of the repair call is not caught: when the input is
    malformed, the budget is at least one and the first repair call is
    rejected, the rejection itself is what is thrown, after that one call. *)
Theorem repair_rejection_propagates (env : Env)
  (originalMessages : list Message) (content : jsstring) (maxRetries : Z)
  (w : World env) (code msg : option jsstring) :
  (1 <= maxRetries)%Z ->
  JSON_parse (sanitizePotentialFormatting content) = None ->
  fst (create env
         (repairRequest env originalMessages
            (SyntaxError (sanitizePotentialFormatting content))
            (sanitizePotentialFormatting content)) w)
    = Rejected code msg ->
  let r := run (parseJsonWithRetry env originalMessages content maxRetries) w in
  outcome r = Throw (ApiError code msg)
  /\ List.length (calls (events r)) = 1.
Proof.
  intros Hpos Hbad Hrej r. unfold r, outcome, events, run, parseJsonWithRetry.
  rewrite retryLoop_turn.
  destruct (Z.leb_spec 0 maxRetries) as [_|]; [|lia]. rewrite Hbad.
  destruct (Z.gtb_spec (0 + 1) maxRetries) as [|_]; [lia|].
  cbv zeta. cbn [world].
  destruct (create env _ w) as [c w']. cbn [fst] in Hrej. subst c.
  split; reflexivity.
Qed.

(** X6. With a negative budget nothing is tried: whatever the content, even
    valid JSON, the call fails with [Failed to parse JSON unexpectedly.],
    without a model call and without a log entry. *)
Theorem negative_budget_fails (env : Env) (originalMessages : list Message)
  (content : jsstring) (maxRetries : Z) (w : World env) :
  (maxRetries < 0)%Z ->
  let r := run (parseJsonWithRetry env originalMessages content maxRetries) w in
  outcome r = Throw (JsError (js "Failed to parse JSON unexpectedly."))
  /\ events r = [].
Proof.
  intros Hneg r. unfold r, outcome, events, run, parseJsonWithRetry.
  rewrite retryLoop_turn.
  destruct (Z.leb_spec 0 maxRetries) as [|_]; [lia|]. split; reflexivity.
Qed.

(** X7. One repair heals: when the input is malformed, the budget is at
    least one and the model answers the first repair request with valid
    JSON (free of triple backticks, wrapped or not in fence markers,
    parentheses and white space), the parsed value of that JSON is returned
    after exactly one call. *)
Theorem first_repair_heals (env : Env) (originalMessages : list Message)
  (content : jsstring) (maxRetries : Z) (w : World env)
  (pre json post : jsstring) (v : value) :
  (1 <= maxRetries)%Z ->
  JSON_parse (sanitizePotentialFormatting content) = None ->
  fst (create env
         (repairRequest env originalMessages
            (SyntaxError (sanitizePotentialFormatting content))
            (sanitizePotentialFormatting content)) w)
    = Completed (Some (pre ++ json ++ post)) ->
  wrapping pre -> wrapping post ->
  JSON_parse json = Some v ->
  includes fence json = false ->
  let r := run (parseJsonWithRetry env originalMessages content maxRetries) w in
  outcome r = Ret v /\ List.length (calls (events r)) = 1.
Proof.
  intros Hpos Hbad Hreply Hpre Hpost Hparse Hinc r.
  unfold r, outcome, events, run, parseJsonWithRetry.
  replace (Z.to_nat (maxRetries + 1)) with (S (Z.to_nat maxRetries)) by lia.
  rewrite retryLoop_turn.
  destruct (Z.leb_spec 0 maxRetries) as [_|]; [|lia]. rewrite Hbad.
  destruct (Z.gtb_spec (0 + 1) maxRetries) as [|_]; [lia|].
  cbv zeta. cbn [world].
  destruct (create env _ w) as [c w']. cbn [fst] in Hreply. subst c.
  rewrite retryLoop_turn.
  destruct (Z.leb_spec (0 + 1) maxRetries) as [_|]; [|lia].
  cbn [orEmpty]. rewrite (sanitize_parses pre json post v Hpre Hpost Hparse Hinc).
  split; reflexivity.
Qed.

(** X8. With a budget of zero the model is never called: a text that parses
    once sanitized gives its value, any other fails at once with the
    exhaustion error. *)
Theorem zero_budget_never_calls (env : Env) (originalMessages : list Message)
  (content : jsstring) (w : World env) :
  let r := run (parseJsonWithRetry env originalMessages content 0) w in
  calls (events r) = []
  /\ outcome r
     = match JSON_parse (sanitizePotentialFormatting content) with
       | Some v => Ret v
       | None =>
           Throw (JsError (js "Failed to parse JSON (max retries exceeded)"))
       end.
Proof.
  cbv zeta. unfold outcome, events, run, parseJsonWithRetry.
  rewrite retryLoop_turn. cbn [Z.leb Z.compare].
  destruct (JSON_parse (sanitizePotentialFormatting content));
    split; reflexivity.
Qed.

(** ** The plan snapshot and the shape of the answers *)

Section Snapshot.

Lemma trimTask_ok line :
  line <> VNull -> line <> VUndefined ->
  trimTask line
  = Ok (VObject
          [ (js "taskId", getPropOpt line "taskId");
            (js "lcat", getPropOpt line "lcat");
            (js "hours", getPropOpt line "hours");
            (js "mathRationale", getPropOpt line "mathRationale");
            (js "basis", getPropOpt line "basis") ]).
Proof. intros H1 H2. destruct line; try reflexivity; congruence. Qed.

Lemma trimTask_error line e : trimTask line = Err e -> exists what, e = TypeError what.
Proof.
  destruct line; cbn; intros H; inversion H; eauto.
Qed.

Lemma mapResult_ok ts :
  Forall (fun line => line <> VNull /\ line <> VUndefined) ts ->
  mapResult trimTask ts
  = Ok (map (fun line =>
               VObject
                 [ (js "taskId", getPropOpt line "taskId");
                   (js "lcat", getPropOpt line "lcat");
                   (js "hours", getPropOpt line "hours");
                   (js "mathRationale", getPropOpt line "mathRationale");
                   (js "basis", getPropOpt line "basis") ]) ts).
Proof.
  induction 1 as [|line ts [H1 H2] Hts IH]; [reflexivity|].
  cbn [mapResult map]. rewrite (trimTask_ok line H1 H2), IH. reflexivity.
Qed.

Lemma mapResult_null ts :
  In VNull ts \/ In VUndefined ts ->
  exists what, mapResult trimTask ts = Err (TypeError what).
Proof.
  induction ts as [|line ts IH]; intros Hin; [destruct Hin as [[]|[]]|].
  cbn [mapResult].
  destruct (trimTask line) as [y|e] eqn:E.
  - destruct IH as [what Hw].
    + destruct Hin as [[->|H]|[->|H]]; try discriminate E; auto.
    + rewrite Hw. eauto.
  - destruct (trimTask_error line e E) as [what ->]. eauto.
Qed.

Lemma trimPlanData_error planData e :
  trimPlanData planData = Err e -> exists what, e = TypeError what.
Proof.
  unfold trimPlanData.
  destruct (truthy _); [|discriminate].
  destruct (getPropOpt (getPropOpt planData "finalStaffingPlan") "tasks")
    as [| | | | |ts|]; try (intros H; inversion H; eauto).
  revert H. clear. revert e.
  induction ts as [|line ts IH]; intros e; [discriminate|].
  cbn [mapResult]. destruct (trimTask line) as [y|e'] eqn:E.
  - destruct (mapResult trimTask ts) as [ys|e''] eqn:E'; [discriminate|].
    intros H. inversion H. subst e''. apply (IH e). reflexivity.
  - intros H. inversion H. subst e'. exact (trimTask_error line e E).
Qed.

End Snapshot.

Section SnapshotReach.

Lemma getPropOpt_field line k :
  getPropOpt line k
  = match field line k with Some v => v | None => VUndefined end.
Proof. destruct line; reflexivity. Qed.

Lemma tasks_of_plan planData plan tasks :
  field planData "finalStaffingPlan" = Some plan ->
  field plan "tasks" = Some tasks ->
  getPropOpt (getPropOpt planData "finalStaffingPlan") "tasks" = tasks.
Proof.
  intros Hplan Htasks. rewrite !getPropOpt_field, Hplan.
  now rewrite Htasks.
Qed.

(** What is logged and sent depends on the plan through its snapshot
    only. *)
Lemma events_by_snapshot (env : Env) userMessage planData planData' rfpText
  history (w : World env) trimmed :
  trimPlanData planData = Ok trimmed ->
  trimPlanData planData' = Ok trimmed ->
  events (run (getChatResponse env userMessage planData rfpText history) w)
  = events (run (getChatResponse env userMessage planData' rfpText history) w).
Proof.
  intros H H'. unfold events.
  rewrite (getChatResponse_run env _ _ _ _ _ _ H).
  rewrite (getChatResponse_run env _ _ _ _ _ _ H'). cbv zeta.
  destruct (fst (create env _ w)) as [[[|c content]|]|code msg];
    try reflexivity.
  destruct (includes marker (c :: content)); [|reflexivity].
  destruct (updatePartOf (c :: content)) as [updatePart|e]; [|reflexivity].
  destruct (validated _); reflexivity.
Qed.

End SnapshotReach.

(** X9. Of the plan, the model is shown the task lines only, and of each
    line five properties only.  When [planData.finalStaffingPlan.tasks] is
    an array without null entries, the snapshot that goes into the system
    message is an object holding only [finalStaffingPlan.tasks] with, for
    each line in order, exactly the properties [taskId], [lcat], [hours],
    [mathRationale] and [basis] (undefined where the line has none).
    Hence a second plan whose task lines agree with the first on these five
    properties, whatever else the two plans and their lines hold, makes
    the same request and the same log. *)
Theorem plan_snapshot (planData plan : value) (ts : list value) :
  let read line k :=
    match field line k with Some v => v | None => VUndefined end in
  let agree line line' :=
    field line "taskId" = field line' "taskId"
    /\ field line "lcat" = field line' "lcat"
    /\ field line "hours" = field line' "hours"
    /\ field line "mathRationale" = field line' "mathRationale"
    /\ field line "basis" = field line' "basis" in
  field planData "finalStaffingPlan" = Some plan ->
  field plan "tasks" = Some (VArray ts) ->
  Forall (fun line => line <> VNull /\ line <> VUndefined) ts ->
  trimPlanData planData
  = Ok (VObject
          [(js "finalStaffingPlan",
            VObject
              [(js "tasks",
                VArray
                  (map (fun line =>
                          VObject
                            [ (js "taskId", read line "taskId"%string);
                              (js "lcat", read line "lcat"%string);
                              (js "hours", read line "hours"%string);
                              (js "mathRationale",
                               read line "mathRationale"%string);
                              (js "basis", read line "basis"%string) ])
                     ts))])])
  /\ forall (env : Env) userMessage rfpText history (w : World env)
            planData' plan' ts',
       field planData' "finalStaffingPlan" = Some plan' ->
       field plan' "tasks" = Some (VArray ts') ->
       Forall (fun line => line <> VNull /\ line <> VUndefined) ts' ->
       Forall2 agree ts ts' ->
       events (run (getChatResponse env userMessage planData rfpText history)
                 w)
       = events (run (getChatResponse env userMessage planData' rfpText
                        history) w).
Proof.
  cbv zeta. intros Hplan Htasks Hall.
  assert (Hsnap : forall p pl lines,
             field p "finalStaffingPlan" = Some pl ->
             field pl "tasks" = Some (VArray lines) ->
             Forall (fun line => line <> VNull /\ line <> VUndefined) lines ->
             trimPlanData p
             = Ok (VObject
                     [(js "finalStaffingPlan",
                       VObject
                         [(js "tasks",
                           VArray
                             (map (fun line =>
                                     VObject
                                       [ (js "taskId",
                                          getPropOpt line "taskId");
                                         (js "lcat", getPropOpt line "lcat");
                                         (js "hours",
                                          getPropOpt line "hours");
                                         (js "mathRationale",
                                          getPropOpt line "mathRationale");
                                         (js "basis",
                                          getPropOpt line "basis") ])
                                lines))])])).
  { intros p pl lines Hp Ht Hl. unfold trimPlanData.
    rewrite (tasks_of_plan p pl _ Hp Ht). cbn [truthy].
    now rewrite (mapResult_ok lines Hl). }
  split.
  - rewrite (Hsnap _ _ _ Hplan Htasks Hall).
    match goal with
    | |- context [VArray (map ?F ts)] =>
        match goal with
        | |- _ = ?rhs =>
            match rhs with
            | context [VArray (map ?G ts)] => rewrite (map_ext F G)
            end
        end
    end; [reflexivity|].
    intros line. now rewrite !getPropOpt_field.
  - intros env userMessage rfpText history w planData' plan' ts'
      Hplan' Htasks' Hall' Hagree.
    apply (events_by_snapshot env _ _ _ _ _ _ _
             (Hsnap _ _ _ Hplan Htasks Hall)).
    rewrite (Hsnap _ _ _ Hplan' Htasks' Hall').
    match goal with
    | |- context [VArray (map ?F ts')] =>
        assert (E : map F ts' = map F ts); [|now rewrite E]
    end.
    clear -Hagree. induction Hagree as [|line line' ts ts' Hl _ IH];
      [reflexivity|].
    cbn [map]. rewrite IH. rewrite !getPropOpt_field.
    destruct Hl as (-> & -> & -> & -> & ->). reflexivity.
Qed.

(** X10. The snapshot is taken outside the [try]: when
    [planData.finalStaffingPlan.tasks] is truthy and is not an array, or is
    an array with a null entry, [getChatResponse] throws a [TypeError]
    before anything is sent to the model or logged. *)
Theorem bad_plan_throws_before_call (env : Env) (userMessage : option jsstring)
  (planData : value) (rfpText : option jsstring) (history : list HistoryEntry)
  (w : World env) :
  let tasks := getPropOpt (getPropOpt planData "finalStaffingPlan") "tasks" in
  truthy tasks = true ->
  (isArray tasks = false
   \/ exists ts, tasks = VArray ts /\ (In VNull ts \/ In VUndefined ts)) ->
  let r := run (getChatResponse env userMessage planData rfpText history) w in
  (exists what, outcome r = Throw (TypeError what)) /\ events r = [].
Proof.
  cbv zeta. intros Htruthy Hbad.
  assert (Herr : exists what, trimPlanData planData = Err (TypeError what)).
  { unfold trimPlanData. rewrite Htruthy.
    destruct Hbad as [Hna|(ts & Hts & Hnull)].
    - destruct (getPropOpt (getPropOpt planData "finalStaffingPlan") "tasks");
        try discriminate Hna; eauto.
    - rewrite Hts. destruct (mapResult_null ts Hnull) as [what Hw].
      rewrite Hw. eauto. }
  destruct Herr as [what Herr].
  unfold outcome, events.
  rewrite (getChatResponse_early env _ _ _ _ _ _ Herr). cbn. eauto.
Qed.

Section Answers.
Variable env : Env.
Variables (userMessage : option jsstring) (planData : value)
          (rfpText : option jsstring) (history : list HistoryEntry).
Variable w : World env.

Local Notation "'result'" :=
  (run (getChatResponse env userMessage planData rfpText history) w).

(** X11. Every answer [getChatResponse] returns has a message that is not
    empty, and never carries both an updated plan and an error marker. *)
Theorem answer_is_well_formed answer :
  outcome result = Ret answer ->
  message answer <> []
  /\ (updatedPlan answer = None \/ error answer = None).
Proof.
  unfold outcome. intros Hout.
  destruct (trimPlanData planData) as [trimmed|e] eqn:Htrim.
  2:{ rewrite (getChatResponse_early env _ _ _ _ _ _ Htrim) in Hout.
      discriminate. }
  rewrite (getChatResponse_run env _ _ _ _ _ _ Htrim) in Hout.
  cbv zeta in Hout.
  assert (Hplain : forall text, text <> [] ->
            Ret (plainAnswer text) = Ret answer ->
            message answer <> [] /\ (updatedPlan answer = None \/ error answer = None)).
  { intros text Ht H. inversion H. subst answer. cbn. auto. }
  assert (Hsoft : Ret softFailure = Ret answer ->
            message answer <> [] /\ (updatedPlan answer = None \/ error answer = None)).
  { intros H. inversion H. subst answer. cbn. split; [discriminate|auto]. }
  destruct (fst (create env _ w)) as [[reply|]|code msg].
  - destruct reply as [|c reply]; [apply (Hplain noResponse); [discriminate|exact Hout]|].
    destruct (includes marker (c :: reply));
      [|apply (Hplain (c :: reply)); [discriminate|exact Hout]].
    destruct (updatePartOf (c :: reply)) as [updatePart|e];
      [|apply Hsoft; exact Hout].
    destruct (validated (fst (extract updatePart))) as [tasks|e];
      [|apply Hsoft; exact Hout].
    cbn [fst] in Hout.
    assert (Ha : answer = revision planData tasks (snd (extract updatePart)))
      by congruence.
    rewrite Ha. unfold revision. cbn [message updatedPlan error].
    split; [|auto].
    destruct (snd (extract updatePart)); discriminate.
  - apply (Hplain noResponse); [discriminate|exact Hout].
  - cbn [fst] in Hout. destruct code as [c|]; [|discriminate].
    destruct (Str.eqb c _); [|discriminate].
    inversion Hout. subst answer. cbn. split; [discriminate|auto].
Qed.

(** X12. [getChatResponse] calls the model at most once, and throws in two
    ways only: a [TypeError] from reading the plan, before any call, or
    [Failed to get AI response: ...] after the one call was rejected.  An
    update that fails to parse or validate is never thrown. *)
Theorem throws_only_two_ways :
  List.length (calls (events result)) <= 1
  /\ forall e,
       outcome result = Throw e ->
       (exists what, e = TypeError what /\ events result = [])
       \/ (exists code msg,
             e = JsError (js "Failed to get AI response: " ++ orUndefined msg)
             /\ code <> Some (js "context_length_exceeded")
             /\ exists trimmed,
                  trimPlanData planData = Ok trimmed
                  /\ fst (create env
                            (requestOf env userMessage trimmed rfpText history)
                            w) = Rejected code msg).
Proof.
  destruct (trimPlanData planData) as [trimmed|e0] eqn:Htrim.
  - split.
    + rewrite (calls_result env _ _ _ _ _ _ Htrim). cbn. lia.
    + unfold outcome. intros e Hout.
      rewrite (getChatResponse_run env _ _ _ _ _ _ Htrim) in Hout.
      cbv zeta in Hout.
      destruct (fst (create env _ w)) as [[reply|]|code msg] eqn:Hc.
      * destruct reply as [|c reply]; [discriminate|].
        destruct (includes marker (c :: reply)); [|discriminate].
        destruct (updatePartOf (c :: reply)); [|discriminate].
        destruct (validated _); discriminate.
      * discriminate.
      * right. exists code, msg.
        assert (Hmsg : errorMessage env (ApiError code msg) = orUndefined msg)
          by (destruct msg; reflexivity).
        rewrite Hmsg in Hout.
        destruct code as [c|].
        -- destruct (Str.eqb c (js "context_length_exceeded")) eqn:E;
             [discriminate|].
           cbn [fst] in Hout. inversion Hout. split; [reflexivity|].
           split; [|eauto]. intros H. inversion H. subst c.
           apply str_eqb_neq in E. congruence.
        -- cbn [fst] in Hout. inversion Hout. split; [reflexivity|].
           split; [discriminate|eauto].
  - unfold outcome, events.
    rewrite (getChatResponse_early env _ _ _ _ _ _ Htrim). cbn. split; [lia|].
    intros e He. inversion He. subst e0. left.
    destruct (trimPlanData_error planData e Htrim) as [what ->]. eauto.
Qed.

End Answers.

(** ** The context budget *)

Section Budget.
Variable env : Env.
Variables (userMessage : option jsstring) (planData : value)
          (rfpText : option jsstring).
Variable w : World env.

Lemma lastFive_length history : List.length (lastFive history) <= 5.
Proof. unfold lastFive. rewrite length_skipn. lia. Qed.

Lemma lastFive_window old recent :
  5 <= List.length recent -> lastFive (old ++ recent) = lastFive recent.
Proof.
  intros H. unfold lastFive. rewrite length_app.
  replace (List.length old + List.length recent - 5)
    with ((List.length recent - 5) + List.length old) by lia.
  rewrite <- skipn_skipn.
  rewrite skipn_app, skipn_all, Nat.sub_diag. reflexivity.
Qed.

Lemma filter_length_le {A} (f : A -> bool) l :
  List.length (filter f l) <= List.length l.
Proof.
  induction l as [|x l IH]; [reflexivity|]. cbn [filter].
  destruct (f x); cbn [List.length]; lia.
Qed.

(** X13. A request of [getChatResponse] holds the system message first and
    then at most six more messages (five of the history, one of the user):
    between one and seven in all. *)
Theorem request_is_bounded history req :
  In req (calls (events (run (getChatResponse env userMessage planData
                                rfpText history) w))) ->
  exists system rest,
    messages req = system :: rest
    /\ role system = System
    /\ List.length rest <= 6.
Proof.
  intros Hin.
  destruct (trimPlanData planData) as [trimmed|e] eqn:Htrim.
  - rewrite (calls_result env _ _ _ _ _ _ Htrim) in Hin.
    destruct Hin as [<-|[]]. unfold requestOf.
    rewrite buildMessages_shape. cbn [messages chatRequest].
    eexists _, _. split; [reflexivity|]. split; [reflexivity|].
    rewrite length_app.
    pose proof (filter_length_le nonBlank (map normalize (lastFive history))).
    pose proof (filter_length_le nonBlank
                  [ {| role := User; content := orEmpty userMessage |} ]).
    rewrite length_map in H. pose proof (lastFive_length history).
    cbn [List.length] in H0. lia.
  - unfold events in Hin.
    rewrite (getChatResponse_early env _ _ _ _ _ _ Htrim) in Hin.
    destruct Hin.
Qed.

(** X14. The history is a sliding window: entries older than the last five
    change nothing, neither the request nor the result. *)
Theorem older_history_is_ignored old recent :
  5 <= List.length recent ->
  run (getChatResponse env userMessage planData rfpText (old ++ recent)) w
  = run (getChatResponse env userMessage planData rfpText recent) w.
Proof.
  intros H. unfold run, getChatResponse, bind at 1 3, lift.
  destruct (trimPlanData planData) as [trimmed|e]; [|reflexivity].
  cbn [ret]. unfold buildMessages. now rewrite (lastFive_window old recent H).
Qed.

(** X15. Of the RFP text only the first 1000 code units reach the model:
    two texts that agree on them give the same request and the same
    result. *)
Theorem rfp_excerpt_is_bounded history (excerpt rest rest' : jsstring) :
  List.length excerpt = 1000 ->
  run (getChatResponse env userMessage planData (Some (excerpt ++ rest))
         history) w
  = run (getChatResponse env userMessage planData (Some (excerpt ++ rest'))
           history) w.
Proof.
  intros Hlen.
  assert (Hsys : forall trimmed,
            systemMessage env (Some (excerpt ++ rest)) trimmed
            = systemMessage env (Some (excerpt ++ rest')) trimmed).
  { intros trimmed. unfold systemMessage, substringTo.
    destruct excerpt as [|c excerpt']; [discriminate Hlen|].
    cbn [app].
    change (c :: excerpt' ++ rest) with ((c :: excerpt') ++ rest).
    change (c :: excerpt' ++ rest') with ((c :: excerpt') ++ rest').
    rewrite !firstn_app, Hlen, Nat.sub_diag, !firstn_O. reflexivity. }
  unfold run, getChatResponse, bind at 1 3, lift.
  destruct (trimPlanData planData) as [trimmed|e]; [|reflexivity].
  cbn [ret]. now rewrite Hsys.
Qed.

End Budget.

(** ** The marker *)

Section Marker.

Lemma split_go_skip sep x :
  forall cur r, split_go sep (List.length x) cur (x ++ r) = split_go sep 0 cur r.
Proof.
  induction x as [|c x IH]; intros cur r; [reflexivity|].
  cbn [List.length app split_go]. apply IH.
Qed.

Lemma split_go_none sep s :
  forall cur, includes sep s = false -> split_go sep 0 cur s = [rev cur ++ s].
Proof.
  induction s as [|c s IH]; intros cur H.
  - cbn. now rewrite app_nil_r.
  - cbn [includes] in H. apply orb_false_iff in H as [H1 H2].
    cbn [split_go]. rewrite H1, (IH (c :: cur) H2). cbn [rev].
    now rewrite <- app_assoc.
Qed.

(** Where no occurrence begins before it, an occurrence of the separator
    ends the first piece. *)
Lemma split_go_first sep before rest :
  sep <> [] ->
  (forall a1 a2, before = a1 ++ a2 -> a2 <> [] ->
                 startsWith sep (a2 ++ sep ++ rest) = false) ->
  forall cur,
    split_go sep 0 cur (before ++ sep ++ rest)
    = (rev cur ++ before) :: split_go sep 0 [] rest.
Proof.
  intros Hsep. induction before as [|c before IH]; intros H cur.
  - cbn [app]. destruct sep as [|x sep]; [congruence|].
    cbn [app split_go].
    assert (Hs : startsWith (x :: sep) (x :: sep ++ rest) = true).
    { change (x :: sep ++ rest) with ((x :: sep) ++ rest).
      apply startsWith_app. clear. induction (x :: sep) as [|a l IHl];
        [reflexivity|]. cbn. now rewrite N.eqb_refl. }
    rewrite Hs. rewrite app_nil_r. f_equal.
    replace (List.length (x :: sep) - 1) with (List.length sep)
      by (cbn [List.length]; lia).
    apply split_go_skip.
  - assert (H0 : startsWith sep ((c :: before) ++ sep ++ rest) = false)
      by (apply (H [] (c :: before)); [reflexivity|discriminate]).
    cbn [app] in H0. cbn [app split_go]. rewrite H0.
    rewrite IH.
    + cbn [rev]. now rewrite <- app_assoc.
    + intros a1 a2 -> Hne. apply (H (c :: a1) a2); [reflexivity|exact Hne].
Qed.

Lemma startsWith_cut p :
  forall x y,
    startsWith p (x ++ y) = true -> List.length x <= List.length p ->
    startsWith (skipn (List.length x) p) y = true.
Proof.
  induction p as [|a p IH]; intros x y H Hlen.
  - destruct x; [reflexivity|cbn in Hlen; lia].
  - destruct x as [|b x]; [exact H|].
    cbn [app startsWith] in H. apply andb_true_iff in H as [_ H].
    cbn [List.length skipn]. apply IH; [exact H|cbn in Hlen; lia].
Qed.

Lemma startsWith_long p :
  forall x y,
    startsWith p (x ++ y) = true -> List.length p <= List.length x ->
    startsWith p x = true.
Proof.
  induction p as [|a p IH]; intros x y H Hlen; [reflexivity|].
  destruct x as [|b x]; [cbn in Hlen; lia|].
  cbn [app startsWith] in H |- *. apply andb_true_iff in H as [H1 H2].
  rewrite H1. apply (IH x y H2). cbn in Hlen. lia.
Qed.

(** The marker does not overlap itself: no occurrence begins inside a text
    that holds none, whatever follows. *)
Lemma marker_no_overlap before rest :
  includes marker before = false ->
  forall a1 a2, before = a1 ++ a2 -> a2 <> [] ->
                startsWith marker (a2 ++ marker ++ rest) = false.
Proof.
  intros Hinc a1 a2 -> Hne.
  destruct (startsWith marker (a2 ++ marker ++ rest)) eqn:E;
    [exfalso|reflexivity].
  destruct (Nat.le_gt_cases (List.length marker) (List.length a2)) as [Hl|Hs].
  - apply startsWith_long in E; [|exact Hl].
    now rewrite (includes_app_r marker a1 a2 E) in Hinc.
  - apply startsWith_cut in E; [|lia].
    assert (Hk : 1 <= List.length a2 <= 11).
    { destruct a2; [congruence|]. change (List.length marker) with 12 in Hs.
      cbn [List.length] in *. lia. }
    destruct (List.length a2) as [|[|[|[|[|[|[|[|[|[|[|[|k]]]]]]]]]]]];
      try lia; discriminate E.
Qed.

End Marker.

(** X16. Only the text between the first and the second marker is read.
    When the marker occurs neither in [before] nor in [middle], the update
    part of [before ++ marker ++ middle] is [middle], trimmed, and it stays
    so when a second marker and anything else follow: the text before the
    first marker and the text from a second marker on are discarded. *)
Theorem update_part_between_markers (before middle : jsstring) :
  includes marker before = false ->
  includes marker middle = false ->
  updatePartOf (before ++ marker ++ middle) = Ok (trim middle)
  /\ forall tail,
       updatePartOf (before ++ marker ++ middle ++ marker ++ tail)
       = Ok (trim middle).
Proof.
  intros Hb Hm. unfold updatePartOf, split. split.
  - rewrite split_go_first; [|discriminate|now apply marker_no_overlap].
    rewrite (split_go_none marker middle [] Hm). reflexivity.
  - intros tail.
    rewrite split_go_first; [|discriminate|now apply marker_no_overlap].
    rewrite split_go_first; [|discriminate|now apply marker_no_overlap].
    reflexivity.
Qed.

(** X17. The validation stops at the first line it refuses and names its
    index: after accepted lines, a line that is an object (or any value
    other than null) and is not accepted makes the error
    [Invalid task format at index i], [i] being the number of lines before
    it. *)
Theorem validation_names_first_bad_line (good : list value) (bad : value)
  (rest : list value) :
  Forall (fun line => accepts line = true) good ->
  accepts bad = false ->
  bad <> VNull -> bad <> VUndefined ->
  checkTasks (good ++ bad :: rest) 0
  = Err (JsError (js "Invalid task format at index "
                  ++ numeral (List.length good))).
Proof.
  intros Hgood Hbad Hn Hu.
  assert (Hgen : forall i,
            checkTasks (good ++ bad :: rest) i
            = Err (JsError (js "Invalid task format at index "
                            ++ numeral (i + List.length good)))).
  { induction Hgood as [|line good Hline Hgood IH]; intros i.
    - cbn [app List.length]. rewrite Nat.add_0_r. cbn [checkTasks].
      unfold accepts in Hbad.
      destruct bad; try congruence; cbn [getProp] in Hbad |- *;
        try reflexivity.
      destruct (truthy _ && _ && _) eqn:E; [discriminate|].
      apply andb_false_iff in E as [E|E].
      + apply andb_false_iff in E as [E|E]; rewrite E; cbn;
          rewrite ?orb_true_r; reflexivity.
      + rewrite E. cbn. rewrite ?orb_true_r. reflexivity.
    - cbn [app List.length].
      destruct (checkTasks_cons line (good ++ bad :: rest) i)
        as [[_ Hc]|[Ha _]]; [|congruence].
      rewrite Hc, IH.
      replace (i + 1 + List.length good) with (i + S (List.length good))
        by lia.
      reflexivity. }
  apply (Hgen 0).
Qed.


(** ** A logic of runs *)

Section Steps.
Variable env : Env.

Lemma steps_run {A} (m : M env A) (P : Outcome A -> list event -> Prop)
  (w : World env) :
  steps m P -> P (outcome (run m w)) (events (run m w)).
Proof.
  intros H.
  destruct (H {| world := w; trace := [] |}) as (o & evs & w' & Hrun & HP).
  unfold outcome, events, run. rewrite Hrun. exact HP.
Qed.

Lemma steps_ret {A} (a : A) (P : Outcome A -> list event -> Prop) :
  P (Ret a) [] -> steps (@ret env A a) P.
Proof.
  intros H s. exists (Ret a), [], (world s). split; [|exact H].
  rewrite app_nil_r. destruct s. reflexivity.
Qed.

Lemma steps_emit {A} (ev : event) (k : M env A)
  (P : Outcome A -> list event -> Prop) :
  steps k (fun o evs => P o (ev :: evs)) ->
  steps (bind (emit ev) (fun _ => k)) P.
Proof.
  intros H s. unfold bind, emit. cbv beta iota.
  destruct (H {| world := world s; trace := trace s ++ [ev] |})
    as (o & evs & w' & Hrun & HP).
  exists o, (ev :: evs), w'. rewrite Hrun. split; [|exact HP].
  cbn [trace]. now rewrite <- app_assoc.
Qed.

Lemma steps_call {A} (r : Request) (k : option jsstring -> M env A)
  (P : Outcome A -> list event -> Prop) :
  (forall content,
     steps (k content) (fun o evs => P o (ModelCall r :: evs))) ->
  (forall code msg, P (Throw (ApiError code msg)) [ModelCall r]) ->
  steps (bind (call r) k) P.
Proof.
  intros Hk Hrej s. unfold bind, call.
  destruct (create env r (world s)) as [[content|code msg] w1].
  - destruct (Hk content {| world := w1; trace := trace s ++ [ModelCall r] |})
      as (o & evs & w' & Hrun & HP).
    exists o, (ModelCall r :: evs), w'. rewrite Hrun. split; [|exact HP].
    cbn [trace]. now rewrite <- app_assoc.
  - exists (Throw (ApiError code msg)), [ModelCall r], w1.
    split; [reflexivity|apply Hrej].
Qed.

Lemma retryLoop_frame (originalMessages : list Message) (maxRetries : Z)
  fuel :
  forall attempt raw (s : St (World env)),
    Z.to_nat (maxRetries + 1 - attempt) < fuel ->
    (attempt <= maxRetries)%Z ->
    exists o evs w',
      retryLoop env fuel originalMessages maxRetries attempt raw s
      = (o, {| world := w'; trace := trace s ++ evs |})
      /\ List.length (calls evs) <= Z.to_nat (maxRetries - attempt)
      /\ Forall (repairs env originalMessages) (calls evs)
      /\ match o with
         | Ret v => parsed v
         | Throw e =>
             e = JsError maxRetriesExceeded
             \/ exists code msg, e = ApiError code msg
         | OutOfFuel => False
         end.
Proof.
  induction fuel as [|fuel IH]; intros attempt raw s Hfuel Hle; [lia|].
  rewrite retryLoop_turn.
  destruct (Z.leb_spec attempt maxRetries) as [_|Hgt]; [|lia].
  destruct (JSON_parse raw) as [v|] eqn:Hparse.
  { exists (Ret v), [], (world s). rewrite app_nil_r.
    split; [destruct s; reflexivity|]. split; [cbn; lia|].
    split; [constructor|]. now exists raw. }
  destruct (Z.gtb_spec (attempt + 1) maxRetries) as [Hlast|Hmore].
  { exists (Throw (JsError maxRetriesExceeded)), (exhaustedLog raw), (world s).
    split; [reflexivity|]. split; [cbn; lia|]. split; [constructor|].
    now left. }
  cbv zeta.
  set (req := repairRequest env originalMessages (SyntaxError raw) raw).
  assert (Hreq : repairs env originalMessages req) by (now exists raw).
  destruct (create env req (world s)) as [[reply|code msg] w1].
  - set (raw' := sanitizePotentialFormatting (orEmpty reply)).
    destruct (IH (attempt + 1)%Z raw'
                {| world := w1;
                   trace := (trace s
                             ++ [attemptWarning (attempt + 1); ModelCall req])
                            ++ [repairLog (attempt + 1) raw'] |})
      as (o & evs & w' & Hrun & Hn & Hall & Ho); [lia|lia|].
    exists o,
      ([attemptWarning (attempt + 1); ModelCall req;
        repairLog (attempt + 1) raw'] ++ evs), w'.
    rewrite Hrun. cbn [trace]. split.
    { f_equal. f_equal. rewrite <- !app_assoc. reflexivity. }
    rewrite calls_app. split; [|split; [|exact Ho]].
    + rewrite length_app.
      change (calls [attemptWarning (attempt + 1); ModelCall req;
                     repairLog (attempt + 1) raw']) with [req].
      cbn [List.length]. lia.
    + change (calls [attemptWarning (attempt + 1); ModelCall req;
                     repairLog (attempt + 1) raw']) with [req].
      constructor; [exact Hreq|exact Hall].
  - exists (Throw (ApiError code msg)),
      [attemptWarning (attempt + 1); ModelCall req], w1.
    split; [reflexivity|].
    change (calls [attemptWarning (attempt + 1); ModelCall req]) with [req].
    split; [cbn [List.length]; lia|]. split; [|right; eauto].
    constructor; [exact Hreq|constructor].
Qed.

Lemma steps_parse {A} (prompt : list Message) (content : jsstring)
  (k : value -> M env A) (P : Outcome A -> list event -> Prop) :
  (forall v evs,
     parsed v ->
     List.length (calls evs) <= 2 ->
     Forall (repairs env prompt) (calls evs) ->
     steps (k v) (fun o evs' => P o (evs ++ evs'))) ->
  (forall e evs,
     List.length (calls evs) <= 2 ->
     e = JsError maxRetriesExceeded
     \/ (exists code msg, e = ApiError code msg) ->
     P (Throw e) evs) ->
  steps (bind (parseJsonWithRetry_default env prompt content) k) P.
Proof.
  intros Hk Hthrow s. unfold bind, parseJsonWithRetry_default, parseJsonWithRetry.
  destruct (retryLoop_frame prompt 2 (S (Z.to_nat (2 + 1))) 0%Z
              (sanitizePotentialFormatting content) s)
    as (o & evs & w1 & Hrun & Hn & Hall & Ho); [cbn; lia|lia|].
  rewrite Hrun. change (Z.to_nat (2 - 0)) with 2 in Hn.
  destruct o as [v|e|]; [| |contradiction].
  - destruct (Hk v evs Ho Hn Hall {| world := w1; trace := trace s ++ evs |})
      as (o & evs' & w' & Hrun' & HP).
    exists o, (evs ++ evs'), w'. rewrite Hrun'. split; [|exact HP].
    cbn [trace]. now rewrite <- app_assoc.
  - exists (Throw e), evs, w1. split; [reflexivity|]. now apply Hthrow.
Qed.

Lemma calls_log l args evs : calls (Console l args :: evs) = calls evs.
Proof. reflexivity. Qed.

Lemma calls_call r evs : calls (ModelCall r :: evs) = r :: calls evs.
Proof. reflexivity. Qed.

End Steps.

(** ** The plan generation pipeline *)

Section PipelineRuns.
Variable env : Env.
Variable Number_toString : decimal -> jsstring.
Variable rfpText : jsstring.
Variable approach : Approach.
Variable totalFTE : option decimal.

Local Notation "'pipeline'" :=
  (generateStaffingPlan env Number_toString rfpText approach totalFTE).

Local Ltac norm_calls :=
  cbv beta; unfold logText;
  repeat (rewrite calls_log || rewrite calls_call || rewrite calls_app);
  change (calls []) with (@nil Request); rewrite ?app_nil_r.

Local Ltac thrown :=
  norm_calls;
  split; [eexists; reflexivity|];
  split; [repeat (progress cbn [List.length] || rewrite length_app); lia|];
  eauto.

Lemma generateStaffingPlan_steps :
  steps pipeline
    (fun o evs =>
       (exists rest,
          calls evs = reasoningRequest 10000 (step1Prompt rfpText) :: rest)
       /\ match o with
          | Ret v =>
              exists t1 t2 t3,
                v = planOf t1 t2 t3
                /\ parsed t1 /\ parsed t2 /\ parsed t3
                /\ threeStages env Number_toString rfpText approach totalFTE
                     t1 t2 (calls evs)
          | Throw e =>
              List.length (calls evs) <= 12
              /\ (e = JsError maxRetriesExceeded
                  \/ exists code msg, e = ApiError code msg)
          | OutOfFuel => False
          end).
Proof.
  unfold generateStaffingPlan.
  apply steps_emit.
  apply steps_call; [intros step1Raw|intros; thrown].
  apply steps_emit. cbv zeta.
  apply steps_call; [intros step1Parsed|intros; thrown].
  apply steps_emit.
  apply steps_parse; [intros t1 evs1 Hp1 Hn1 Hall1|intros e evs Hn He; thrown].
  apply steps_call; [intros step2Raw|intros; thrown].
  apply steps_emit. cbv zeta.
  apply steps_call; [intros step2Parsed|intros; thrown].
  apply steps_emit.
  apply steps_parse; [intros t2 evs2 Hp2 Hn2 Hall2|intros e evs Hn He; thrown].
  apply steps_call; [intros step3Raw|intros; thrown].
  apply steps_emit. cbv zeta.
  apply steps_call; [intros step3Parsed|intros; thrown].
  apply steps_emit.
  apply steps_parse; [intros t3 evs3 Hp3 Hn3 Hall3|intros e evs Hn He; thrown].
  apply steps_ret. norm_calls.
  split; [eexists; reflexivity|].
  exists t1, t2, t3. split; [reflexivity|]. do 3 (split; [assumption|]).
  exists (orEmpty step1Raw), (orEmpty step2Raw), (orEmpty step3Raw),
    (calls evs1), (calls evs2), (calls evs3).
  split; [reflexivity|]. unfold stageRepairs. auto.
Qed.

End PipelineRuns.

Section Answering.
Variable env : Env.

Lemma steps_call_completed {A} (Q : option jsstring -> Prop) (r : Request)
  (k : option jsstring -> M env A) (P : Outcome A -> list event -> Prop) :
  (forall w, exists reply, fst (create env r w) = Completed reply /\ Q reply) ->
  (forall content,
     Q content -> steps (k content) (fun o evs => P o (ModelCall r :: evs))) ->
  steps (bind (call r) k) P.
Proof.
  intros Hreply Hk s. unfold bind, call.
  destruct (Hreply (world s)) as (reply & Hc & HQ).
  destruct (create env r (world s)) as [c w1]. cbn [fst] in Hc. subst c.
  destruct (Hk reply HQ {| world := w1; trace := trace s ++ [ModelCall r] |})
    as (o & evs & w' & Hrun & HP).
  exists o, (ModelCall r :: evs), w'. rewrite Hrun. split; [|exact HP].
  cbn [trace]. now rewrite <- app_assoc.
Qed.

Lemma steps_parse_clean {A} (prompt : list Message) (content : jsstring)
  (v : value) (k : value -> M env A) (P : Outcome A -> list event -> Prop) :
  JSON_parse (sanitizePotentialFormatting content) = Some v ->
  steps (k v) P ->
  steps (bind (parseJsonWithRetry_default env prompt content) k) P.
Proof.
  intros Hparse Hk s.
  unfold bind, parseJsonWithRetry_default, parseJsonWithRetry.
  rewrite retryLoop_turn. cbn [Z.leb Z.compare]. rewrite Hparse.
  apply Hk.
Qed.

Lemma retryLoop_gives_up (originalMessages : list Message) (maxRetries : Z) :
  neverRepairs env ->
  forall fuel attempt raw (s : St (World env)),
    Z.to_nat (maxRetries + 1 - attempt) < fuel ->
    (attempt <= maxRetries)%Z ->
    JSON_parse raw = None ->
    exists evs w',
      retryLoop env fuel originalMessages maxRetries attempt raw s
      = (Throw (JsError maxRetriesExceeded),
         {| world := w'; trace := trace s ++ evs |})
      /\ List.length (calls evs) = Z.to_nat (maxRetries - attempt)
      /\ Forall (repairs env originalMessages) (calls evs).
Proof.
  intros Hnever. induction fuel as [|fuel IH];
    intros attempt raw s Hfuel Hle Hparse; [lia|].
  rewrite retryLoop_turn.
  destruct (Z.leb_spec attempt maxRetries) as [_|Hgt]; [|lia].
  rewrite Hparse.
  destruct (Z.gtb_spec (attempt + 1) maxRetries) as [Hlast|Hmore].
  { exists (exhaustedLog raw), (world s). split; [reflexivity|].
    split; [cbn; lia|constructor]. }
  cbv zeta.
  set (req := repairRequest env originalMessages (SyntaxError raw) raw).
  assert (Hreq : repairs env originalMessages req) by (now exists raw).
  destruct (Hnever req (world s)) as (reply & Hreply & Hbad).
  destruct (create env req (world s)) as [c w1]. cbn [fst] in Hreply. subst c.
  set (raw' := sanitizePotentialFormatting (orEmpty reply)).
  destruct (IH (attempt + 1)%Z raw'
              {| world := w1;
                 trace := (trace s
                           ++ [attemptWarning (attempt + 1); ModelCall req])
                          ++ [repairLog (attempt + 1) raw'] |})
    as (evs & w' & Hrun & Hn & Hall); [lia|lia|exact Hbad|].
  exists ([attemptWarning (attempt + 1); ModelCall req;
           repairLog (attempt + 1) raw'] ++ evs), w'.
  rewrite Hrun. cbn [trace]. split.
  { f_equal. f_equal. rewrite <- !app_assoc. reflexivity. }
  rewrite calls_app.
  change (calls [attemptWarning (attempt + 1); ModelCall req;
                 repairLog (attempt + 1) raw']) with [req].
  split; [cbn [List.length app]; lia|].
  constructor; [exact Hreq|exact Hall].
Qed.

Lemma steps_parse_gives_up {A} (prompt : list Message) (content : jsstring)
  (k : value -> M env A) (P : Outcome A -> list event -> Prop) :
  neverRepairs env ->
  JSON_parse (sanitizePotentialFormatting content) = None ->
  (forall evs,
     List.length (calls evs) = 2 ->
     Forall (repairs env prompt) (calls evs) ->
     P (Throw (JsError maxRetriesExceeded)) evs) ->
  steps (bind (parseJsonWithRetry_default env prompt content) k) P.
Proof.
  intros Hnever Hparse HP s.
  unfold bind, parseJsonWithRetry_default, parseJsonWithRetry.
  destruct (retryLoop_gives_up prompt 2 Hnever (S (Z.to_nat (2 + 1))) 0%Z
              (sanitizePotentialFormatting content) s)
    as (evs & w1 & Hrun & Hn & Hall); [cbn; lia|lia|exact Hparse|].
  rewrite Hrun. exists (Throw (JsError maxRetriesExceeded)), evs, w1.
  split; [reflexivity|]. now apply HP.
Qed.

End Answering.

(** ** Runs with the model's completions *)

Section Exchanges.
Variable env : Env.

Lemma answers_app (w : World env) a b :
  answers env w (a ++ b)
  = answers env w a ++ answers env (worldAfter env w a) b.
Proof.
  revert w. induction a as [|r a IH]; intros w; [reflexivity|].
  cbn [app answers worldAfter]. now rewrite IH.
Qed.

Lemma worldAfter_app (w : World env) a b :
  worldAfter env w (a ++ b) = worldAfter env (worldAfter env w a) b.
Proof.
  revert w. induction a as [|r a IH]; intros w; [reflexivity|].
  cbn [app worldAfter]. now rewrite IH.
Qed.

Lemma answers_length (w : World env) cs :
  List.length (answers env w cs) = List.length cs.
Proof.
  revert w. induction cs as [|r cs IH]; intros w; [reflexivity|].
  cbn [answers List.length]. now rewrite IH.
Qed.

Lemma exchanges_ret {A} (w : World env) (a : A)
  (P : Outcome A -> list event -> list Completion -> Prop) :
  P (Ret a) [] [] -> exchanges w (@ret env A a) P.
Proof.
  intros H tr. exists (Ret a), []. split; [|exact H].
  cbn [calls flat_map worldAfter]. now rewrite app_nil_r.
Qed.

Lemma exchanges_log {A} (w : World env) l args (k : M env A)
  (P : Outcome A -> list event -> list Completion -> Prop) :
  exchanges w k (fun o evs ans => P o (Console l args :: evs) ans) ->
  exchanges w (bind (emit (Console l args)) (fun _ => k)) P.
Proof.
  intros H tr. unfold bind, emit. cbv beta iota. cbn [world trace].
  destruct (H (tr ++ [Console l args])) as (o & evs & Hrun & HP).
  exists o, (Console l args :: evs). rewrite Hrun. split; [|exact HP].
  rewrite calls_log. now rewrite <- app_assoc.
Qed.

Lemma exchanges_call {A} (w : World env) (r : Request)
  (k : option jsstring -> M env A)
  (P : Outcome A -> list event -> list Completion -> Prop) :
  (forall content w1,
     exchanges w1 (k content)
       (fun o evs ans => P o (ModelCall r :: evs) (Completed content :: ans))) ->
  (forall code msg, P (Throw (ApiError code msg)) [ModelCall r]
                      [Rejected code msg]) ->
  exchanges w (bind (call r) k) P.
Proof.
  intros Hk Hrej tr. unfold bind, call. cbn [world trace].
  destruct (create env r w) as [c w1] eqn:E.
  assert (Hw : snd (create env r w) = w1) by now rewrite E.
  assert (Hc : fst (create env r w) = c) by now rewrite E.
  destruct c as [content|code msg].
  - destruct (Hk content w1 (tr ++ [ModelCall r])) as (o & evs & Hrun & HP).
    exists o, (ModelCall r :: evs). rewrite Hrun.
    rewrite calls_call. cbn [worldAfter answers]. rewrite Hw, Hc.
    split; [|exact HP]. now rewrite <- app_assoc.
  - exists (Throw (ApiError code msg)), [ModelCall r].
    cbn [calls flat_map app worldAfter answers]. rewrite Hw, Hc.
    split; [reflexivity|apply Hrej].
Qed.

Lemma exchanges_run {A} (w : World env) (m : M env A)
  (P : Outcome A -> list event -> list Completion -> Prop) :
  exchanges w m P ->
  P (outcome (run m w)) (events (run m w))
    (answers env w (calls (events (run m w)))).
Proof.
  intros H. destruct (H []) as (o & evs & Hrun & HP).
  unfold outcome, events, run. rewrite Hrun. exact HP.
Qed.

Lemma last_cons_nonempty {A} (x : A) l d :
  l <> [] -> last (x :: l) d = last l d.
Proof. destruct l; [congruence|reflexivity]. Qed.

Lemma retryLoop_exchanges (originalMessages : list Message) (maxRetries : Z)
  fuel :
  forall attempt raw (w : World env) tr,
    Z.to_nat (maxRetries + 1 - attempt) < fuel ->
    (attempt <= maxRetries)%Z ->
    exists o evs,
      retryLoop env fuel originalMessages maxRetries attempt raw
        {| world := w; trace := tr |}
      = (o, {| world := worldAfter env w (calls evs); trace := tr ++ evs |})
      /\ List.length (calls evs) <= Z.to_nat (maxRetries - attempt)
      /\ Forall (repairs env originalMessages) (calls evs)
      /\ match o with
         | Ret v =>
             (calls evs = [] /\ JSON_parse raw = Some v)
             \/ (calls evs <> []
                 /\ exists final,
                      last (answers env w (calls evs)) (Completed None)
                      = Completed final
                      /\ JSON_parse
                           (sanitizePotentialFormatting (orEmpty final))
                         = Some v)
         | Throw e =>
             e = JsError maxRetriesExceeded
             \/ exists code msg, e = ApiError code msg
         | OutOfFuel => False
         end.
Proof.
  induction fuel as [|fuel IH]; intros attempt raw w tr Hfuel Hle; [lia|].
  rewrite retryLoop_turn. cbn [world trace].
  destruct (Z.leb_spec attempt maxRetries) as [_|Hgt]; [|lia].
  destruct (JSON_parse raw) as [v|] eqn:Hparse.
  { exists (Ret v), []. cbn [calls flat_map worldAfter]. rewrite app_nil_r.
    split; [reflexivity|]. split; [cbn; lia|]. split; [constructor|].
    left. auto. }
  destruct (Z.gtb_spec (attempt + 1) maxRetries) as [Hlast|Hmore].
  { exists (Throw (JsError maxRetriesExceeded)), (exhaustedLog raw).
    split; [reflexivity|]. split; [cbn; lia|]. split; [constructor|].
    now left. }
  cbv zeta.
  set (req := repairRequest env originalMessages (SyntaxError raw) raw).
  assert (Hreq : repairs env originalMessages req) by (now exists raw).
  destruct (create env req w) as [c w1] eqn:E.
  assert (Hw : snd (create env req w) = w1) by now rewrite E.
  assert (Hc : fst (create env req w) = c) by now rewrite E.
  destruct c as [reply|code msg].
  - set (raw' := sanitizePotentialFormatting (orEmpty reply)).
    destruct (IH (attempt + 1)%Z raw' w1
                ((tr ++ [attemptWarning (attempt + 1); ModelCall req])
                 ++ [repairLog (attempt + 1) raw']))
      as (o & evs & Hrun & Hn & Hall & Ho); [lia|lia|].
    exists o,
      ([attemptWarning (attempt + 1); ModelCall req;
        repairLog (attempt + 1) raw'] ++ evs).
    rewrite Hrun. rewrite calls_app.
    change (calls [attemptWarning (attempt + 1); ModelCall req;
                   repairLog (attempt + 1) raw']) with [req].
    cbn [app worldAfter answers]. rewrite Hw, Hc.
    split; [f_equal; f_equal; now rewrite <- !app_assoc|].
    split; [cbn [List.length]; lia|].
    split; [constructor; [exact Hreq|exact Hall]|].
    destruct o as [v|e|]; [|exact Ho|exact Ho].
    right. split; [discriminate|].
    destruct Ho as [[Hnil Hv]|(Hne & final & Hfinal & Hv)].
    + exists reply. rewrite Hnil. split; [reflexivity|exact Hv].
    + exists final. split; [|exact Hv].
      rewrite last_cons_nonempty; [exact Hfinal|].
      intros Hnil. apply Hne.
      apply (f_equal (@List.length Completion)) in Hnil.
      rewrite answers_length in Hnil. now destruct (calls evs).
  - exists (Throw (ApiError code msg)),
      [attemptWarning (attempt + 1); ModelCall req].
    change (calls [attemptWarning (attempt + 1); ModelCall req]) with [req].
    cbn [worldAfter]. rewrite Hw.
    split; [reflexivity|]. split; [cbn [List.length]; lia|].
    split; [|right; eauto]. constructor; [exact Hreq|constructor].
Qed.

Lemma exchanges_parse {A} (w : World env) (prompt : list Message)
  (content : jsstring) (k : value -> M env A)
  (P : Outcome A -> list event -> list Completion -> Prop) :
  (forall v evs ans w1,
     List.length (calls evs) <= 2 ->
     Forall (repairs env prompt) (calls evs) ->
     List.length ans = List.length (calls evs) ->
     (ans = [] /\ JSON_parse (sanitizePotentialFormatting content) = Some v)
     \/ (ans <> []
         /\ exists final,
              last ans (Completed None) = Completed final
              /\ JSON_parse (sanitizePotentialFormatting (orEmpty final))
                 = Some v) ->
     exchanges w1 (k v) (fun o evs' ans' => P o (evs ++ evs') (ans ++ ans'))) ->
  (forall e evs ans, P (Throw e) evs ans) ->
  exchanges w (bind (parseJsonWithRetry_default env prompt content) k) P.
Proof.
  intros Hk Hthrow tr.
  unfold bind, parseJsonWithRetry_default, parseJsonWithRetry.
  destruct (retryLoop_exchanges prompt 2 (S (Z.to_nat (2 + 1))) 0%Z
              (sanitizePotentialFormatting content) w tr)
    as (o & evs & Hrun & Hn & Hall & Ho); [cbn; lia|lia|].
  rewrite Hrun. change (Z.to_nat (2 - 0)) with 2 in Hn.
  destruct o as [v|e|]; [| |contradiction].
  - assert (Hans : (answers env w (calls evs) = []
                    /\ JSON_parse (sanitizePotentialFormatting content)
                       = Some v)
                   \/ (answers env w (calls evs) <> []
                       /\ exists final,
                            last (answers env w (calls evs)) (Completed None)
                            = Completed final
                            /\ JSON_parse
                                 (sanitizePotentialFormatting (orEmpty final))
                               = Some v)).
    { destruct Ho as [[Hnil Hv]|(Hne & Hfinal)].
      - left. rewrite Hnil. auto.
      - right. split; [|exact Hfinal]. intros Hnil. apply Hne.
        apply (f_equal (@List.length Completion)) in Hnil.
        rewrite answers_length in Hnil. now destruct (calls evs). }
    destruct (Hk v evs (answers env w (calls evs))
                (worldAfter env w (calls evs)) Hn Hall
                (answers_length w (calls evs)) Hans (tr ++ evs))
      as (o & evs' & Hrun' & HP).
    exists o, (evs ++ evs'). rewrite Hrun'.
    rewrite calls_app, worldAfter_app, answers_app.
    split; [|exact HP]. now rewrite <- app_assoc.
  - exists (Throw e), evs. split; [reflexivity|]. apply Hthrow.
Qed.

Lemma stage_answered (free final : option jsstring) (ans : list Completion)
  (t : value) :
  (ans = []
   /\ JSON_parse (sanitizePotentialFormatting (orEmpty final)) = Some t)
  \/ (ans <> []
      /\ exists final',
           last ans (Completed None) = Completed final'
           /\ JSON_parse (sanitizePotentialFormatting (orEmpty final'))
              = Some t) ->
  stageAnswered (Completed free :: Completed final :: ans) free t.
Proof.
  intros H. split; [reflexivity|].
  destruct H as [[-> Ht]|(Hne & final' & Hlast & Ht)].
  - exists final. split; [reflexivity|exact Ht].
  - exists final'. split; [|exact Ht].
    now rewrite !last_cons_nonempty by (exact Hne || discriminate).
Qed.

End Exchanges.

Section PipelineExchanges.
Variable env : Env.
Variable Number_toString : decimal -> jsstring.
Variable rfpText : jsstring.
Variable approach : Approach.
Variable totalFTE : option decimal.

Lemma generateStaffingPlan_exchanges (w : World env) :
  exchanges w
    (generateStaffingPlan env Number_toString rfpText approach totalFTE)
    (fun o evs ans =>
       match o with
       | Ret v =>
           exists t1 t2 t3,
             v = planOf t1 t2 t3
             /\ stagesAnswered env Number_toString rfpText approach totalFTE
                  t1 t2 t3 (calls evs) ans
       | _ => True
       end).
Proof.
  unfold generateStaffingPlan, logText.
  apply exchanges_log.
  apply exchanges_call; [intros step1Raw w1|intros; exact I].
  apply exchanges_log. cbv zeta.
  apply exchanges_call; [intros step1Parsed w2|intros; exact I].
  apply exchanges_log.
  apply exchanges_parse;
    [intros t1 evs1 ans1 w3 Hn1 Hall1 Hlen1 Hans1|intros; exact I].
  apply exchanges_call; [intros step2Raw w4|intros; exact I].
  apply exchanges_log. cbv zeta.
  apply exchanges_call; [intros step2Parsed w5|intros; exact I].
  apply exchanges_log.
  apply exchanges_parse;
    [intros t2 evs2 ans2 w6 Hn2 Hall2 Hlen2 Hans2|intros; exact I].
  apply exchanges_call; [intros step3Raw w7|intros; exact I].
  apply exchanges_log. cbv zeta.
  apply exchanges_call; [intros step3Parsed w8|intros; exact I].
  apply exchanges_log.
  apply exchanges_parse;
    [intros t3 evs3 ans3 w9 Hn3 Hall3 Hlen3 Hans3|intros; exact I].
  apply exchanges_ret. cbv beta.
  exists t1, t2, t3. split; [reflexivity|].
  exists step1Raw, step2Raw, step3Raw, (calls evs1), (calls evs2), (calls evs3),
    (Completed step1Raw :: Completed step1Parsed :: ans1),
    (Completed step2Raw :: Completed step2Parsed :: ans2),
    (Completed step3Raw :: Completed step3Parsed :: ans3).
  repeat (rewrite calls_log || rewrite calls_call || rewrite calls_app).
  change (calls []) with (@nil Request). rewrite !app_nil_r.
  split; [reflexivity|]. split; [reflexivity|].
  cbn [List.length]. rewrite Hlen1, Hlen2, Hlen3.
  do 3 (split; [reflexivity|]). unfold stageRepairs.
  do 3 (split; [auto|]).
  split; [|split]; now apply stage_answered.
Qed.

End PipelineExchanges.

(** X18. Whatever the model answers, a run of the pipeline ends, begins
    with the reasoning request that carries the RFP text, and sends at most
    twelve requests: two for each of the three stages and at most two
    repairs after each. *)
Theorem pipeline_call_budget (env : Env) (Number_toString : decimal -> jsstring)
  (rfpText : jsstring) (approach : Approach) (totalFTE : option decimal)
  (w : World env) :
  let r :=
    run (generateStaffingPlan env Number_toString rfpText approach totalFTE) w
  in
  outcome r <> OutOfFuel
  /\ hd_error (calls (events r))
     = Some (reasoningRequest 10000 (step1Prompt rfpText))
  /\ List.length (calls (events r)) <= 12.
Proof.
  intros r. unfold r.
  pose proof (steps_run env _ _ w
                (generateStaffingPlan_steps env Number_toString rfpText
                   approach totalFTE)) as [(rest & Hfirst) Hout].
  cbv beta in Hout.
  split; [|split].
  - intros Hfuel. rewrite Hfuel in Hout. exact Hout.
  - rewrite Hfirst. reflexivity.
  - destruct (outcome _) as [v|e|]; [| |contradiction].
    + destruct Hout as (t1 & t2 & t3 & _ & _ & _ & _ & Hstages).
      destruct Hstages as (raw1 & raw2 & raw3 & reps1 & reps2 & reps3
                           & -> & [H1 _] & [H2 _] & [H3 _]).
      unfold stageCalls. rewrite !length_app. cbn [List.length]. lia.
    + apply Hout.
Qed.

(** X19. A plan that the pipeline returns has exactly the three fields
    [step1Tasks], [step2TasksWithLCATs] and [finalStaffingPlan], in this
    order, each a value that [JSON.parse] gave.  The run sent at least six
    requests, stage after stage, and in each stage: the parser request
    carries the free-form answer that the model gave to the reasoning
    request of the stage; every further request, at most two, is a repair
    of that parser request; and the value of the stage is the parse of the
    sanitized last completion of the stage.  The reasoning request of
    stage two quotes the very value returned as [step1Tasks], that of stage
    three the value returned as [step2TasksWithLCATs]. *)
Theorem plan_comes_from_three_stages (env : Env)
  (Number_toString : decimal -> jsstring) (rfpText : jsstring)
  (approach : Approach) (totalFTE : option decimal) (w : World env)
  (v : value) :
  let r :=
    run (generateStaffingPlan env Number_toString rfpText approach totalFTE) w
  in
  outcome r = Ret v ->
  exists t1 t2 t3,
    v = VObject [ (js "step1Tasks", t1);
                  (js "step2TasksWithLCATs", t2);
                  (js "finalStaffingPlan", t3) ]
    /\ parsed t1 /\ parsed t2 /\ parsed t3
    /\ 6 <= List.length (calls (events r))
    /\ stagesAnswered env Number_toString rfpText approach totalFTE t1 t2 t3
         (calls (events r)) (answers env w (calls (events r))).
Proof.
  intros r Hret. unfold r in *.
  pose proof (exchanges_run env w _ _
                (generateStaffingPlan_exchanges env Number_toString rfpText
                   approach totalFTE w)) as Hout.
  cbv beta in Hout. rewrite Hret in Hout.
  destruct Hout as (t1 & t2 & t3 & -> & Hstages).
  exists t1, t2, t3. split; [reflexivity|].
  assert (Hparsed : forall a free t, stageAnswered a free t -> parsed t).
  { intros a free t (_ & final & _ & Ht). eexists. exact Ht. }
  pose proof Hstages
    as (free1 & free2 & free3 & reps1 & reps2 & reps3 & a1 & a2 & a3
        & Hcs & _ & _ & _ & _ & _ & _ & _ & H1 & H2 & H3).
  split; [exact (Hparsed _ _ _ H1)|]. split; [exact (Hparsed _ _ _ H2)|].
  split; [exact (Hparsed _ _ _ H3)|].
  split; [|exact Hstages].
  rewrite Hcs. unfold stageCalls. rewrite !length_app. cbn [List.length]. lia.
Qed.

(** X20. The pipeline catches nothing and adds no error of its own: what it
    throws is the exhaustion error of the recovery engine or the rejection
    of a model call. *)
Theorem pipeline_failures (env : Env) (Number_toString : decimal -> jsstring)
  (rfpText : jsstring) (approach : Approach) (totalFTE : option decimal)
  (w : World env) (e : exn) :
  outcome (run (generateStaffingPlan env Number_toString rfpText approach
                  totalFTE) w) = Throw e ->
  e = JsError (js "Failed to parse JSON (max retries exceeded)")
  \/ exists code msg, e = ApiError code msg.
Proof.
  intros Hthrow.
  pose proof (steps_run env _ _ w
                (generateStaffingPlan_steps env Number_toString rfpText
                   approach totalFTE)) as [_ Hout].
  cbv beta in Hout. rewrite Hthrow in Hout. apply Hout.
Qed.

(** X21. A failed stage stops the pipeline: with a model none of whose
    answers parses, the run fails with the exhaustion error after exactly
    four requests, the reasoning and parser requests of stage one and two
    repairs; stages two and three are never started. *)
Theorem pipeline_gives_up_at_stage_one (env : Env)
  (Number_toString : decimal -> jsstring) (rfpText : jsstring)
  (approach : Approach) (totalFTE : option decimal) (w : World env) :
  neverRepairs env ->
  let r :=
    run (generateStaffingPlan env Number_toString rfpText approach totalFTE) w
  in
  outcome r = Throw (JsError (js "Failed to parse JSON (max retries exceeded)"))
  /\ exists raw reps,
       calls (events r)
       = stageCalls (reasoningRequest 10000 (step1Prompt rfpText))
           step1ParserSystem raw reps
       /\ List.length reps = 2
       /\ Forall (repairs env (parserPrompt step1ParserSystem raw)) reps.
Proof.
  intros Hnever r. unfold r.
  apply (steps_run env _
           (fun o evs =>
              o = Throw (JsError maxRetriesExceeded)
              /\ exists raw reps,
                   calls evs
                   = stageCalls (reasoningRequest 10000 (step1Prompt rfpText))
                       step1ParserSystem raw reps
                   /\ List.length reps = 2
                   /\ Forall (repairs env (parserPrompt step1ParserSystem raw))
                        reps)).
  unfold generateStaffingPlan.
  apply steps_emit.
  apply (steps_call_completed env (fun _ => True));
    [intros w0; destruct (Hnever (reasoningRequest 10000 (step1Prompt rfpText))
                            w0) as (reply & Hreply & _); eauto|].
  intros step1Raw _.
  apply steps_emit. cbv zeta.
  apply (steps_call_completed env
           (fun reply =>
              JSON_parse (sanitizePotentialFormatting (orEmpty reply)) = None));
    [intros w0; apply Hnever|].
  intros step1Parsed Hbad.
  apply steps_emit.
  apply steps_parse_gives_up; [exact Hnever|exact Hbad|].
  intros evs Hn Hall. cbv beta. split; [reflexivity|].
  exists (orEmpty step1Raw), (calls evs).
  unfold logText. rewrite !calls_log, !calls_call, !calls_log.
  split; [reflexivity|]. split; assumption.
Qed.

(** X22. The cost of a clean run: with a model all of whose answers parse
    once sanitized, the pipeline returns a plan after exactly six requests,
    none of them a repair. *)
Theorem clean_run_takes_six_calls (env : Env)
  (Number_toString : decimal -> jsstring) (rfpText : jsstring)
  (approach : Approach) (totalFTE : option decimal) (w : World env) :
  (forall req w0,
     exists reply v,
       fst (create env req w0) = Completed reply
       /\ JSON_parse (sanitizePotentialFormatting (orEmpty reply)) = Some v) ->
  let r :=
    run (generateStaffingPlan env Number_toString rfpText approach totalFTE) w
  in
  exists t1 t2 t3 raw1 raw2 raw3,
    outcome r = Ret (planOf t1 t2 t3)
    /\ calls (events r)
       = [ reasoningRequest 10000 (step1Prompt rfpText);
           parserRequest (parserPrompt step1ParserSystem raw1);
           step2Request env t1;
           parserRequest (parserPrompt step2ParserSystem raw2);
           step3Request env Number_toString t2 approach totalFTE;
           parserRequest (parserPrompt step3ParserSystem raw3) ].
Proof.
  intros Hclean r. unfold r.
  apply (steps_run env _
           (fun o evs =>
              exists t1 t2 t3 raw1 raw2 raw3,
                o = Ret (planOf t1 t2 t3)
                /\ calls evs
                   = [ reasoningRequest 10000 (step1Prompt rfpText);
                       parserRequest (parserPrompt step1ParserSystem raw1);
                       step2Request env t1;
                       parserRequest (parserPrompt step2ParserSystem raw2);
                       step3Request env Number_toString t2 approach totalFTE;
                       parserRequest (parserPrompt step3ParserSystem raw3) ])).
  assert (Hany : forall req w0,
             exists reply, fst (create env req w0) = Completed reply /\ True).
  { intros req w0. destruct (Hclean req w0) as (reply & _ & Hc & _). eauto. }
  assert (Hjson : forall req w0,
             exists reply,
               fst (create env req w0) = Completed reply
               /\ exists v,
                    JSON_parse (sanitizePotentialFormatting (orEmpty reply))
                    = Some v).
  { intros req w0. destruct (Hclean req w0) as (reply & v & Hc & Hv). eauto. }
  unfold generateStaffingPlan.
  apply steps_emit.
  apply (steps_call_completed env (fun _ => True)); [apply Hany|].
  intros step1Raw _. apply steps_emit. cbv zeta.
  apply (steps_call_completed env _ _ _ _ (Hjson _)).
  intros step1Parsed [t1 Ht1]. apply steps_emit.
  apply (steps_parse_clean env _ _ t1 _ _ Ht1).
  apply (steps_call_completed env (fun _ => True)); [apply Hany|].
  intros step2Raw _. apply steps_emit. cbv zeta.
  apply (steps_call_completed env _ _ _ _ (Hjson _)).
  intros step2Parsed [t2 Ht2]. apply steps_emit.
  apply (steps_parse_clean env _ _ t2 _ _ Ht2).
  apply (steps_call_completed env (fun _ => True)); [apply Hany|].
  intros step3Raw _. apply steps_emit. cbv zeta.
  apply (steps_call_completed env _ _ _ _ (Hjson _)).
  intros step3Parsed [t3 Ht3]. apply steps_emit.
  apply (steps_parse_clean env _ _ t3 _ _ Ht3).
  apply steps_ret.
  exists t1, t2, t3, (orEmpty step1Raw), (orEmpty step2Raw), (orEmpty step3Raw).
  split; reflexivity.
Qed.

(** ** Text extraction from uploaded files *)

Section FileText.
Import Files.
Variable env : Env.
Variable parsers : Parsers.

Lemma trim_idempotent s : trim (trim s) = trim s.
Proof.
  unfold trim at 2 3.
  destruct (stripped_ends isWhiteSpace s) as [->|(c & t & Hr & Hc & Hl)];
    [reflexivity|].
  rewrite Hr in Hl |- *. now apply trim_unpadded_fixed.
Qed.

Lemma trim_blank s : Forall (fun c => isWhiteSpace c = true) s -> trim s = [].
Proof.
  intros Hall. unfold trim.
  assert (Hdrop : dropWhile isWhiteSpace s = []).
  { induction Hall as [|c s Hc _ IH]; [reflexivity|].
    cbn [dropWhile]. now rewrite Hc. }
  now rewrite Hdrop.
Qed.

Lemma pdfBranch_result buf :
  match fst (pdfBranch env parsers buf) with
  | Ok text => trim text = text
  | Err e => exists m, e = JsError (js "PDF parsing failed: " ++ m)
  end.
Proof.
  unfold pdfBranch.
  destruct (PDF parsers buf) as [[[|c text]|]|e]; cbn [fst]; eauto.
  apply trim_idempotent.
Qed.

Lemma wordBranch_result buf :
  match fst (wordBranch env parsers buf) with
  | Ok text => trim text = text
  | Err e => exists m, e = JsError (js "Word document parsing failed: " ++ m)
  end.
Proof.
  unfold wordBranch.
  destruct (extractRawText parsers buf) as [[text messages]|e]; cbn [fst];
    eauto.
  apply trim_idempotent.
Qed.

Lemma pagesText_app good rest acc :
  pagesText (map (@Ok jsstring) good ++ rest) acc
  = pagesText rest (acc ++ List.concat (map (fun t => t ++ nl) good)).
Proof.
  revert acc. induction good as [|t good IH]; intros acc.
  - cbn. now rewrite app_nil_r.
  - cbn [map app pagesText List.concat]. rewrite IH.
    now rewrite <- !app_assoc.
Qed.

End FileText.

(** X23. What text extraction gives.  A text it returns is trimmed, and is
    returned only for a PDF or a Word document with a buffer that is not
    empty.  Every failure is an [Error] whose message is
    [Failed to process file: ] followed by one of four reasons: the empty
    buffer, the unsupported type, or a failure of the PDF or of the Word
    parser with the parser's own message. *)
Theorem extraction_result_shape (env : Env) (parsers : Files.Parsers)
  (file : Files.File) :
  match fst (Files.extractTextFromFile env parsers file) with
  | Ok text =>
      trim text = text
      /\ (Files.mimetype file = js "application/pdf"
          \/ Files.mimetype file
             = js "application/vnd.openxmlformats-officedocument.wordprocessingml.document")
      /\ exists b bs, Files.buffer file = Some (b :: bs)
  | Err e =>
      exists reason,
        e = JsError (js "Failed to process file: " ++ reason)
        /\ (reason = js "Empty file buffer received"
            \/ reason = js "Unsupported file type"
            \/ (exists m, reason = js "PDF parsing failed: " ++ m)
            \/ (exists m, reason = js "Word document parsing failed: " ++ m))
  end.
Proof.
  unfold Files.extractTextFromFile.
  destruct (Files.buffer file) as [[|b bs]|].
  - cbn [fst]. eexists. split; [reflexivity|]. now left.
  - destruct (Str.eqb (Files.mimetype file) Files.pdfType) eqn:Epdf.
    + apply str_eqb_eq in Epdf.
      pose proof (pdfBranch_result env parsers (b :: bs)) as H.
      destruct (Files.pdfBranch env parsers (b :: bs)) as [[text|e] log];
        cbn [fst] in *.
      * split; [exact H|]. split; [now left|eauto].
      * destruct H as [m ->]. eexists. split; [reflexivity|].
        right. right. left. exists m. reflexivity.
    + destruct (Str.eqb (Files.mimetype file) Files.docxType) eqn:Edoc.
      * apply str_eqb_eq in Edoc.
        pose proof (wordBranch_result env parsers (b :: bs)) as H.
        destruct (Files.wordBranch env parsers (b :: bs)) as [[text|e] log];
          cbn [fst] in *.
        -- split; [exact H|]. split; [now right|eauto].
        -- destruct H as [m ->]. eexists. split; [reflexivity|].
           right. right. right. exists m. reflexivity.
      * cbn [fst]. eexists. split; [reflexivity|]. right. now left.
  - cbn [fst]. eexists. split; [reflexivity|]. now left.
Qed.

(** X24. Uploads that no parser sees.  A file whose buffer is missing or
    empty is refused for that reason whatever its type, also a type that is
    not supported; a file of another type than PDF and Word is refused as
    unsupported.  In both cases the result does not depend on the
    parsers, and the log holds the file's details and the failure. *)
Theorem upload_refused_before_parsing (env : Env) (parsers : Files.Parsers)
  (file : Files.File) :
  let details e :=
    [ Files.Processing (Files.mimetype file) (Files.size file)
        (Files.originalname file);
      Files.ExtractFailed (JsError e) (Files.mimetype file) (Files.size file)
        (Files.originalname file) ] in
  (Files.buffer file = None \/ Files.buffer file = Some [] ->
   Files.extractTextFromFile env parsers file
   = (Err (JsError (js "Failed to process file: Empty file buffer received")),
      details (js "Empty file buffer received")))
  /\ ((exists b bs, Files.buffer file = Some (b :: bs)) ->
      Files.mimetype file <> js "application/pdf" ->
      Files.mimetype file
      <> js "application/vnd.openxmlformats-officedocument.wordprocessingml.document" ->
      Files.extractTextFromFile env parsers file
      = (Err (JsError (js "Failed to process file: Unsupported file type")),
         details (js "Unsupported file type"))).
Proof.
  cbv zeta. unfold Files.extractTextFromFile. split.
  - intros [->| ->]; reflexivity.
  - intros (b & bs & ->) Hpdf Hdoc.
    apply str_eqb_neq in Hpdf, Hdoc.
    unfold Files.pdfType, Files.docxType. rewrite Hpdf, Hdoc. reflexivity.
Qed.

(** X25. Documents without text.  A PDF for which the parser gives no data,
    no text or the empty text is an error; a PDF whose text is white space
    only, and a Word document whose text is empty or white space only, give
    the empty string. *)
Theorem documents_without_text (env : Env) (parsers : Files.Parsers)
  (file : Files.File) (b : N) (bs : list N) :
  Files.buffer file = Some (b :: bs) ->
  (Files.mimetype file = js "application/pdf" ->
   (Files.PDF parsers (b :: bs) = Ok None
    \/ Files.PDF parsers (b :: bs) = Ok (Some []) ->
    fst (Files.extractTextFromFile env parsers file)
    = Err (JsError (js "Failed to process file: PDF parsing failed: Failed to extract text from PDF")))
   /\ (forall c text,
         Files.PDF parsers (b :: bs) = Ok (Some (c :: text)) ->
         Forall (fun c => isWhiteSpace c = true) (c :: text) ->
         fst (Files.extractTextFromFile env parsers file) = Ok []))
  /\ (Files.mimetype file
      = js "application/vnd.openxmlformats-officedocument.wordprocessingml.document" ->
      forall text messages,
        Files.extractRawText parsers (b :: bs) = Ok (text, messages) ->
        Forall (fun c => isWhiteSpace c = true) text ->
        fst (Files.extractTextFromFile env parsers file) = Ok []).
Proof.
  intros Hbuf. unfold Files.extractTextFromFile. rewrite Hbuf. split.
  - intros ->.
    change (Str.eqb (js "application/pdf") Files.pdfType) with true.
    cbv iota. unfold Files.pdfBranch. split.
    + intros [-> | ->]; reflexivity.
    + intros c text -> Hblank. cbn [fst]. now rewrite trim_blank.
  - intros -> text messages Hword Hblank.
    replace (Str.eqb _ Files.pdfType) with false by (vm_compute; reflexivity).
    replace (Str.eqb _ Files.docxType) with true by (vm_compute; reflexivity).
    cbv iota. unfold Files.wordBranch. rewrite Hword. cbn [fst].
    now rewrite trim_blank.
Qed.

(** X26. The log of an extraction begins with the file's details; it ends
    with the failure, and the file's details again, exactly when the
    extraction fails. *)
Theorem extraction_log (env : Env) (parsers : Files.Parsers)
  (file : Files.File) :
  let r := Files.extractTextFromFile env parsers file in
  hd_error (snd r)
  = Some (Files.Processing (Files.mimetype file) (Files.size file)
            (Files.originalname file))
  /\ ((exists e, fst r = Err e)
      <-> exists e,
            last (snd r) (Files.PdfParsed 0)
            = Files.ExtractFailed e (Files.mimetype file) (Files.size file)
                (Files.originalname file)).
Proof.
  cbv zeta. unfold Files.extractTextFromFile, Files.pdfBranch, Files.wordBranch.
  destruct (Files.buffer file) as [[|b bs]|];
    [|destruct (Str.eqb (Files.mimetype file) Files.pdfType);
      [destruct (Files.PDF parsers (b :: bs)) as [[[|c text]|]|e]
      |destruct (Str.eqb (Files.mimetype file) Files.docxType);
       [destruct (Files.extractRawText parsers (b :: bs))
          as [[text [|m ms]]|e]|]]|];
    cbn [fst snd app last hd_error];
    (split; [reflexivity|]);
    (split; intros [e' He]; [try discriminate He|try discriminate He]);
    eexists; reflexivity.
Qed.

Section PdfPages.
Import Files.
Variable env : Env.
Variable parsers : Parsers.

Lemma pagesText_first_failure good e rest :
  pagesText (map (@Ok jsstring) good ++ Err e :: rest) [] = Err e.
Proof. rewrite pagesText_app. reflexivity. Qed.

End PdfPages.

(** X27. Reading a PDF page by page fails as a whole.  When the document
    does not load, or reading one of its pages throws, the error of the
    load, or of the first such page, is logged and reported as
    [Failed to extract text from PDF: ...]: the text of the pages read
    before it is dropped and no later page is read.  A document that loads
    and has no page gives the empty string. *)
Theorem pdf_text_failures (env : Env) (parsers : Files.Parsers)
  (buf : list N) :
  (Files.load parsers buf = Ok [] ->
   Files.extractTextFromPDF env parsers buf = (Ok [], []))
  /\ (forall e,
        Files.load parsers buf = Err e
        \/ (exists good rest,
              Files.load parsers buf
              = Ok (map (@Ok jsstring) good ++ Err e :: rest)) ->
        Files.extractTextFromPDF env parsers buf
        = (Err (JsError (js "Failed to extract text from PDF: "
                         ++ errorMessage env e)),
           [Files.PdfTextFailed e])).
Proof.
  unfold Files.extractTextFromPDF. split.
  - intros ->. reflexivity.
  - intros e [->|(good & rest & ->)]; [reflexivity|].
    now rewrite pagesText_first_failure.
Qed.

(** ** The further properties on concrete runs *)

Lemma repair_requests_keep_context_witness :
  let req :=
    repairRequest Scripted.env [] (SyntaxError (js "{oops")) (js "{oops") in
  model req = js "gpt-4"
  /\ exists text,
       JSON_parse text = None
       /\ messages req
          = [] ++ [ {| role := System;
                       content :=
                         repairPrompt
                           (String_ Scripted.env (SyntaxError text)) text |} ].
Proof.
  apply (repair_requests_keep_context Scripted.env [] (js "{oops") 2 []).
  vm_compute. left. reflexivity.
Defined.

Lemma repair_rejection_propagates_witness :
  let r :=
    run (parseJsonWithRetry
           (Scripted.always (Rejected None (Some (js "overloaded"))))
           [] (js "{oops") 1) tt in
  outcome r = Throw (ApiError None (Some (js "overloaded")))
  /\ List.length (calls (events r)) = 1.
Proof.
  apply (repair_rejection_propagates
           (Scripted.always (Rejected None (Some (js "overloaded"))))
           [] (js "{oops") 1 tt None (Some (js "overloaded"))).
  - lia.
  - vm_compute. reflexivity.
  - reflexivity.
Defined.

Lemma negative_budget_fails_witness :
  let r := run (parseJsonWithRetry Scripted.env [] (js "{}") (-1)) [] in
  outcome r = Throw (JsError (js "Failed to parse JSON unexpectedly."))
  /\ events r = [].
Proof.
  apply (negative_budget_fails Scripted.env [] (js "{}") (-1) []). lia.
Defined.

Lemma first_repair_heals_witness :
  let r :=
    run (parseJsonWithRetry (Scripted.always (Scripted.says (js "([1])")))
           [] (js "[1,") 2) tt in
  outcome r
  = Ret (VArray [VNumber {| neg := false; coeff := 1; exp10 := 0 |}])
  /\ List.length (calls (events r)) = 1.
Proof.
  apply (first_repair_heals (Scripted.always (Scripted.says (js "([1])")))
           [] (js "[1,") 2 tt (js "(") (js "[1]") (js ")")).
  - lia.
  - vm_compute. reflexivity.
  - reflexivity.
  - apply wrap_char; [reflexivity|apply wrap_nil].
  - apply wrap_char; [reflexivity|apply wrap_nil].
  - vm_compute. reflexivity.
  - vm_compute. reflexivity.
Defined.

Lemma plan_snapshot_witness :
  let line :=
    VObject
      [ (js "taskId", VString (js "1.1"));
        (js "lcat", VString (js "Program Manager"));
        (js "hours", VNumber {| neg := false; coeff := 1880; exp10 := 0 |});
        (js "mathRationale", VString (js "1 FTE x 1880 hr = 1880 hr"));
        (js "basis", VString (js "RFP section C.5"));
        (js "rate", VNumber {| neg := false; coeff := 95; exp10 := 0 |}) ] in
  let other :=
    VObject
      [ (js "finalStaffingPlan",
         VObject [(js "tasks", VArray [line]); (js "approved", VBool true)]);
        (js "id", VString (js "plan-2")) ] in
  trimPlanData examplePlan
  = Ok (VObject
          [(js "finalStaffingPlan",
            VObject
              [(js "tasks",
                VArray
                  [VObject
                     [ (js "taskId", VString (js "1.1"));
                       (js "lcat", VString (js "Program Manager"));
                       (js "hours",
                        VNumber {| neg := false; coeff := 1880;
                                   exp10 := 0 |});
                       (js "mathRationale",
                        VString (js "1 FTE x 1880 hr = 1880 hr"));
                       (js "basis", VString (js "RFP section C.5")) ]])])])
  /\ events (run (getChatResponse Scripted.env (Some (js "Cut the hours"))
                    examplePlan None [])
               [Scripted.says negativeHoursReply])
     = events (run (getChatResponse Scripted.env (Some (js "Cut the hours"))
                      other None [])
                 [Scripted.says negativeHoursReply]).
Proof.
  cbv zeta.
  destruct (plan_snapshot examplePlan
              (VObject
                 [(js "tasks",
                   VArray
                     [VObject
                        [ (js "taskId", VString (js "1.1"));
                          (js "lcat", VString (js "Program Manager"));
                          (js "hours",
                           VNumber {| neg := false; coeff := 1880;
                                      exp10 := 0 |});
                          (js "mathRationale",
                           VString (js "1 FTE x 1880 hr = 1880 hr"));
                          (js "basis", VString (js "RFP section C.5")) ]])])
              [VObject
                 [ (js "taskId", VString (js "1.1"));
                   (js "lcat", VString (js "Program Manager"));
                   (js "hours",
                    VNumber {| neg := false; coeff := 1880; exp10 := 0 |});
                   (js "mathRationale",
                    VString (js "1 FTE x 1880 hr = 1880 hr"));
                   (js "basis", VString (js "RFP section C.5")) ]])
    as [Hshape Hreach].
  - vm_compute. reflexivity.
  - vm_compute. reflexivity.
  - constructor; [split; discriminate|constructor].
  - split.
    + rewrite Hshape. vm_compute. reflexivity.
    + eapply Hreach.
      * vm_compute. reflexivity.
      * vm_compute. reflexivity.
      * constructor; [split; discriminate|constructor].
      * constructor; [|constructor]. repeat split; vm_compute; reflexivity.
Defined.

Lemma bad_plan_throws_before_call_witness :
  let r :=
    run (getChatResponse Scripted.env (Some (js "hello"))
           (VObject
              [(js "finalStaffingPlan",
                VObject [(js "tasks", VString (js "none yet"))])])
           None [])
      [Scripted.says (js "hi")] in
  (exists what, outcome r = Throw (TypeError what)) /\ events r = [].
Proof.
  apply (bad_plan_throws_before_call Scripted.env (Some (js "hello"))
           (VObject
              [(js "finalStaffingPlan",
                VObject [(js "tasks", VString (js "none yet"))])])
           None [] [Scripted.says (js "hi")]).
  - reflexivity.
  - left. reflexivity.
Defined.

Lemma answer_is_well_formed_witness :
  let answer :=
    {| message := js "One: Program Manager.";
       updatedPlan := None;
       error := None |} in
  message answer <> []
  /\ (updatedPlan answer = None \/ error answer = None).
Proof.
  apply (answer_is_well_formed Scripted.env
           (Some (js "What labor categories were used?")) examplePlan None []
           [Scripted.says (js "One: Program Manager.")]).
  vm_compute. reflexivity.
Defined.

Lemma throws_only_two_ways_witness :
  let planData := VNull in
  let w := [Rejected (Some (js "rate_limit_exceeded")) (Some (js "slow down"))] in
  let e := JsError (js "Failed to get AI response: slow down") in
  (exists what,
     e = TypeError what
     /\ events (run (getChatResponse Scripted.env (Some (js "hello")) planData
                       None []) w) = [])
  \/ (exists code msg,
        e = JsError (js "Failed to get AI response: " ++ orUndefined msg)
        /\ code <> Some (js "context_length_exceeded")
        /\ exists trimmed,
             trimPlanData planData = Ok trimmed
             /\ fst (create Scripted.env
                       (requestOf Scripted.env (Some (js "hello")) trimmed
                          None []) w)
                = Rejected code msg).
Proof.
  destruct (throws_only_two_ways Scripted.env (Some (js "hello")) VNull None []
              [Rejected (Some (js "rate_limit_exceeded"))
                 (Some (js "slow down"))]) as [_ H].
  apply (H (JsError (js "Failed to get AI response: slow down"))).
  vm_compute. reflexivity.
Defined.

Lemma request_is_bounded_witness :
  exists system rest,
    messages (requestOf Scripted.env (Some (js "hello")) VNull None [])
    = system :: rest
    /\ role system = System
    /\ List.length rest <= 6.
Proof.
  apply (request_is_bounded Scripted.env (Some (js "hello")) VNull None
           [Scripted.says (js "hi")] []).
  vm_compute. left. reflexivity.
Defined.

Lemma older_history_is_ignored_witness :
  let said text := {| h_role := User; h_content := Some text |} in
  let recent :=
    [said (js "2"); said (js "3"); said (js "4"); said (js "5");
     said (js "6")] in
  run (getChatResponse Scripted.env (Some (js "hello")) VNull None
         ([said (js "1")] ++ recent)) [Scripted.says (js "hi")]
  = run (getChatResponse Scripted.env (Some (js "hello")) VNull None recent)
      [Scripted.says (js "hi")].
Proof.
  cbv zeta.
  apply (older_history_is_ignored Scripted.env (Some (js "hello")) VNull None
           [Scripted.says (js "hi")]).
  cbn [List.length]. lia.
Defined.

Lemma rfp_excerpt_is_bounded_witness :
  run (getChatResponse Scripted.env (Some (js "hello")) VNull
         (Some (repeat 65%N 1000 ++ js "one end")) [])
    [Scripted.says (js "hi")]
  = run (getChatResponse Scripted.env (Some (js "hello")) VNull
           (Some (repeat 65%N 1000 ++ js "another end")) [])
      [Scripted.says (js "hi")].
Proof.
  apply (rfp_excerpt_is_bounded Scripted.env (Some (js "hello")) VNull
           [Scripted.says (js "hi")] []).
  apply repeat_length.
Defined.

Lemma update_part_between_markers_witness :
  updatePartOf (js "Done. " ++ marker ++ js " {} ") = Ok (trim (js " {} "))
  /\ forall tail,
       updatePartOf (js "Done. " ++ marker ++ js " {} " ++ marker ++ tail)
       = Ok (trim (js " {} ")).
Proof.
  apply (update_part_between_markers (js "Done. ") (js " {} "));
    vm_compute; reflexivity.
Defined.

Lemma validation_names_first_bad_line_witness :
  let line :=
    VObject
      [ (js "taskId", VString (js "1.1"));
        (js "lcat", VString (js "Engineer"));
        (js "hours", VNumber {| neg := false; coeff := 40; exp10 := 0 |}) ] in
  checkTasks ([line] ++ VObject [(js "taskId", VString (js "1.2"))] :: [line]) 0
  = Err (JsError (js "Invalid task format at index "
                  ++ numeral (List.length [line]))).
Proof.
  cbv zeta.
  apply validation_names_first_bad_line.
  - constructor; [reflexivity|constructor].
  - reflexivity.
  - discriminate.
  - discriminate.
Defined.

Lemma plan_comes_from_three_stages_witness :
  let rfpText := js "Staff a help desk for one year." in
  let w :=
    [ Scripted.says (js "Task 1: help desk");
      Scripted.says (js "{oops");
      Scripted.says (js "{}");
      Scripted.says (js "Task 1: one technician");
      Scripted.says (js "[]");
      Scripted.says (js "Task 1: 1880 hours");
      Scripted.says (js "[1]") ] in
  let r :=
    run (generateStaffingPlan Scripted.env (fun _ => js "2") rfpText top_down
           None) w in
  exists t1 t2 t3,
    planOf (VObject []) (VArray [])
      (VArray [VNumber {| neg := false; coeff := 1; exp10 := 0 |}])
    = VObject [ (js "step1Tasks", t1);
                (js "step2TasksWithLCATs", t2);
                (js "finalStaffingPlan", t3) ]
    /\ parsed t1 /\ parsed t2 /\ parsed t3
    /\ 6 <= List.length (calls (events r))
    /\ stagesAnswered Scripted.env (fun _ => js "2") rfpText top_down None
         t1 t2 t3 (calls (events r))
         (answers Scripted.env w (calls (events r))).
Proof.
  apply (plan_comes_from_three_stages Scripted.env (fun _ => js "2")
           (js "Staff a help desk for one year.") top_down None).
  vm_compute. reflexivity.
Defined.

Lemma pipeline_failures_witness :
  let e := ApiError (Some (js "rate_limit_exceeded")) None in
  e = JsError (js "Failed to parse JSON (max retries exceeded)")
  \/ exists code msg, e = ApiError code msg.
Proof.
  apply (pipeline_failures Scripted.env (fun _ => js "2")
           (js "Staff a help desk for one year.") bottom_up
           (Some {| neg := false; coeff := 2; exp10 := 0 |})
           [ Scripted.says (js "Task 1: help desk");
             Rejected (Some (js "rate_limit_exceeded")) None ]).
  vm_compute. reflexivity.
Defined.

Lemma pipeline_gives_up_at_stage_one_witness :
  let env := Scripted.always (Scripted.says (js "I cannot do that")) in
  let rfpText := js "Staff a help desk for one year." in
  let r :=
    run (generateStaffingPlan env (fun _ => js "2") rfpText top_down None) tt
  in
  outcome r = Throw (JsError (js "Failed to parse JSON (max retries exceeded)"))
  /\ exists raw reps,
       calls (events r)
       = stageCalls (reasoningRequest 10000 (step1Prompt rfpText))
           step1ParserSystem raw reps
       /\ List.length reps = 2
       /\ Forall (repairs env (parserPrompt step1ParserSystem raw)) reps.
Proof.
  apply (pipeline_gives_up_at_stage_one
           (Scripted.always (Scripted.says (js "I cannot do that")))).
  intros req w. exists (Some (js "I cannot do that")). split.
  - reflexivity.
  - vm_compute. reflexivity.
Defined.

Lemma clean_run_takes_six_calls_witness :
  let env := Scripted.always (Scripted.says (js "{}")) in
  let rfpText := js "Staff a help desk for one year." in
  let r :=
    run (generateStaffingPlan env (fun _ => js "2") rfpText top_down None) tt
  in
  exists t1 t2 t3 raw1 raw2 raw3,
    outcome r = Ret (planOf t1 t2 t3)
    /\ calls (events r)
       = [ reasoningRequest 10000 (step1Prompt rfpText);
           parserRequest (parserPrompt step1ParserSystem raw1);
           step2Request env t1;
           parserRequest (parserPrompt step2ParserSystem raw2);
           step3Request env (fun _ => js "2") t2 top_down None;
           parserRequest (parserPrompt step3ParserSystem raw3) ].
Proof.
  apply (clean_run_takes_six_calls (Scripted.always (Scripted.says (js "{}")))).
  intros req w. exists (Some (js "{}")), (VObject []). split.
  - reflexivity.
  - vm_compute. reflexivity.
Defined.

Lemma upload_refused_before_parsing_witness :
  let file :=
    {| Files.buffer := Some [];
       Files.mimetype := js "text/plain";
       Files.size := 0;
       Files.originalname := js "notes.txt" |} in
  let parsers :=
    {| Files.PDF := fun _ => Ok (Some (js "text"));
       Files.extractRawText := fun _ => Ok (js "text", []);
       Files.load := fun _ => Ok [] |} in
  fst (Files.extractTextFromFile Scripted.env parsers file)
  = Err (JsError (js "Failed to process file: Empty file buffer received")).
Proof.
  cbv zeta.
  destruct (upload_refused_before_parsing Scripted.env
              {| Files.PDF := fun _ => Ok (Some (js "text"));
                 Files.extractRawText := fun _ => Ok (js "text", []);
                 Files.load := fun _ => Ok [] |}
              {| Files.buffer := Some [];
                 Files.mimetype := js "text/plain";
                 Files.size := 0;
                 Files.originalname := js "notes.txt" |}) as [H _].
  rewrite H; [reflexivity|]. right. reflexivity.
Defined.

Lemma documents_without_text_witness :
  let file :=
    {| Files.buffer := Some [37; 80; 68; 70]%N;
       Files.mimetype := js "application/pdf";
       Files.size := 4;
       Files.originalname := js "scan.pdf" |} in
  let parsers :=
    {| Files.PDF := fun _ => Ok (Some []);
       Files.extractRawText := fun _ => Ok ([], []);
       Files.load := fun _ => Ok [] |} in
  fst (Files.extractTextFromFile Scripted.env parsers file)
  = Err (JsError (js "Failed to process file: PDF parsing failed: Failed to extract text from PDF")).
Proof.
  cbv zeta.
  destruct (documents_without_text Scripted.env
              {| Files.PDF := fun _ => Ok (Some []);
                 Files.extractRawText := fun _ => Ok ([], []);
                 Files.load := fun _ => Ok [] |}
              {| Files.buffer := Some [37; 80; 68; 70]%N;
                 Files.mimetype := js "application/pdf";
                 Files.size := 4;
                 Files.originalname := js "scan.pdf" |}
              37%N [80; 68; 70]%N eq_refl) as [H _].
  destruct (H eq_refl) as [Hnone _]. apply Hnone. right. reflexivity.
Defined.

Lemma pdf_text_failures_witness :
  let env :=
    {| World := unit;
       create := fun _ _ => (Completed None, tt);
       JSON_stringify := fun _ => js "{}";
       nativeMessage := fun _ => js "page.getText is not a function" |} in
  let noSuchMethod := TypeError (js "page.getText") in
  let parsers :=
    {| Files.PDF := fun _ => Ok None;
       Files.extractRawText := fun _ => Ok ([], []);
       Files.load := fun _ => Ok [Err noSuchMethod; Err noSuchMethod] |} in
  Files.extractTextFromPDF env parsers [37; 80; 68; 70]%N
  = (Err (JsError (js "Failed to extract text from PDF: page.getText is not a function")),
     [Files.PdfTextFailed noSuchMethod]).
Proof.
  cbv zeta.
  destruct (pdf_text_failures
              {| World := unit;
                 create := fun _ _ => (Completed None, tt);
                 JSON_stringify := fun _ => js "{}";
                 nativeMessage :=
                   fun _ => js "page.getText is not a function" |}
              {| Files.PDF := fun _ => Ok None;
                 Files.extractRawText := fun _ => Ok ([], []);
                 Files.load :=
                   fun _ => Ok [Err (TypeError (js "page.getText"));
                                Err (TypeError (js "page.getText"))] |}
              [37; 80; 68; 70]%N) as [_ H].
  rewrite (H (TypeError (js "page.getText"))); [reflexivity|].
  right. exists [], [Err (TypeError (js "page.getText"))]. reflexivity.
Defined.

(** The six templates, with nothing interpolated, have the lengths of the
    template literals of the source. *)
Example prompt_templates :
  map (@List.length N)
    [ step1Prompt []; step1ParserSystem; step2Prompt []; step2ParserSystem;
      step3Prompt [] [] []; step3ParserSystem ]
  = [788; 438; 746; 574; 1148; 448].
Proof. vm_compute. reflexivity. Qed.
